(** * Financial document analyzer: job pipeline, status tracking and reaper

    A shallow embedding of the Python sources [main.py], [db_models.py],
    [tasks.py] and [tools.py], and the properties of the asynchronous
    analysis pipeline proved about it.

    Conventions of the embedding.
    - A Python [str] is a Stdlib [string], one [ascii] per character (code
      points below 256); [bytes] is [list byte].
    - Python integers, [time.time()] and [datetime.utcnow()] are [Z]
      (seconds since the epoch).
    - A Python computation that may raise is a [result]; code that also
      reads or changes the file system, the database or the clock is a
      computation in the monad [M] over [world].  A raised exception keeps
      the changes made before it, as in Python.
    - The collaborators outside the repository (the PDF reader, the four
      crews, the JSON encoder) are the fields of a record [capabilities];
      the uuid the endpoint draws is an argument of the endpoint.
    - The database is an in-memory store whose commits succeed, except
      where the sources handle a failing commit themselves; the foreign
      keys of the schema are not modelled, so that what is said of a
      stored result row or audit entry is said of a job whose row exists
      and of a user id that is [None] or that of a user. *)

From Stdlib Require Import ZArith String Ascii List Bool Lia DecimalString.
From Stdlib.Strings Require Import Byte.
From stdpp Require Import base option list gmap strings fin_maps.

Local Open Scope string_scope.
Local Open Scope list_scope.
Local Open Scope Z_scope.

(** ** Exceptions and results *)

(** The exception classes the sources raise or catch.  All of them are
    subclasses of Python's [Exception]; [Exception_] stands for any class
    that none of the handlers names.  [Retry] is Celery's retry request,
    carrying the countdown and the exception given as [exc]. *)
Inductive exn : Type :=
| SoftTimeLimitExceeded
| ValueError (msg : string)
| FileNotFoundError (msg : string)
| PermissionError (msg : string)
| HTTPException (status_code : Z) (detail : string)
| Exception_ (msg : string)
| Retry (countdown : Z) (exc : exn).

Inductive result (A : Type) : Type :=
| Ok (a : A)
| Raise (e : exn).
Arguments Ok {A} a.
Arguments Raise {A} e.

#[global] Instance result_ret : MRet result := λ A a, Ok a.
#[global] Instance result_bind : MBind result := λ A B f m,
  match m with
  | Ok a => f a
  | Raise e => Raise e
  end.

(** [str] of an integer. *)
Definition str_int (n : Z) : string := NilZero.string_of_int (Z.to_int n).

(** [str(e)] for the exceptions above: the message the exception was
    made with, and for an [HTTPException] the status code, a colon and
    the detail.  No code of the repository takes [str] of a retry
    request of its own; for one raised by a collaborator the text of the
    exception it carries stands in for Celery's own wording. *)
Fixpoint str_exn (e : exn) : string :=
  match e with
  | SoftTimeLimitExceeded => "SoftTimeLimitExceeded()"
  | ValueError msg => msg
  | FileNotFoundError msg => msg
  | PermissionError msg => msg
  | HTTPException status_code detail => str_int status_code +:+ ": " +:+ detail
  | Exception_ msg => msg
  | Retry _ exc => str_exn exc
  end.

(** ** Strings and bytes *)

(** [str.lower] on code points below 256: the ASCII capitals and the
    Latin-1 capitals (192..222 but the multiplication sign 215). *)
Definition lower_ascii (c : ascii) : ascii :=
  let n := N_of_ascii c in
  if ((65 <=? n) && (n <=? 90))%N || ((192 <=? n) && (n <=? 222) && negb (n =? 215))%N
  then ascii_of_N (n + 32)
  else c.

Fixpoint lower (s : string) : string :=
  match s with
  | EmptyString => EmptyString
  | String c s' => String (lower_ascii c) (lower s')
  end.

(** [s.endswith(suf)] *)
Definition endswith (s suf : string) : bool :=
  (String.length suf <=? String.length s)%nat &&
  String.eqb (substring (String.length s - String.length suf) (String.length suf) s) suf.

(** [s.startswith(pre)] *)
Definition startswith (s pre : string) : bool := String.prefix pre s.

(** [str.isspace] on one code point below 256. *)
Definition is_space (c : ascii) : bool :=
  let n := N_of_ascii c in
  (((9 <=? n) && (n <=? 13)) || ((28 <=? n) && (n <=? 32)) || (n =? 133) || (n =? 160))%N.

Fixpoint lstrip (s : string) : string :=
  match s with
  | EmptyString => EmptyString
  | String c s' => if is_space c then lstrip s' else s
  end.

(** A string backwards, [s[::-1]]. *)
Fixpoint reverse_onto (s acc : string) : string :=
  match s with
  | EmptyString => acc
  | String c s' => reverse_onto s' (String c acc)
  end.

Definition reverse (s : string) : string := reverse_onto s "".

Definition rstrip (s : string) : string := reverse (lstrip (reverse s)).

(** [s.strip()] *)
Definition strip (s : string) : string := rstrip (lstrip s).

(** [s.split()] without arguments: the maximal runs of non-space
    characters.  [cur] is the run being read, backwards. *)
Fixpoint split_ws (cur : string) (s : string) : list string :=
  match s with
  | EmptyString =>
      match cur with
      | EmptyString => []
      | _ => [reverse cur]
      end
  | String c s' =>
      if is_space c
      then match cur with
           | EmptyString => split_ws "" s'
           | _ => reverse cur :: split_ws "" s'
           end
      else split_ws (String c cur) s'
  end.

Definition split (s : string) : list string := split_ws "" s.

(** [sep.join(parts)] *)
Fixpoint join (sep : string) (parts : list string) : string :=
  match parts with
  | [] => ""
  | [p] => p
  | p :: rest => p +:+ sep +:+ join sep rest
  end.

(** Truth value of a [str]: non-empty. *)
Definition truthy_str (s : string) : bool := negb (String.eqb s "").

(** Truth value of an optional [str] argument ([None] or a string). *)
Definition truthy_ostr (o : option string) : bool :=
  match o with
  | Some s => truthy_str s
  | None => false
  end.

Fixpoint bytes_eqb (a b : list byte) : bool :=
  match a, b with
  | [], [] => true
  | x :: a', y :: b' => Byte.eqb x y && bytes_eqb a' b'
  | _, _ => false
  end.

(** [b'%PDF'] *)
Definition PDF_HEADER : list byte := [x25; x50; x44; x46].

(** ** main.py: validation of an uploaded file *)

Definition MAX_FILE_SIZE : Z := 10 * 1024 * 1024.

(** The operating-system calls [validate_pdf_file] makes, each with every
    outcome it can have: [os.path.exists] never raises, [os.path.getsize]
    returns the size or raises, and [open(p, 'rb')] followed by [read(n)]
    returns at most [n] bytes or raises. *)
Record os_calls : Type := {
  os_path_exists : string → bool;
  os_path_getsize : string → result Z;
  open_rb_read : string → nat → result (list byte)
}.

(** The [try] block of [validate_pdf_file]. *)
Definition validate_pdf_file_try (os : os_calls) (file_path : string) : result bool :=
  if negb (os_path_exists os file_path) then Ok false
  else if negb (endswith (lower file_path) ".pdf") then Ok false
  else
    file_size ← os_path_getsize os file_path;
    if file_size >? MAX_FILE_SIZE then Ok false
    else
      header ← open_rb_read os file_path 4;
      if negb (bytes_eqb header PDF_HEADER) then Ok false
      else Ok true.

(** [validate_pdf_file]: the block above under [except Exception: return
    False]. *)
Definition validate_pdf_file (os : os_calls) (file_path : string) : result bool :=
  match validate_pdf_file_try os file_path with
  | Ok b => Ok b
  | Raise _ => Ok false
  end.

(** ** The world: file system, database, clock, invocation log *)

(** A directory entry.  [n_stat] is the modification time [os.stat]
    reports, or [None] when [os.stat] fails on the entry (a dangling
    link: listed by its directory, but it does not "exist");
    [n_readable] tells whether [open] succeeds and [n_removable]
    whether [os.remove] does. *)
Record node : Type := {
  n_data : list byte;
  n_stat : option Z;
  n_readable : bool;
  n_removable : bool
}.

Abbreviation filesystem := (gmap string node).

Definition path_exists (fs : filesystem) (p : string) : bool :=
  match fs !! p with
  | Some n => match n_stat n with Some _ => true | None => false end
  | None => false
  end.

Definition path_getsize (fs : filesystem) (p : string) : result Z :=
  match fs !! p with
  | Some n => match n_stat n with
              | Some _ => Ok (Z.of_nat (length (n_data n)))
              | None => Raise (FileNotFoundError p)
              end
  | None => Raise (FileNotFoundError p)
  end.

Definition path_getmtime (fs : filesystem) (p : string) : result Z :=
  match fs !! p with
  | Some n => match n_stat n with
              | Some t => Ok t
              | None => Raise (FileNotFoundError p)
              end
  | None => Raise (FileNotFoundError p)
  end.

(** [open(p, 'rb')] and the whole content. *)
Definition path_read (fs : filesystem) (p : string) : result (list byte) :=
  match fs !! p with
  | Some n => match n_stat n with
              | Some _ => if n_readable n then Ok (n_data n) else Raise (PermissionError p)
              | None => Raise (FileNotFoundError p)
              end
  | None => Raise (FileNotFoundError p)
  end.

(** [os.remove(p)]: the outcome and the file system after it. *)
Definition path_remove (fs : filesystem) (p : string) : result unit * filesystem :=
  match fs !! p with
  | Some n => if n_removable n then (Ok (), delete p fs) else (Raise (PermissionError p), fs)
  | None => (Raise (FileNotFoundError p), fs)
  end.

(** [open(p, 'wb')] or [open(p, 'w')] and one [write]. *)
Definition path_write (now : Z) (fs : filesystem) (p : string) (data : list byte) : filesystem :=
  <[p := {| n_data := data; n_stat := Some now; n_readable := true; n_removable := true |}]> fs.

(** The calls of [validate_pdf_file] answered by a file system. *)
Definition fs_calls (fs : filesystem) : os_calls := {|
  os_path_exists := path_exists fs;
  os_path_getsize := path_getsize fs;
  open_rb_read := λ p n, data ← path_read fs p; Ok (take n data)
|}.

(** *** db_models.py: the tables *)

Record Analysis : Type := {
  a_id : Z;
  a_user_id : option Z;
  a_file_id : string;
  a_filename : string;
  a_query : string;
  a_status : string;                 (* queued, processing, completed, failed *)
  a_task_id : option string;
  a_error_message : option string;
  a_created_at : Z;
  a_updated_at : Z;
  a_completed_at : option Z
}.

Inductive meta_value : Type :=
| MStr (s : string)
| MTime (t : Z).                     (* a [datetime.isoformat()] string *)

Record AnalysisResult : Type := {
  r_id : Z;
  r_analysis_id : Z;
  r_verification : string;
  r_financial_analysis : string;
  r_investment_recommendations : string;
  r_risk_assessment : string;
  r_metadata : option (list (string * meta_value));
  r_processing_time : option Z;
  r_created_at : Z
}.

Record AuditLog : Type := {
  l_id : Z;
  l_user_id : option Z;
  l_action : string;
  l_resource_type : string;
  l_resource_id : option Z;
  l_status : string;
  l_details : option string;
  l_ip_address : option string;
  l_created_at : Z
}.

(** The session's view of the database: [analyses] by primary key with the
    next key of its sequence, and the two append-only tables in insertion
    order.  Commits succeed. *)
Record database : Type := {
  analyses : gmap Z Analysis;
  next_analysis_id : Z;
  analysis_results : list AnalysisResult;
  audit_logs : list AuditLog
}.

Definition with_analyses (db : database) (m : gmap Z Analysis) : database :=
  {| analyses := m; next_analysis_id := next_analysis_id db;
     analysis_results := analysis_results db; audit_logs := audit_logs db |}.

(** [create_analysis]; [now] is what [datetime.utcnow()] returns. *)
Definition create_analysis (now : Z) (db : database)
    (file_id filename query : string) (user_id : option Z) : database * Analysis :=
  let analysis := {|
    a_id := next_analysis_id db; a_user_id := user_id; a_file_id := file_id;
    a_filename := filename; a_query := query; a_status := "queued";
    a_task_id := None; a_error_message := None;
    a_created_at := now; a_updated_at := now; a_completed_at := None |} in
  ({| analyses := <[next_analysis_id db := analysis]> (analyses db);
      next_analysis_id := next_analysis_id db + 1;
      analysis_results := analysis_results db; audit_logs := audit_logs db |},
   analysis).

(** [update_analysis_status]: the row is looked up by primary key; when
    there is none, nothing changes and [None] is returned. *)
Definition update_analysis_status (now : Z) (db : database) (analysis_id : Z)
    (status : string) (task_id error_message : option string)
    : database * option Analysis :=
  match analyses db !! analysis_id with
  | Some a =>
      let analysis := {|
        a_id := a_id a; a_user_id := a_user_id a; a_file_id := a_file_id a;
        a_filename := a_filename a; a_query := a_query a;
        a_status := status;
        a_task_id := if truthy_ostr task_id then task_id else a_task_id a;
        a_error_message :=
          if truthy_ostr error_message then error_message else a_error_message a;
        a_created_at := a_created_at a;
        a_updated_at := now;
        a_completed_at :=
          if String.eqb status "completed" then Some now else a_completed_at a |} in
      (with_analyses db (<[analysis_id := analysis]> (analyses db)), Some analysis)
  | None => (db, None)
  end.

(** [create_analysis_result].  The model's column is [result_metadata];
    the keyword [metadata] the function passes to the constructor is not
    a column, so the row is stored without metadata.  The insert is the
    one the database makes when the job's row exists (the foreign key
    [analysis_id] is not modelled). *)
Definition create_analysis_result (now : Z) (db : database) (analysis_id : Z)
    (verification financial_analysis investment_recommendations risk_assessment : string)
    (metadata : option (list (string * meta_value))) (processing_time : option Z)
    : database * AnalysisResult :=
  let result := {|
    r_id := Z.of_nat (length (analysis_results db)) + 1;
    r_analysis_id := analysis_id;
    r_verification := verification;
    r_financial_analysis := financial_analysis;
    r_investment_recommendations := investment_recommendations;
    r_risk_assessment := risk_assessment;
    r_metadata := None;
    r_processing_time := processing_time;
    r_created_at := now |} in
  ({| analyses := analyses db; next_analysis_id := next_analysis_id db;
      analysis_results := analysis_results db ++ [result];
      audit_logs := audit_logs db |},
   result).

(** [get_analysis] *)
Definition get_analysis (db : database) (analysis_id : Z) : option Analysis :=
  analyses db !! analysis_id.

(** [log_audit].  The insert is the one the database makes when
    [user_id] is [None] or the id of a user (the foreign key [user_id]
    is not modelled). *)
Definition log_audit (now : Z) (db : database) (action resource_type status : string)
    (user_id resource_id : option Z) (details ip_address : option string)
    : database * AuditLog :=
  let audit := {|
    l_id := Z.of_nat (length (audit_logs db)) + 1;
    l_user_id := user_id; l_action := action; l_resource_type := resource_type;
    l_resource_id := resource_id; l_status := status; l_details := details;
    l_ip_address := ip_address; l_created_at := now |} in
  ({| analyses := analyses db; next_analysis_id := next_analysis_id db;
      analysis_results := analysis_results db;
      audit_logs := audit_logs db ++ [audit] |},
   audit).

(** *** The stages and their shared input *)

Inductive stage : Type := verification | analysis | investment | risk.

(** [crew_input], the dictionary handed to every [kickoff]. *)
Record crew_input : Type := {
  ci_query : string;
  ci_document_content : string
}.

(** The dictionary [run_financial_analysis_crew] returns. *)
Record results : Type := {
  res_verification : string;
  res_analysis : string;
  res_investment : string;
  res_risk : string
}.

Record world : Type := {
  w_fs : filesystem;
  w_db : database;
  w_clock : Z;
  w_calls : list (stage * crew_input)   (* the [kickoff] calls made so far *)
}.

(** The collaborators outside the repository: [PDFReader.load_data] on
    what opening the file gives, its content or the error of [open] (the
    text of each document it yields, or the exception it raises, which
    for a file that cannot be opened is the reader's own affair),
    [Crew.kickoff] of each stage's crew (the time it takes and
    [str] of its output, or the exception it raises) and [json.dump] of
    the endpoint's output dictionary. *)
Record capabilities : Type := {
  load_data : result (list byte) → result (list string);
  kickoff : stage → crew_input → Z * result string;
  json_dump : string → string → string → results → list byte
}.

(** *** The monad of computations over the world *)

Definition M (A : Type) : Type := world → result A * world.

#[global] Instance M_ret : MRet M := λ A a w, (Ok a, w).
#[global] Instance M_bind : MBind M := λ A B f m w,
  match m w with
  | (Ok a, w') => f a w'
  | (Raise e, w') => (Raise e, w')
  end.

Definition raise {A : Type} (e : exn) : M A := λ w, (Raise e, w).

Definition gets {A : Type} (f : world → A) : M A := λ w, (Ok (f w), w).

Definition modify (f : world → world) : M unit := λ w, (Ok (), f w).

(** [try: body except ...: handler].  [handler e] is [None] when no
    [except] clause matches [e], which then propagates. *)
Definition try_except {A : Type} (body : M A) (handler : exn → option (M A)) : M A :=
  λ w, match body w with
       | (Ok a, w') => (Ok a, w')
       | (Raise e, w') => match handler e with
                          | Some h => h w'
                          | None => (Raise e, w')
                          end
       end.

(** [try: body finally: fin] *)
Definition try_finally {A : Type} (body : M A) (fin : M unit) : M A :=
  λ w, match body w with
       | (r, w') => match fin w' with
                    | (Ok _, w'') => (r, w'')
                    | (Raise e, w'') => (Raise e, w'')
                    end
       end.

Definition set_db (db : database) (w : world) : world :=
  {| w_fs := w_fs w; w_db := db; w_clock := w_clock w; w_calls := w_calls w |}.

Definition set_fs (fs : filesystem) (w : world) : world :=
  {| w_fs := fs; w_db := w_db w; w_clock := w_clock w; w_calls := w_calls w |}.

(** A database operation run at the current time. *)
Definition db_op {A : Type} (op : Z → database → database * A) : M A :=
  λ w, let '(db, a) := op (w_clock w) (w_db w) in (Ok a, set_db db w).

(** [os.remove] *)
Definition os_remove (p : string) : M unit :=
  λ w, let '(r, fs) := path_remove (w_fs w) p in (r, set_fs fs w).

(** Writing a file. *)
Definition write_file (p : string) (data : list byte) : M unit :=
  modify (λ w, set_fs (path_write (w_clock w) (w_fs w) p data) w).

(** One [crew.kickoff(crew_input)]: the call is logged, the clock moves
    by the time the call takes.  The crews are given no handle on the
    database, and their tools only read: a stage is taken to leave the
    files and the tables of the world alone. *)
Definition crew_kickoff (caps : capabilities) (st : stage) (inp : crew_input) : M string :=
  λ w, let '(dt, r) := kickoff caps st inp in
       (r, {| w_fs := w_fs w; w_db := w_db w; w_clock := w_clock w + dt;
              w_calls := w_calls w ++ [(st, inp)] |}).

(** ** main.py: text extraction and the four-stage run *)

(** The line feed, ["\n"] in the sources. *)
Definition NL : string := String "010"%char "".

(** [extract_pdf_text]: every document's text has its runs of white space
    replaced by one space and is followed by a line feed; the whole is
    stripped. *)
Definition extract_pdf_text (reader : result (list byte) → result (list string))
    (fs : filesystem) (file_path : string) : result string :=
  documents ← reader (path_read fs file_path);
  Ok (strip (fold_left (λ full_text content, full_text +:+ join " " (split content) +:+ NL)
                       documents "")).

Definition max_chars : Z := 15000.

Definition TRUNCATION_MARKER : string :=
  NL +:+ NL +:+ "[Document truncated due to length...]".

(** The truncation step of [run_financial_analysis_crew]:
    [document_content[:max_chars] + marker] when the text is longer than
    [max_chars]. *)
Definition truncate_document (document_content : string) : string :=
  if Z.of_nat (String.length document_content) >? max_chars
  then substring 0 (Z.to_nat max_chars) document_content +:+ TRUNCATION_MARKER
  else document_content.

(** The four crews of [run_financial_analysis_crew], each created and
    kicked off in turn with the same [crew_input], and the dictionary of
    their outputs. *)
Definition kickoff_all (caps : capabilities) (crew_input : crew_input) : M results :=
  verification_result ← crew_kickoff caps verification crew_input;
  analysis_result ← crew_kickoff caps analysis crew_input;
  investment_result ← crew_kickoff caps investment crew_input;
  risk_result ← crew_kickoff caps risk crew_input;
  mret {| res_verification := verification_result;
          res_analysis := analysis_result;
          res_investment := investment_result;
          res_risk := risk_result |}.

(** [run_financial_analysis_crew].  Its handler logs and raises again. *)
Definition run_financial_analysis_crew (caps : capabilities) (query file_path : string)
    : M results :=
  try_except
    (valid ← (λ w, (validate_pdf_file (fs_calls (w_fs w)) file_path, w));
     if negb valid then raise (ValueError "Invalid or missing PDF file")
     else
       document_content ← (λ w, (extract_pdf_text (load_data caps) (w_fs w) file_path, w));
       if negb (truthy_str document_content)
       then raise (ValueError "Could not extract text from PDF")
       else
         let document_content := truncate_document document_content in
         let crew_input := {| ci_query := query;
                              ci_document_content := document_content |} in
         kickoff_all caps crew_input)
    (λ e, Some (raise e)).

(** ** main.py: the [/analyze] endpoint *)

Record UploadFile : Type := {
  filename : string;
  content : list byte
}.

(** The dictionary the endpoint returns. *)
Record response : Type := {
  resp_status : string;
  resp_file_id : string;
  resp_filename : string;
  resp_query : string;
  resp_analysis_results : results;
  resp_output_file : string
}.

Definition DEFAULT_QUERY : string :=
  "Provide comprehensive financial analysis of the submitted document".

Definition data_path (file_id : string) : string :=
  "data/financial_document_" +:+ file_id +:+ ".pdf".

Definition output_path_of (file_id : string) : string :=
  "outputs/analysis_" +:+ file_id +:+ ".json".

(** The "Validate query" step of the endpoint: an empty or blank query
    is replaced by the default one, and the query is stripped. *)
Definition normalize_query (query : string) : string :=
  let query := if negb (truthy_str query) || String.eqb (strip query) ""
               then DEFAULT_QUERY else query in
  strip query.

(** The "Save to database" block of the endpoint.  [db_up] tells whether
    the session's flush and commit succeed; when they do not, the error
    is logged, the session is rolled back and the endpoint goes on. *)
Definition endpoint_save (db_up : bool) (file_id fname query : string)
    (res : results) (output_path : string) : M unit :=
  try_except
    (if negb db_up then raise (Exception_ "database error")
     else
       λ w,
         let db := w_db w in
         let analysis_record := {|
           a_id := next_analysis_id db; a_user_id := None; a_file_id := file_id;
           a_filename := fname; a_query := query; a_status := "completed";
           a_task_id := None; a_error_message := None;
           a_created_at := w_clock w; a_updated_at := w_clock w;
           a_completed_at := Some (w_clock w) |} in
         let result_record := {|
           r_id := Z.of_nat (length (analysis_results db)) + 1;
           r_analysis_id := a_id analysis_record;
           r_verification := res_verification res;
           r_financial_analysis := res_analysis res;
           r_investment_recommendations := res_investment res;
           r_risk_assessment := res_risk res;
           r_metadata := Some [("filename", MStr fname); ("output_file", MStr output_path)];
           r_processing_time := Some 0;
           r_created_at := w_clock w |} in
         (Ok (),
          set_db {| analyses := <[next_analysis_id db := analysis_record]> (analyses db);
                    next_analysis_id := next_analysis_id db + 1;
                    analysis_results := analysis_results db ++ [result_record];
                    audit_logs := audit_logs db |} w))
    (λ db_error, Some (mret ())).

(** The [try] block of the endpoint. *)
Definition endpoint_try (caps : capabilities) (db_up : bool) (file_id : string)
    (file : option UploadFile) (query : string) : M response :=
  let file_path := data_path file_id in
  let output_path := output_path_of file_id in
  let query := normalize_query query in
  match file with
  | None => raise (HTTPException 400 "No file provided")
  | Some file =>
      if negb (endswith (lower (filename file)) ".pdf")
      then raise (HTTPException 400 "Only PDF files are supported")
      else if Z.of_nat (length (content file)) >? MAX_FILE_SIZE
      then raise (HTTPException 413 "File size exceeds maximum allowed size of 10.0MB")
      else if negb (bytes_eqb (take 4 (content file)) PDF_HEADER)
      then raise (HTTPException 400 "Uploaded file is not a valid PDF")
      else
        write_file file_path (content file);;
        res ← run_financial_analysis_crew caps query file_path;
        write_file output_path (json_dump caps file_id (filename file) query res);;
        endpoint_save db_up file_id (filename file) query res output_path;;
        mret {| resp_status := "success"; resp_file_id := file_id;
                resp_filename := filename file; resp_query := query;
                resp_analysis_results := res; resp_output_file := output_path |}
  end.

(** The [except] clauses of the endpoint, in their order. *)
Definition endpoint_except (e : exn) : option (M response) :=
  match e with
  | HTTPException _ _ => Some (raise e)
  | FileNotFoundError _ =>
      Some (raise (HTTPException 404 ("File processing error: " +:+ str_exn e)))
  | ValueError _ =>
      Some (raise (HTTPException 400 ("Validation error: " +:+ str_exn e)))
  | _ =>
      Some (raise (HTTPException 500 ("Error processing financial document: " +:+ str_exn e)))
  end.

(** The clean-up both the endpoint and the task do: remove the uploaded
    file if it exists; a failure to remove it is logged only. *)
Definition remove_if_exists (file_path : string) : M unit :=
  present ← gets (λ w, path_exists (w_fs w) file_path);
  if (present : bool)
  then try_except (os_remove file_path) (λ e, Some (mret ()))
  else mret ().

(** [analyze_financial_document_endpoint]; [file_id] is the uuid drawn
    for the request. *)
Definition analyze_financial_document_endpoint (caps : capabilities) (db_up : bool)
    (file_id : string) (file : option UploadFile) (query : string) : M response :=
  try_finally
    (try_except (endpoint_try caps db_up file_id file query) endpoint_except)
    (remove_if_exists (data_path file_id)).

(** ** tasks.py: the analysis task *)

(** [self.request]: the task id and the number of retries made so far
    (0 on the first run). *)
Record request : Type := {
  req_id : string;
  req_retries : Z
}.

(** The dictionaries the task returns. *)
Inductive task_return : Type :=
| TaskSuccess (file_id fname task_id : string) (processing_time : Z) (res : results)
| TaskError (error_type message file_id : string).

(** [max_retries=3] of the task's decorator. *)
Definition max_retries : Z := 3.

(** The exception [self.retry(countdown=..., exc=...)] raises in a worker
    (Celery's [Task.retry]): with [retries = self.request.retries + 1],
    it raises [exc] when [retries > max_retries]; otherwise it sends the
    task again, to run after [countdown] seconds with that number of
    retries, and raises [Retry]. *)
Definition self_retry (self : request) (countdown : Z) (exc : exn) : exn :=
  if req_retries self + 1 >? max_retries then exc else Retry countdown exc.

(** [if analysis_id: ...] (and [if analysis_id and db:], the session
    being there): the block runs when the id is neither [None] nor 0. *)
Definition if_analysis_id (analysis_id : option Z) (block : Z → M unit) : M unit :=
  match analysis_id with
  | Some id => if negb (id =? 0) then block id else mret ()
  | None => mret ()
  end.

(** [update_analysis_status] called by the task for side effect only. *)
Definition set_status (analysis_id : Z) (status : string)
    (task_id error_message : option string) : M unit :=
  db_op (λ now db, update_analysis_status now db analysis_id status task_id error_message);;
  mret ().

(** [log_audit(db, 'analyze_document', 'analysis', status, ...)] *)
Definition audit (status : string) (user_id : option Z) (analysis_id : Z)
    (details : string) : M unit :=
  db_op (λ now db, log_audit now db "analyze_document" "analysis" status
                     user_id (Some analysis_id) (Some details) None);;
  mret ().

(** The "Store results in database" block of the task: the result row is
    created, the status is set to completed and the audit entry is
    written.  This is the operation that moves a job to completed. *)
Definition mark_completed (self : request) (file_id : string) (user_id : option Z)
    (processing_time : Z) (res : results) (analysis_id : Z) : M unit :=
  completion_time ← gets w_clock;
  db_op (λ now db,
    create_analysis_result now db analysis_id
      (res_verification res) (res_analysis res) (res_investment res) (res_risk res)
      (Some [("task_id", MStr (req_id self)); ("file_id", MStr file_id);
             ("completion_time", MTime completion_time)])
      (Some processing_time));;
  set_status analysis_id "completed" None None;;
  audit "success" user_id analysis_id
        ("Analysis completed in " +:+ str_int processing_time +:+ "s").

(** The [try] block of [analyze_financial_document_task].
    [self.update_state] writes to the result backend only. *)
Definition analysis_task_try (caps : capabilities) (self : request) (start_time : Z)
    (file_path query file_id fname : string) (analysis_id user_id : option Z)
    : M task_return :=
  if_analysis_id analysis_id
    (λ id, set_status id "processing" (Some (req_id self)) None);;
  valid ← (λ w, (validate_pdf_file (fs_calls (w_fs w)) file_path, w));
  if negb valid then raise (ValueError "Invalid PDF file")
  else
    res ← run_financial_analysis_crew caps query file_path;
    end_time ← gets w_clock;
    let processing_time := end_time - start_time in
    if_analysis_id analysis_id
      (mark_completed self file_id user_id processing_time res);;
    remove_if_exists file_path;;
    mret (TaskSuccess file_id fname (req_id self) processing_time res).

(** The [except] clauses of the task, in their order. *)
Definition analysis_task_except (self : request) (file_id : string)
    (analysis_id user_id : option Z) (e : exn) : option (M task_return) :=
  match e with
  | SoftTimeLimitExceeded =>
      Some (if_analysis_id analysis_id
              (λ id, set_status id "failed" None (Some "Task timeout");;
                     audit "failure" user_id id "Task timeout");;
            raise (self_retry self 60 (Exception_ "Task timeout, retrying...")))
  | ValueError _ =>
      Some (if_analysis_id analysis_id
              (λ id, set_status id "failed" None (Some (str_exn e));;
                     audit "failure" user_id id ("Validation error: " +:+ str_exn e));;
            mret (TaskError "validation_error" (str_exn e) file_id))
  | _ =>
      Some (if_analysis_id analysis_id
              (λ id, set_status id "failed" None (Some (str_exn e));;
                     audit "failure" user_id id ("Error: " +:+ str_exn e));;
            raise (self_retry self (2 ^ req_retries self) e))
  end.

(** [analyze_financial_document_task]; its [finally] closes the session. *)
Definition analyze_financial_document_task (caps : capabilities) (self : request)
    (file_path query file_id fname : string) (analysis_id user_id : option Z)
    : M task_return :=
  start_time ← gets w_clock;
  try_finally
    (try_except
       (analysis_task_try caps self start_time file_path query file_id fname
                          analysis_id user_id)
       (analysis_task_except self file_id analysis_id user_id))
    (mret ()).

(** The worker's handling of one job: an attempt that raises [Retry] is
    followed, after its countdown, by the next attempt with one more
    retry; any other outcome ends the job.  [caps r] are the
    collaborators as they behave during the attempt with [r] retries.
    The result is the outcome of the last attempt, the countdowns of the
    retries made and the final world; the number of attempts is one more
    than the number of countdowns. *)
Fixpoint run_job (fuel : nat) (caps : Z → capabilities) (task_id : string) (retries : Z)
    (file_path query file_id fname : string) (analysis_id user_id : option Z)
    (delays : list Z) (w : world) : option (result task_return * list Z * world) :=
  match fuel with
  | O => None
  | S fuel' =>
      match analyze_financial_document_task (caps retries)
              {| req_id := task_id; req_retries := retries |}
              file_path query file_id fname analysis_id user_id w with
      | (Raise (Retry countdown _), w') =>
          run_job fuel' caps task_id (retries + 1) file_path query file_id fname
                  analysis_id user_id (delays ++ [countdown])
                  {| w_fs := w_fs w'; w_db := w_db w'; w_clock := w_clock w' + countdown;
                     w_calls := w_calls w' |}
      | (r, w') => Some (r, delays, w')
      end
  end.

(** ** tasks.py: the periodic clean-up *)

(** What [cleanup_old_files] returns: the two counters, or the error
    report of its outer handler. *)
Inductive cleanup_report : Type :=
| CleanupCounts (cleaned_count errors : Z)
| CleanupFailed (message : string).

Definition older_than : Z := 86400.

(** Whether a path is a direct entry of [data] whose name matches
    [financial_document_*.pdf]. *)
Definition is_document_path (p : string) : bool :=
  startswith p "data/financial_document_" && endswith p ".pdf" &&
  (28 <=? String.length p)%nat &&
  negb (existsb (Ascii.eqb "/") (list_ascii_of_string (substring 5 (String.length p - 5) p))).

(** [data_dir.glob('financial_document_*.pdf')]: the directory is listed
    once, before the loop runs. *)
Definition glob_documents (fs : filesystem) : list string :=
  filter (λ p, is_document_path p = true) (map fst (map_to_list fs)).

(** The body of the loop, with the counters as accumulator. *)
Definition cleanup_step (current_time : Z) (acc : Z * Z) (file_path : string) : M (Z * Z) :=
  let '(count, errors) := acc in
  try_except
    (mtime ← (λ w, (path_getmtime (w_fs w) file_path, w));
     if current_time - mtime >? older_than
     then os_remove file_path;; mret (count + 1, errors)
     else mret (count, errors))
    (λ e, Some (mret (count, errors + 1))).

Fixpoint for_each {A B : Type} (body : B → A → M B) (acc : B) (l : list A) : M B :=
  match l with
  | [] => mret acc
  | x :: l' => acc' ← body acc x; for_each body acc' l'
  end.

(** [cleanup_old_files] *)
Definition cleanup_old_files : M cleanup_report :=
  current_time ← gets w_clock;
  try_except
    (files ← gets (λ w, glob_documents (w_fs w));
     '(count, errors) ← for_each (cleanup_step current_time) (0, 0) files;
     mret (CleanupCounts count errors))
    (λ e, Some (mret (CleanupFailed (str_exn e)))).

(** ** Decidable equality of the model's data *)

#[global] Instance exn_eq_dec : EqDecision exn.
Proof.
  unfold EqDecision, Decision.
  decide equality; first [apply String.eq_dec | apply Z.eq_dec].
Defined.

#[global] Instance result_eq_dec {A : Type} `{EqDecision A} : EqDecision (result A).
Proof. solve_decision. Defined.

#[global] Instance byte_eq_dec : EqDecision byte := Byte.byte_eq_dec.

#[global] Instance node_eq_dec : EqDecision node.
Proof. solve_decision. Defined.

#[global] Instance Analysis_eq_dec : EqDecision Analysis.
Proof. solve_decision. Defined.

#[global] Instance meta_value_eq_dec : EqDecision meta_value.
Proof. solve_decision. Defined.

#[global] Instance AnalysisResult_eq_dec : EqDecision AnalysisResult.
Proof. solve_decision. Defined.

#[global] Instance AuditLog_eq_dec : EqDecision AuditLog.
Proof. solve_decision. Defined.

#[global] Instance database_eq_dec : EqDecision database.
Proof. solve_decision. Defined.

#[global] Instance stage_eq_dec : EqDecision stage.
Proof. solve_decision. Defined.

#[global] Instance crew_input_eq_dec : EqDecision crew_input.
Proof. solve_decision. Defined.

#[global] Instance results_eq_dec : EqDecision results.
Proof. solve_decision. Defined.

#[global] Instance world_eq_dec : EqDecision world.
Proof. solve_decision. Defined.

#[global] Instance response_eq_dec : EqDecision response.
Proof. solve_decision. Defined.

#[global] Instance task_return_eq_dec : EqDecision task_return.
Proof. solve_decision. Defined.

#[global] Instance cleanup_report_eq_dec : EqDecision cleanup_report.
Proof. solve_decision. Defined.

(** ** Reading the model's outputs *)

(** The stages in the order of the sources. *)
Definition stage_order : list stage := [verification; analysis; investment; risk].

(** The [kickoff] calls made between two worlds. *)
Definition new_calls (w w' : world) : list (stage * crew_input) :=
  drop (length (w_calls w)) (w_calls w').

(** The status and error message of a job's row, if there is one. *)
Definition status_of (db : database) (analysis_id : Z) : option string :=
  a_status <$> get_analysis db analysis_id.

Definition error_of (db : database) (analysis_id : Z) : option string :=
  get_analysis db analysis_id ≫= a_error_message.

Definition completed_at_of (db : database) (analysis_id : Z) : option Z :=
  get_analysis db analysis_id ≫= a_completed_at.

(** The edges of the job state machine as the specification draws it. *)
Definition legal_transition (old new : string) : bool :=
  (String.eqb old "queued" && String.eqb new "processing") ||
  (String.eqb old "processing" && (String.eqb new "completed" || String.eqb new "failed")).

(** A tracked file is expired when its modification time can be read
    and lies more than [older_than] seconds before [now]. *)
Definition expired (now : Z) (n : node) : bool :=
  match n_stat n with
  | Some t => now - t >? older_than
  | None => false
  end.

(** The entries one pass of the loop removes, and those it counts as
    errors: the modification time cannot be read, or the file is expired
    and cannot be removed. *)
Definition entry_removed (fs : filesystem) (now : Z) (p : string) : bool :=
  match fs !! p with
  | Some n => expired now n && n_removable n
  | None => false
  end.

Definition entry_failed (fs : filesystem) (now : Z) (p : string) : bool :=
  match fs !! p with
  | Some n => match n_stat n with
              | Some _ => expired now n && negb (n_removable n)
              | None => true
              end
  | None => true
  end.

(** The removal failures of a sweep, in the words of the specification:
    the entries the sweep tried to remove, being expired, and could
    not. *)
Definition removal_failed (fs : filesystem) (now : Z) (p : string) : bool :=
  match fs !! p with
  | Some n => expired now n && negb (n_removable n)
  | None => false
  end.

(** How many entries of a list satisfy a test. *)
Definition count_if (f : string → bool) (l : list string) : Z :=
  Z.of_nat (length (filter (λ p, f p = true) l)).

(** An upload passes the endpoint's own checks: extension, size, header. *)
Definition upload_accepted (file : UploadFile) : bool :=
  endswith (lower (filename file)) ".pdf" &&
  negb (Z.of_nat (length (content file)) >? MAX_FILE_SIZE) &&
  bytes_eqb (take 4 (content file)) PDF_HEADER.

(** The HTTP error the endpoint raises for an exception of its [try]
    block. *)
Definition http_error (e : exn) : exn :=
  match e with
  | HTTPException _ _ => e
  | FileNotFoundError _ => HTTPException 404 ("File processing error: " +:+ str_exn e)
  | ValueError _ => HTTPException 400 ("Validation error: " +:+ str_exn e)
  | _ => HTTPException 500 ("Error processing financial document: " +:+ str_exn e)
  end.

(** ** Sample inputs *)

Definition sample_pdf : list byte := PDF_HEADER ++ [x0a].

Definition sample_node (mtime : Z) : node :=
  {| n_data := sample_pdf; n_stat := Some mtime; n_readable := true; n_removable := true |}.

Definition empty_db : database :=
  {| analyses := ∅; next_analysis_id := 1; analysis_results := []; audit_logs := [] |}.

Definition sample_path : string := data_path "f1".

(** One uploaded file and its job, row 1, queued. *)
Definition sample_world : world :=
  {| w_fs := {[ sample_path := sample_node 10 ]};
     w_db := (create_analysis 50 empty_db "f1" "report.pdf" "summarize risk" None).1;
     w_clock := 100;
     w_calls := [] |}.

Fixpoint repeat_char (c : ascii) (n : nat) : string :=
  match n with
  | O => ""
  | S n' => String c (repeat_char c n')
  end.

(** A text of 20000 characters. *)
Definition long_text : string := repeat_char "a" (Z.to_nat 20000).

(** Collaborators that read the given documents from any file and whose
    crews each take five seconds and end as [outcome] says. *)
Definition sample_caps (docs : list string) (outcome : stage → result string)
    : capabilities :=
  {| load_data := λ _, Ok docs;
     kickoff := λ st _, (5, outcome st);
     json_dump := λ _ _ _ _, [] |}.

Definition all_succeed (st : stage) : result string :=
  Ok match st with
     | verification => "verified"
     | analysis => "analysed"
     | investment => "buy"
     | risk => "low"
     end.

Definition all_time_out (st : stage) : result string := Raise SoftTimeLimitExceeded.

Definition all_break (st : stage) : result string := Raise (Exception_ "connection reset").

(** Crews whose language model answers with something the crew cannot
    use: every stage raises a [ValueError]. *)
Definition all_reject (st : stage) : result string :=
  Raise (ValueError "Invalid response from LLM call").

(** A PDF reader that cannot parse the file it is given: a document
    with the header of a PDF and a broken body. *)
Definition malformed_caps : capabilities :=
  {| load_data := λ _, Raise (Exception_ "EOF marker not found");
     kickoff := λ st _, (5, all_succeed st);
     json_dump := λ _ _ _ _, [] |}.

(** The row of the sample job as [create_analysis] returned it. *)
Definition sample_row : Analysis :=
  (create_analysis 50 empty_db "f1" "report.pdf" "summarize risk" None).2.

(** The request of the first attempt of the sample job. *)
Definition first_attempt : request := {| req_id := "task-1"; req_retries := 0 |}.

(** The sample world after a successful attempt: row 1 is completed. *)
Definition completed_world : world :=
  (analyze_financial_document_task (sample_caps ["revenue grew"] all_succeed)
     first_attempt sample_path "summarize risk" "f1" "report.pdf" (Some 1) None
     sample_world).2.

(** The same world an hour later. *)
Definition later_world : world :=
  {| w_fs := w_fs completed_world; w_db := w_db completed_world;
     w_clock := w_clock completed_world + 3600; w_calls := w_calls completed_world |}.

Definition sample_results : results :=
  {| res_verification := "verified"; res_analysis := "analysed";
     res_investment := "buy"; res_risk := "low" |}.

(** The sample job with crews that time out, or break, on every attempt:
    the last outcome, the countdowns, and the row's status and message. *)
Definition job_summary (outcome : stage → result string)
    : option (result task_return * list Z * option string * option string) :=
  match run_job 4 (λ _, sample_caps ["revenue grew"] outcome) "task-1" 0 sample_path
                "summarize risk" "f1" "report.pdf" (Some 1) None [] sample_world with
  | Some (r, delays, w') => Some (r, delays, status_of (w_db w') 1, error_of (w_db w') 1)
  | None => None
  end.

(** Two files in [data], one written 25 hours and one 1 hour before the
    clock's 100000, and a file that does not match the pattern. *)
Definition reaper_world : world :=
  {| w_fs := {[ data_path "old" := sample_node 10000;
                data_path "new" := sample_node 96400;
                "data/notes.txt" := sample_node 0 ]};
     w_db := empty_db; w_clock := 100000; w_calls := [] |}.

(** Three tracked files in [data]: an expired one that can be removed,
    an expired one that cannot, and a dangling link whose modification
    time cannot be read. *)
Definition stubborn_world : world :=
  {| w_fs := {[ data_path "a" := sample_node 0;
                data_path "b" := {| n_data := sample_pdf; n_stat := Some 0;
                                    n_readable := true; n_removable := false |};
                data_path "c" := {| n_data := []; n_stat := None;
                                    n_readable := false; n_removable := true |} ]};
     w_db := empty_db; w_clock := 100000; w_calls := [] |}.

Definition sample_upload : UploadFile :=
  {| filename := "report.pdf"; content := sample_pdf |}.

(** A world with no file and no row. *)
Definition fresh_world : world :=
  {| w_fs := ∅; w_db := empty_db; w_clock := 100; w_calls := [] |}.

(** ** What the task may do to the database *)

(** One write the analysis task makes for job [job]: a status update of
    the job's row, a result row for the job, or an audit entry about
    the job. *)
Inductive db_step (job : Z) : database → database → Prop :=
| step_status (now : Z) (db : database) (status : string) (tid em : option string) :
    db_step job db (update_analysis_status now db job status tid em).1
| step_result (now : Z) (db : database) (v f i r : string)
    (md : option (list (string * meta_value))) (pt : option Z) :
    db_step job db (create_analysis_result now db job v f i r md pt).1
| step_audit (now : Z) (db : database) (status : string) (uid : option Z)
    (details : string) :
    db_step job db (log_audit now db "analyze_document" "analysis" status uid
                      (Some job) (Some details) None).1.

(** A computation keeps a relation between the database before and the
    database after it, whatever its outcome. *)
Definition keeps_db (R : relation database) {A : Type} (m : M A) : Prop :=
  ∀ w, R (w_db w) (w_db (m w).2).

(** The parts of a job row that identify the job. *)
Definition same_job (a a' : Analysis) : Prop :=
  a_id a' = a_id a ∧ a_user_id a' = a_user_id a ∧ a_file_id a' = a_file_id a ∧
  a_filename a' = a_filename a ∧ a_query a' = a_query a ∧
  a_created_at a' = a_created_at a.

(** Every completed row carries its completion time. *)
Definition completed_rows_dated (db : database) : Prop :=
  ∀ id a, get_analysis db id = Some a → a_status a = "completed" →
          is_Some (a_completed_at a).

(** Between two databases, only the row of [job] may differ, and it
    still identifies the same job: no row appears or disappears. *)
Definition only_row_changed (job : Z) (db db' : database) : Prop :=
  (∀ id, id ≠ job → get_analysis db' id = get_analysis db id) ∧
  (∀ a, get_analysis db job = Some a →
        ∃ a', get_analysis db' job = Some a' ∧ same_job a a') ∧
  (get_analysis db job = None → get_analysis db' job = None).

(** Between two databases, result rows and audit entries were only
    appended, all of them for [job]. *)
Definition rows_appended (job : Z) (db db' : database) : Prop :=
  (∃ new, analysis_results db' = analysis_results db ++ new ∧
          Forall (λ r, r_analysis_id r = job) new) ∧
  (∃ new, audit_logs db' = audit_logs db ++ new ∧
          Forall (λ l, l_action l = "analyze_document" ∧ l_resource_type l = "analysis" ∧
                       l_resource_id l = Some job) new).

(** Whether an outcome of the task is its success dictionary. *)
Definition is_success (r : result task_return) : bool :=
  match r with
  | Ok (TaskSuccess _ _ _ _ _) => true
  | _ => false
  end.

(** The sample world after a first attempt that timed out, when the
    retry starts 60 seconds later; and the request of that retry. *)
Definition retried_world : world :=
  let w1 := (analyze_financial_document_task (sample_caps ["revenue grew"] all_time_out)
               first_attempt sample_path "summarize risk" "f1" "report.pdf" (Some 1) None
               sample_world).2 in
  {| w_fs := w_fs w1; w_db := w_db w1; w_clock := w_clock w1 + 60; w_calls := w_calls w1 |}.

Definition second_attempt : request := {| req_id := "task-1"; req_retries := 1 |}.

(** The row of the sample job in a world (the sample row if it is gone). *)
Definition row_in (w : world) : Analysis :=
  default sample_row (get_analysis (w_db w) 1).

(** The first check of the endpoint an upload fails, as the HTTP error
    the endpoint raises for it; [None] when the upload passes them all. *)
Definition upload_rejection (file : option UploadFile) : option exn :=
  match file with
  | None => Some (HTTPException 400 "No file provided")
  | Some file =>
      if negb (endswith (lower (filename file)) ".pdf")
      then Some (HTTPException 400 "Only PDF files are supported")
      else if Z.of_nat (length (content file)) >? MAX_FILE_SIZE
      then Some (HTTPException 413 "File size exceeds maximum allowed size of 10.0MB")
      else if negb (bytes_eqb (take 4 (content file)) PDF_HEADER)
      then Some (HTTPException 400 "Uploaded file is not a valid PDF")
      else None
  end.


(** A string of white space only (the empty string included):
    [not s.strip()]. *)
Fixpoint all_space (s : string) : bool :=
  match s with
  | EmptyString => true
  | String c s' => is_space c && all_space s'
  end.

(** [get_analysis_by_file_id]: the first row with that file id. *)
Definition get_analysis_by_file_id (db : database) (file_id : string) : option Analysis :=
  snd <$> list_find (λ a, a_file_id a = file_id) (map_to_list (analyses db)).*2.

(** Between two databases every row is still there, and what a row had
    of task id, error message and completion time it still has (maybe
    with another value). *)
Definition marks_kept (db db' : database) : Prop :=
  ∀ id a, get_analysis db id = Some a →
    ∃ a', get_analysis db' id = Some a' ∧
          (is_Some (a_task_id a) → is_Some (a_task_id a')) ∧
          (is_Some (a_error_message a) → is_Some (a_error_message a')) ∧
          (is_Some (a_completed_at a) → is_Some (a_completed_at a')).

(** Whether an exception is Celery's retry request. *)
Definition is_retry (e : exn) : bool :=
  match e with
  | Retry _ _ => true
  | _ => false
  end.

(** The collaborators raise errors of their own, never Celery's retry
    request. *)
Definition never_retry (caps : capabilities) : Prop :=
  (∀ data e, load_data caps data = Raise e → is_retry e = false) ∧
  (∀ st inp e, (kickoff caps st inp).2 = Raise e → is_retry e = false).

(** ** tasks.py: the verification task *)

(** The dictionary [verify_document_task] returns. *)
Inductive verify_return : Type :=
| VerifyResult (status file_id : string) (is_valid : bool) (task_id : string).

(** [self.retry] of a task declared with [max_retries=max]. *)
Definition retry_of (max : Z) (self : request) (countdown : Z) (exc : exn) : exn :=
  if req_retries self + 1 >? max then exc else Retry countdown exc.

(** [log_audit(db, 'verify_document', 'analysis', status, ...)] *)
Definition audit_verification (status : string) (user_id : option Z) (analysis_id : Z)
    (details : option string) : M unit :=
  db_op (λ now db, log_audit now db "verify_document" "analysis" status
                     user_id (Some analysis_id) details None);;
  mret ().

(** [verify_document_task], declared with [max_retries=2]; its handler
    writes a failure entry and asks for a retry after 10 seconds, and
    its [finally] closes the session. *)
Definition verify_document_task (self : request) (file_path file_id : string)
    (analysis_id user_id : option Z) : M verify_return :=
  try_finally
    (try_except
       (is_valid ← (λ w, (validate_pdf_file (fs_calls (w_fs w)) file_path, w));
        if_analysis_id analysis_id
          (λ id, audit_verification (if is_valid : bool then "success" else "failure")
                                    user_id id None);;
        mret (VerifyResult "success" file_id is_valid (req_id self)))
       (λ e, Some (if_analysis_id analysis_id
                     (λ id, audit_verification "failure" user_id id (Some (str_exn e)));;
                   raise (retry_of 2 self 10 e))))
    (mret ()).

(** ** tools.py: the document reader tool *)

Definition has_slash (s : string) : bool :=
  existsb (Ascii.eqb "/") (list_ascii_of_string s).

(** [os.path.basename]: what follows the last [/] of a path.  [cand] is
    what follows the last [/] read so far. *)
Fixpoint after_last_slash (cand p : string) : string :=
  match p with
  | EmptyString => cand
  | String c rest => after_last_slash (if Ascii.eqb c "/" then rest else cand) rest
  end.

Definition basename (p : string) : string := after_last_slash p p.

(** What follows [pre] in [s], when [s] starts with [pre]. *)
Fixpoint remove_prefix (pre s : string) : option string :=
  match pre, s with
  | EmptyString, _ => Some s
  | String a pre', String b s' => if Ascii.eqb a b then remove_prefix pre' s' else None
  | String _ _, EmptyString => None
  end.

(** Whether [glob.glob("/app/data/*.pdf")] lists a path: an entry of
    [/app/data] whose name ends in [.pdf] and does not start with a dot
    (a [*] of [glob] matches no hidden name). *)
Definition is_app_data_pdf (p : string) : bool :=
  match remove_prefix "/app/data/" p with
  | Some name => negb (has_slash name) && negb (startswith name ".") && endswith name ".pdf"
  | None => false
  end.

Definition glob_app_data_pdf (fs : filesystem) : list string :=
  filter (λ p, is_app_data_pdf p = true) (map fst (map_to_list fs)).

(** [max(paths, key=os.path.getmtime)] after its first element: a later
    path replaces the best one when its time is larger; the first
    [getmtime] that raises ends the search. *)
Fixpoint max_by_mtime (fs : filesystem) (best : string) (best_time : Z)
    (paths : list string) : result string :=
  match paths with
  | [] => Ok best
  | p :: paths' =>
      t ← path_getmtime fs p;
      if t >? best_time then max_by_mtime fs p t paths'
      else max_by_mtime fs best best_time paths'
  end.

(** The branch [if not file_path] of the tool. *)
Definition auto_detect (fs : filesystem) : result string :=
  match glob_app_data_pdf fs with
  | [] => Raise (FileNotFoundError "No PDF files found in /app/data directory")
  | p :: paths => t ← path_getmtime fs p; max_by_mtime fs p t paths
  end.

(** The branch [if not os.path.exists(file_path)] of the tool: the first
    alternative that exists. *)
Definition alternative_path (fs : filesystem) (file_path : string) : result string :=
  if path_exists fs file_path then Ok file_path
  else
    match find (path_exists fs)
               [ "/app/data/" +:+ basename file_path;
                 "/data/" +:+ basename file_path;
                 file_path ] with
    | Some alt_path => Ok alt_path
    | None => Raise (FileNotFoundError
                       ("PDF file not found: " +:+ file_path +:+ " or alternatives"))
    end.

Definition EMPTY_PDF_WARNING : string := "Warning: PDF appears to be empty".

(** [ReadFinancialDocumentTool._run]; its handler logs and raises the
    exception again. *)
Definition ReadFinancialDocumentTool_run (reader : result (list byte) → result (list string))
    (fs : filesystem) (file_path : option string) : result string :=
  file_path ← (if negb (truthy_ostr file_path) then auto_detect fs
               else Ok (default "" file_path));
  file_path ← alternative_path fs file_path;
  if negb (endswith (lower file_path) ".pdf")
  then Raise (ValueError ("Expected PDF file: " +:+ file_path))
  else
    documents ← reader (path_read fs file_path);
    let full_report :=
      fold_left (λ full_report content, full_report +:+ join " " (split content) +:+ NL)
                documents "" in
    if negb (truthy_str (strip full_report)) then Ok EMPTY_PDF_WARNING
    else Ok full_report.

(** A directory [/app/data] with two documents and a note. *)
Definition app_data_fs : filesystem :=
  {[ "/app/data/old.pdf" := sample_node 10;
     "/app/data/new.pdf" := sample_node 20;
     "/app/data/notes.txt" := sample_node 30 ]}.

(** * Properties *)

(** ** Strings and bytes *)

Lemma length_lower (s : string) : String.length (lower s) = String.length s.
Proof. induction s as [|c s IH]; simpl; congruence. Qed.

Lemma string_app_cons (c : ascii) (a b : string) :
  String c a +:+ b = String c (a +:+ b).
Proof. reflexivity. Qed.

Lemma lower_append (a b : string) : lower (a +:+ b) = lower a +:+ lower b.
Proof.
  induction a as [|c a IH]; [reflexivity|].
  rewrite string_app_cons. simpl. now rewrite IH.
Qed.

Lemma lower_substring (s : string) : ∀ n m, lower (substring n m s) = substring n m (lower s).
Proof.
  induction s as [|c s IH]; intros [|n] [|m]; simpl; try reflexivity.
  - now rewrite IH.
  - apply IH.
  - apply IH.
Qed.

Lemma length_string_app (a b : string) :
  String.length (a +:+ b) = (String.length a + String.length b)%nat.
Proof.
  induction a as [|c a IH]; [reflexivity|].
  rewrite string_app_cons. simpl. now rewrite IH.
Qed.

Lemma substring_all (s : string) : substring 0 (String.length s) s = s.
Proof. induction s as [|c s IH]; simpl; congruence. Qed.

Lemma substring_skip (pre suf : string) :
  substring (String.length pre) (String.length suf) (pre +:+ suf) = suf.
Proof.
  induction pre as [|c pre IH]; [apply substring_all|].
  rewrite string_app_cons. simpl. exact IH.
Qed.

Lemma substring_split (s : string) : ∀ n m,
  (n + m = String.length s)%nat → s = substring 0 n s +:+ substring n m s.
Proof.
  induction s as [|c s IH]; intros n m H; simpl in H.
  - destruct n, m; simpl; try reflexivity; lia.
  - destruct n as [|n].
    + simpl in H. subst m. simpl. now rewrite substring_all.
    + simpl. rewrite string_app_cons. f_equal. apply IH. lia.
Qed.

Lemma length_substring (s : string) : ∀ n m,
  (n + m ≤ String.length s)%nat → String.length (substring n m s) = m.
Proof.
  induction s as [|c s IH]; intros n m H; simpl in H.
  - destruct n, m; simpl; lia.
  - destruct n as [|n], m as [|m]; simpl; try reflexivity.
    + f_equal. apply IH. lia.
    + apply (IH n 0%nat). lia.
    + apply IH. lia.
Qed.

(** [endswith] is "has this suffix". *)
Lemma endswith_spec (s suf : string) :
  endswith s suf = true ↔ ∃ pre, s = pre +:+ suf.
Proof.
  unfold endswith. rewrite andb_true_iff, Nat.leb_le, String.eqb_eq. split.
  - intros [Hlen Hsub].
    exists (substring 0 (String.length s - String.length suf) s).
    rewrite <- Hsub at 2. apply substring_split. lia.
  - intros [pre ->]. rewrite length_string_app. split; [lia|].
    replace (String.length pre + String.length suf - String.length suf)%nat
      with (String.length pre) by lia.
    apply substring_skip.
Qed.

(** The extension test of the sources: the path ends with [.pdf] in some
    mix of cases. *)
Lemma endswith_lower_spec (p ext : string) :
  endswith (lower p) ext = true ↔ ∃ pre suf, p = pre +:+ suf ∧ lower suf = ext.
Proof.
  split.
  - intros H. unfold endswith in H.
    apply andb_true_iff in H as [Hlen Hsub].
    apply Nat.leb_le in Hlen. apply String.eqb_eq in Hsub.
    rewrite length_lower in Hlen, Hsub.
    exists (substring 0 (String.length p - String.length ext) p),
           (substring (String.length p - String.length ext) (String.length ext) p).
    split; [apply substring_split; lia | now rewrite lower_substring].
  - intros (pre & suf & -> & <-). apply endswith_spec.
    exists (lower pre). apply lower_append.
Qed.

Lemma bytes_eqb_eq (a b : list byte) : bytes_eqb a b = true ↔ a = b.
Proof.
  revert b. induction a as [|x a IH]; intros [|y b]; simpl; try (split; congruence).
  rewrite andb_true_iff, IH. split.
  - intros [H ->]. apply Byte.byte_dec_bl in H. now subst.
  - intros [= -> ->]. split; [now apply Byte.byte_dec_lb | reflexivity].
Qed.

(** ** Validation of a file *)

(** C10.  [validate_pdf_file] is total: whatever the operating-system
    calls answer, it returns a boolean and never raises.  The boolean is
    [True] exactly when the file exists, the path ends with [.pdf] in any
    mix of cases, the size is at most 10485760 bytes and the first four
    bytes read are [%PDF]; an exception raised by one of the checks gives
    [False]. *)
Theorem validate_pdf_file_total_exact (os : os_calls) (file_path : string) :
  ∃ b : bool,
    validate_pdf_file os file_path = Ok b ∧
    (b = true ↔
       os_path_exists os file_path = true ∧
       (∃ pre suf, file_path = pre +:+ suf ∧ lower suf = ".pdf") ∧
       (∃ size, os_path_getsize os file_path = Ok size ∧ size ≤ 10485760) ∧
       open_rb_read os file_path 4 = Ok [x25; x50; x44; x46]) ∧
    (∀ e, validate_pdf_file_try os file_path = Raise e → b = false).
Proof.
  unfold validate_pdf_file, validate_pdf_file_try.
  pose proof (endswith_lower_spec file_path ".pdf") as Hspec.
  destruct (os_path_exists os file_path) eqn:Hex; simpl.
  2: { exists false. repeat split; try congruence. intros H; destruct H; congruence. }
  destruct (endswith (lower file_path) ".pdf") eqn:Hext; simpl.
  2: { exists false. repeat split; try congruence.
       intros (_ & H & _). apply Hspec in H. congruence. }
  assert (Hsuf : ∃ pre suf, file_path = pre +:+ suf ∧ lower suf = ".pdf")
    by now apply Hspec.
  destruct (os_path_getsize os file_path) as [size|e1] eqn:Hsize; simpl.
  2: { exists false. repeat split; try congruence.
       intros (_ & _ & (s & H & _) & _); congruence. }
  destruct (size >? MAX_FILE_SIZE) eqn:Hmax.
  { exists false. repeat split; try congruence.
    intros (_ & _ & (s & H & Hle) & _). injection H as <-.
    unfold MAX_FILE_SIZE in Hmax. lia. }
  destruct (open_rb_read os file_path 4) as [header|e2] eqn:Hread; simpl.
  2: { exists false. repeat split; try congruence. intros (_ & _ & _ & H); congruence. }
  destruct (bytes_eqb header PDF_HEADER) eqn:Hhdr; simpl.
  - exists true. apply bytes_eqb_eq in Hhdr. subst header.
    repeat split; try congruence; try assumption.
    exists size. split; [reflexivity|]. unfold MAX_FILE_SIZE in Hmax. lia.
  - exists false. repeat split; try congruence.
    intros (_ & _ & _ & H). injection H as ->.
    unfold PDF_HEADER in Hhdr. simpl in Hhdr. congruence.
Qed.

(** ** The four-stage run *)

Lemma new_calls_app (w w' : world) (l : list (stage * crew_input)) :
  w_calls w' = w_calls w ++ l → new_calls w w' = l.
Proof. intros H. unfold new_calls. rewrite H. apply drop_app_length. Qed.

(** The case of [kickoff_all_spec] where stage number [n] raises. *)
Ltac stage_raises n st K :=
  split; [reflexivity|]; split; [reflexivity|]; exists n;
  split; [lia|]; split; [now rewrite <- ?app_assoc|]; split;
  [ intros ? [=]
  | intros ? [= <-]; exists st; split; [reflexivity|]; split; [lia|]; now rewrite K ].

(** The four kick-offs leave the file system and the database alone and
    log a prefix of the four calls, all of them when they return. *)
Lemma kickoff_all_spec (caps : capabilities) (ctx : crew_input) (w : world) :
  let r := (kickoff_all caps ctx w).1 in
  let w' := (kickoff_all caps ctx w).2 in
  w_fs w' = w_fs w ∧ w_db w' = w_db w ∧
  ∃ k, (k ≤ 4)%nat ∧
    w_calls w' = w_calls w ++ take k (map (λ st, (st, ctx)) stage_order) ∧
    (∀ res, r = Ok res →
       k = 4%nat ∧
       (kickoff caps verification ctx).2 = Ok (res_verification res) ∧
       (kickoff caps analysis ctx).2 = Ok (res_analysis res) ∧
       (kickoff caps investment ctx).2 = Ok (res_investment res) ∧
       (kickoff caps risk ctx).2 = Ok (res_risk res)) ∧
    (∀ e, r = Raise e →
       ∃ st, nth_error stage_order (k - 1) = Some st ∧ (k ≥ 1)%nat ∧
             (kickoff caps st ctx).2 = Raise e).
Proof.
  unfold kickoff_all, crew_kickoff, mbind, M_bind, mret, M_ret; simpl.
  destruct (kickoff caps verification ctx) as [d1 [r1|e1]] eqn:K1; simpl;
    [|stage_raises 1%nat verification K1].
  destruct (kickoff caps analysis ctx) as [d2 [r2|e2]] eqn:K2; simpl;
    [|stage_raises 2%nat analysis K2].
  destruct (kickoff caps investment ctx) as [d3 [r3|e3]] eqn:K3; simpl;
    [|stage_raises 3%nat investment K3].
  destruct (kickoff caps risk ctx) as [d4 [r4|e4]] eqn:K4; simpl;
    [|stage_raises 4%nat risk K4].
  split; [reflexivity|]. split; [reflexivity|]. exists 4%nat.
  split; [lia|]. split; [now rewrite <- !app_assoc|]. split.
  - intros res [= <-]. simpl. tauto.
  - intros e [=].
Qed.

(** A handler that only raises again changes nothing. *)
Lemma try_except_reraise {A : Type} (body : M A) (w : world) :
  try_except body (λ e, Some (raise e)) w = body w.
Proof. unfold try_except, raise. now destruct (body w) as [[a|e] w']. Qed.

(** [run_financial_analysis_crew] by cases of its two checks. *)
Lemma run_crew_cases (caps : capabilities) (query file_path : string) (w : world) :
  run_financial_analysis_crew caps query file_path w =
  match validate_pdf_file (fs_calls (w_fs w)) file_path with
  | Ok true =>
      match extract_pdf_text (load_data caps) (w_fs w) file_path with
      | Ok text =>
          if truthy_str text
          then kickoff_all caps {| ci_query := query;
                                   ci_document_content := truncate_document text |} w
          else (Raise (ValueError "Could not extract text from PDF"), w)
      | Raise e => (Raise e, w)
      end
  | Ok false => (Raise (ValueError "Invalid or missing PDF file"), w)
  | Raise e => (Raise e, w)
  end.
Proof.
  unfold run_financial_analysis_crew. rewrite try_except_reraise.
  unfold mbind, M_bind.
  destruct (validate_pdf_file (fs_calls (w_fs w)) file_path) as [[|]|e]; simpl;
    try reflexivity.
  destruct (extract_pdf_text (load_data caps) (w_fs w) file_path) as [text|e]; simpl;
    try reflexivity.
  now destruct (truthy_str text).
Qed.

(** The run never touches the file system or the database. *)
Lemma run_crew_frame (caps : capabilities) (query file_path : string) (w : world) :
  w_fs (run_financial_analysis_crew caps query file_path w).2 = w_fs w ∧
  w_db (run_financial_analysis_crew caps query file_path w).2 = w_db w.
Proof.
  rewrite run_crew_cases.
  destruct (validate_pdf_file _ _) as [[|]|e]; simpl; try tauto.
  destruct (extract_pdf_text _ _ _) as [text|e]; simpl; try tauto.
  destruct (truthy_str text); simpl; try tauto.
  pose proof (kickoff_all_spec caps
    {| ci_query := query; ci_document_content := truncate_document text |} w) as H.
  simpl in H. tauto.
Qed.

(** C5.  When the file is valid and its text is not empty, the run
    invokes the stages in the order verification, analysis, investment,
    risk, stopping only at a stage that raises, and every stage invoked
    receives the same input: the query and the (possibly truncated)
    document text, which no stage's output enters.  When the run returns,
    all four stages were invoked and the result holds the four outputs. *)
Theorem crew_stage_order_shared_context (caps : capabilities) (query file_path : string)
    (w : world) (text : string) :
  validate_pdf_file (fs_calls (w_fs w)) file_path = Ok true →
  extract_pdf_text (load_data caps) (w_fs w) file_path = Ok text →
  text ≠ "" →
  let ctx := {| ci_query := query; ci_document_content := truncate_document text |} in
  let r := (run_financial_analysis_crew caps query file_path w).1 in
  let w' := (run_financial_analysis_crew caps query file_path w).2 in
  ∃ k, (k ≤ 4)%nat ∧
    new_calls w w' =
      take k [(verification, ctx); (analysis, ctx); (investment, ctx); (risk, ctx)] ∧
    (∀ res, r = Ok res →
       k = 4%nat ∧
       (kickoff caps verification ctx).2 = Ok (res_verification res) ∧
       (kickoff caps analysis ctx).2 = Ok (res_analysis res) ∧
       (kickoff caps investment ctx).2 = Ok (res_investment res) ∧
       (kickoff caps risk ctx).2 = Ok (res_risk res)) ∧
    (∀ e, r = Raise e →
       ∃ st, nth_error stage_order (k - 1) = Some st ∧ (k ≥ 1)%nat ∧
             (kickoff caps st ctx).2 = Raise e).
Proof.
  intros Hvalid Hext Htext ctx.
  rewrite run_crew_cases, Hvalid, Hext.
  assert (truthy_str text = true) as ->.
  { unfold truthy_str. destruct (String.eqb_spec text ""); [contradiction | reflexivity]. }
  destruct (kickoff_all_spec caps ctx w) as (_ & _ & k & Hk & Hcalls & Hok & Hraise).
  exists k. split; [exact Hk|]. split; [|split; assumption].
  now apply new_calls_app.
Qed.

(** ** The truncation of the document *)

Lemma truncate_document_long (text : string) :
  15000 < Z.of_nat (String.length text) →
  truncate_document text = substring 0 (Z.to_nat 15000) text +:+ TRUNCATION_MARKER.
Proof.
  intros H. unfold truncate_document, max_chars.
  destruct (Z.gtb_spec (Z.of_nat (String.length text)) 15000); [reflexivity | lia].
Qed.

Lemma truncate_document_short (text : string) :
  Z.of_nat (String.length text) ≤ 15000 → truncate_document text = text.
Proof.
  intros H. unfold truncate_document, max_chars.
  destruct (Z.gtb_spec (Z.of_nat (String.length text)) 15000); [lia | reflexivity].
Qed.

Lemma new_calls_same (w : world) : new_calls w w = [].
Proof. unfold new_calls. apply drop_all. Qed.

(** Every call the run makes carries the query and the truncated text. *)
Lemma crew_calls_input (caps : capabilities) (query file_path : string) (w : world)
    (text : string) (st : stage) (inp : crew_input) :
  extract_pdf_text (load_data caps) (w_fs w) file_path = Ok text →
  (st, inp) ∈ new_calls w (run_financial_analysis_crew caps query file_path w).2 →
  inp = {| ci_query := query; ci_document_content := truncate_document text |}.
Proof.
  intros Hext. rewrite run_crew_cases, Hext.
  destruct (validate_pdf_file _ _) as [[|]|e]; simpl;
    try (rewrite new_calls_same; intros H; inversion H).
  destruct (truthy_str text); simpl;
    try (rewrite new_calls_same; intros H; inversion H).
  destruct (kickoff_all_spec caps
    {| ci_query := query; ci_document_content := truncate_document text |} w)
    as (_ & _ & k & _ & Hcalls & _).
  rewrite (new_calls_app _ _ _ Hcalls). intros Hin.
  apply elem_of_take in Hin as (i & Hi & _).
  apply list_elem_of_lookup_2 in Hi. simpl in Hi.
  rewrite !elem_of_cons, elem_of_nil in Hi.
  destruct Hi as [Hi|[Hi|[Hi|[Hi|[]]]]]; congruence.
Qed.

(** C4.  For an extracted text of more than 15000 characters, the
    document content every stage receives is the first 15000 characters
    of the text followed by the truncation marker of 39 characters, so
    no stage receives more of the document than those 15000 characters;
    a text of at most 15000 characters is passed as it is. *)
Theorem crew_document_truncated (caps : capabilities) (query file_path : string)
    (w : world) (text : string) (st : stage) (inp : crew_input) :
  extract_pdf_text (load_data caps) (w_fs w) file_path = Ok text →
  (st, inp) ∈ new_calls w (run_financial_analysis_crew caps query file_path w).2 →
  let head := substring 0 (Z.to_nat 15000) text in
  (15000 < Z.of_nat (String.length text) →
     ci_document_content inp =
       head +:+ NL +:+ NL +:+ "[Document truncated due to length...]" ∧
     Z.of_nat (String.length head) = 15000 ∧
     (∃ rest, text = head +:+ rest) ∧
     Z.of_nat (String.length (ci_document_content inp)) = 15000 + 39) ∧
  (Z.of_nat (String.length text) ≤ 15000 → ci_document_content inp = text).
Proof.
  intros Hext Hin head.
  rewrite (crew_calls_input _ _ _ _ _ _ _ Hext Hin). simpl. split.
  - intros Hlong.
    assert (Hhead : String.length head = Z.to_nat 15000)
      by (unfold head; rewrite length_substring; lia).
    split; [now apply truncate_document_long|]. split; [lia|]. split.
    + exists (substring (Z.to_nat 15000) (String.length text - Z.to_nat 15000) text).
      apply substring_split. lia.
    + rewrite truncate_document_long by exact Hlong. fold head.
      rewrite length_string_app, Hhead.
      change (String.length TRUNCATION_MARKER) with 39%nat. lia.
  - apply truncate_document_short.
Qed.


(** Closed goals are settled by evaluating their decision procedure. *)
Ltac by_evaluation := apply (bool_decide_eq_true_1 _); vm_compute; reflexivity.

Lemma crew_document_truncated_witness :
  let head := substring 0 (Z.to_nat 15000) long_text in
  (15000 < Z.of_nat (String.length long_text) →
     ci_document_content {| ci_query := "summarize risk";
                            ci_document_content := truncate_document long_text |} =
       head +:+ NL +:+ NL +:+ "[Document truncated due to length...]" ∧
     Z.of_nat (String.length head) = 15000 ∧
     (∃ rest, long_text = head +:+ rest) ∧
     Z.of_nat (String.length
       (ci_document_content {| ci_query := "summarize risk";
                               ci_document_content := truncate_document long_text |}))
       = 15000 + 39) ∧
  (Z.of_nat (String.length long_text) ≤ 15000 →
     ci_document_content {| ci_query := "summarize risk";
                            ci_document_content := truncate_document long_text |} =
       long_text).
Proof.
  apply (crew_document_truncated (sample_caps [long_text] all_succeed)
           "summarize risk" sample_path sample_world long_text verification
           {| ci_query := "summarize risk";
              ci_document_content := truncate_document long_text |}).
  - by_evaluation.
  - by_evaluation.
Defined.

Lemma crew_stage_order_shared_context_witness :
  let caps := sample_caps ["revenue grew"] all_succeed in
  let w := sample_world in
  let ctx := {| ci_query := "summarize risk";
                ci_document_content := truncate_document "revenue grew" |} in
  let r := (run_financial_analysis_crew caps "summarize risk" sample_path w).1 in
  let w' := (run_financial_analysis_crew caps "summarize risk" sample_path w).2 in
  ∃ k, (k ≤ 4)%nat ∧
    new_calls w w' =
      take k [(verification, ctx); (analysis, ctx); (investment, ctx); (risk, ctx)] ∧
    (∀ res, r = Ok res →
       k = 4%nat ∧
       (kickoff caps verification ctx).2 = Ok (res_verification res) ∧
       (kickoff caps analysis ctx).2 = Ok (res_analysis res) ∧
       (kickoff caps investment ctx).2 = Ok (res_investment res) ∧
       (kickoff caps risk ctx).2 = Ok (res_risk res)) ∧
    (∀ e, r = Raise e →
       ∃ st, nth_error stage_order (k - 1) = Some st ∧ (k ≥ 1)%nat ∧
             (kickoff caps st ctx).2 = Raise e).
Proof.
  apply (crew_stage_order_shared_context (sample_caps ["revenue grew"] all_succeed)
           "summarize risk" sample_path sample_world "revenue grew").
  - by_evaluation.
  - by_evaluation.
  - discriminate.
Defined.

(** Without a valid file or without text, no stage is invoked. *)
Lemma crew_no_stage_without_text (caps : capabilities) (query file_path : string)
    (w : world) :
  validate_pdf_file (fs_calls (w_fs w)) file_path ≠ Ok true ∨
  (∀ text, extract_pdf_text (load_data caps) (w_fs w) file_path = Ok text → text = "") →
  new_calls w (run_financial_analysis_crew caps query file_path w).2 = [].
Proof.
  intros H. rewrite run_crew_cases.
  destruct (validate_pdf_file _ _) as [[|]|e]; simpl; try apply new_calls_same.
  destruct H as [H|H]; [congruence|].
  destruct (extract_pdf_text _ _ _) as [text|e]; simpl; try apply new_calls_same.
  rewrite (H text eq_refl). simpl. apply new_calls_same.
Qed.

(** ** The job table *)

Lemma get_analysis_update (now : Z) (db : database) (id id' : Z) (status : string)
    (task_id error_message : option string) (a : Analysis) :
  get_analysis db id = Some a →
  get_analysis (update_analysis_status now db id status task_id error_message).1 id' =
  if decide (id = id')
  then Some {|
    a_id := a_id a; a_user_id := a_user_id a; a_file_id := a_file_id a;
    a_filename := a_filename a; a_query := a_query a; a_status := status;
    a_task_id := if truthy_ostr task_id then task_id else a_task_id a;
    a_error_message :=
      if truthy_ostr error_message then error_message else a_error_message a;
    a_created_at := a_created_at a; a_updated_at := now;
    a_completed_at :=
      if String.eqb status "completed" then Some now else a_completed_at a |}
  else get_analysis db id'.
Proof.
  unfold get_analysis, update_analysis_status. intros ->. simpl.
  now rewrite lookup_insert.
Qed.

Lemma get_analysis_update_missing (now : Z) (db : database) (id : Z) (status : string)
    (task_id error_message : option string) :
  get_analysis db id = None →
  update_analysis_status now db id status task_id error_message = (db, None).
Proof. unfold get_analysis, update_analysis_status. now intros ->. Qed.

Lemma get_analysis_log_audit (now : Z) (db : database) (action rtype status : string)
    (uid rid : option Z) (details ip : option string) (id : Z) :
  get_analysis (log_audit now db action rtype status uid rid details ip).1 id =
  get_analysis db id.
Proof. reflexivity. Qed.

Lemma get_analysis_create_result (now : Z) (db : database) (aid : Z)
    (v f i r : string) (md : option (list (string * meta_value))) (pt : option Z) (id : Z) :
  get_analysis (create_analysis_result now db aid v f i r md pt).1 id =
  get_analysis db id.
Proof. reflexivity. Qed.

(** *** Running the monad step by step *)

Lemma bind_run {A B : Type} (m : M A) (f : A → M B) (w : world) :
  (m ≫= f) w = match m w with
               | (Ok a, w') => f a w'
               | (Raise e, w') => (Raise e, w')
               end.
Proof. reflexivity. Qed.

Lemma set_status_run (id : Z) (status : string) (tid em : option string) (w : world) :
  set_status id status tid em w =
  (Ok (), set_db (update_analysis_status (w_clock w) (w_db w) id status tid em).1 w).
Proof.
  unfold set_status, db_op. rewrite bind_run.
  now destruct (update_analysis_status _ _ _ _ _ _).
Qed.

Lemma audit_run (status : string) (uid : option Z) (id : Z) (details : string) (w : world) :
  audit status uid id details w =
  (Ok (), set_db (log_audit (w_clock w) (w_db w) "analyze_document" "analysis" status
                    uid (Some id) (Some details) None).1 w).
Proof. reflexivity. Qed.

(** What the status-writing blocks of the task do to a world: nothing
    outside the database, and in the database the row's status and,
    when a non-empty message is given, its error message. *)
Lemma status_block_spec (aid uid : option Z) (status astatus details : string)
    (tid em : option string) (w : world) :
  let block := if_analysis_id aid
                 (λ id, set_status id status tid em;; audit astatus uid id details) in
  (block w).1 = Ok () ∧
  w_fs (block w).2 = w_fs w ∧ w_clock (block w).2 = w_clock w ∧
  w_calls (block w).2 = w_calls w ∧
  ∀ id a, aid = Some id → id ≠ 0 → get_analysis (w_db w) id = Some a →
    ∃ a', get_analysis (w_db (block w).2) id = Some a' ∧
          a_status a' = status ∧
          a_error_message a' = (if truthy_ostr em then em else a_error_message a).
Proof.
  unfold if_analysis_id.
  destruct aid as [id|]; simpl; [|repeat split; congruence].
  destruct (Z.eqb_spec id 0); simpl.
  { repeat split; intros; congruence. }
  rewrite bind_run, set_status_run, audit_run.
  cbn [fst snd w_fs w_db w_clock w_calls set_db].
  split; [reflexivity|]. split; [reflexivity|]. split; [reflexivity|].
  split; [reflexivity|].
  intros id' a [= <-] _ Ha.
  rewrite get_analysis_log_audit.
  rewrite (get_analysis_update _ _ _ _ _ _ _ a Ha), decide_True by reflexivity.
  eexists. split; [reflexivity|]. simpl. tauto.
Qed.

Lemma processing_block_spec (aid : option Z) (status : string) (tid em : option string)
    (w : world) :
  let block := if_analysis_id aid (λ id, set_status id status tid em) in
  (block w).1 = Ok () ∧
  w_fs (block w).2 = w_fs w ∧ w_clock (block w).2 = w_clock w ∧
  w_calls (block w).2 = w_calls w ∧
  (∀ id a, aid = Some id → id ≠ 0 → get_analysis (w_db w) id = Some a →
     ∃ a', get_analysis (w_db (block w).2) id = Some a' ∧ a_status a' = status ∧
           a_error_message a' = (if truthy_ostr em then em else a_error_message a)) ∧
  (∀ id, get_analysis (w_db w) id = None → get_analysis (w_db (block w).2) id = None).
Proof.
  unfold if_analysis_id.
  destruct aid as [id|]; simpl; [|repeat split; congruence].
  destruct (Z.eqb_spec id 0); simpl.
  { repeat split; intros; congruence. }
  rewrite set_status_run.
  cbn [fst snd w_fs w_db w_clock w_calls set_db].
  split; [reflexivity|]. split; [reflexivity|]. split; [reflexivity|].
  split; [reflexivity|]. split.
  - intros id' a [= <-] _ Ha.
    rewrite (get_analysis_update _ _ _ _ _ _ _ a Ha), decide_True by reflexivity.
    eexists. split; [reflexivity|]. split; reflexivity.
  - intros id' Hnone.
    destruct (get_analysis (w_db w) id) as [a|] eqn:Ha.
    + rewrite (get_analysis_update _ _ _ _ _ _ _ a Ha).
      destruct (decide (id = id')); [congruence | assumption].
    + now rewrite get_analysis_update_missing.
Qed.

(** The [try] block of the task when the input fails validation: it
    raises [ValueError] after the status was set to processing. *)
Lemma task_try_validation_failure (caps : capabilities) (self : request) (t0 : Z)
    (file_path query file_id fname : string) (aid uid : option Z) (w : world) :
  validate_pdf_file (fs_calls (w_fs w)) file_path = Ok false ∨
  (validate_pdf_file (fs_calls (w_fs w)) file_path = Ok true ∧
   extract_pdf_text (load_data caps) (w_fs w) file_path = Ok "") →
  ∃ msg,
    analysis_task_try caps self t0 file_path query file_id fname aid uid w =
    (Raise (ValueError msg),
     (if_analysis_id aid (λ id, set_status id "processing" (Some (req_id self)) None) w).2)
    ∧ truthy_str msg = true.
Proof.
  intros H. unfold analysis_task_try. rewrite bind_run.
  destruct (processing_block_spec aid "processing" (Some (req_id self)) None w)
    as (Hok & Hfs & _).
  destruct (if_analysis_id aid _ w) as [r1 w1]. simpl in Hok, Hfs. subst r1.
  rewrite bind_run, Hfs. simpl.
  destruct H as [Hv | [Hv He]]; rewrite Hv; simpl.
  - eexists. split; reflexivity.
  - rewrite bind_run, run_crew_cases, Hfs, Hv, He. simpl.
    eexists. split; reflexivity.
Qed.

(** ** The analysis task *)

(** The task is its [try] block followed, on an exception, by the
    matching handler; the [finally] clause changes nothing. *)
Lemma task_run (caps : capabilities) (self : request)
    (file_path query file_id fname : string) (aid uid : option Z) (w : world) :
  analyze_financial_document_task caps self file_path query file_id fname aid uid w =
  match analysis_task_try caps self (w_clock w) file_path query file_id fname aid uid w with
  | (Ok ret, w') => (Ok ret, w')
  | (Raise e, w') =>
      match analysis_task_except self file_id aid uid e with
      | Some handler => handler w'
      | None => (Raise e, w')
      end
  end.
Proof.
  unfold analyze_financial_document_task. rewrite bind_run. simpl.
  unfold try_finally, try_except.
  destruct (analysis_task_try _ _ _ _ _ _ _ _ _ w) as [[ret|e] w']; simpl.
  - reflexivity.
  - destruct (analysis_task_except self file_id aid uid e) as [h|]; simpl.
    + now destruct (h w') as [[?|?] ?].
    + reflexivity.
Qed.

(** One attempt on an input that fails validation ends in the error
    dictionary, with the row failed. *)
Lemma task_validation_failure (caps : capabilities) (self : request)
    (file_path query file_id fname : string) (aid uid : option Z) (w : world) :
  validate_pdf_file (fs_calls (w_fs w)) file_path = Ok false ∨
  (validate_pdf_file (fs_calls (w_fs w)) file_path = Ok true ∧
   extract_pdf_text (load_data caps) (w_fs w) file_path = Ok "") →
  ∃ msg w',
    analyze_financial_document_task caps self file_path query file_id fname aid uid w =
      (Ok (TaskError "validation_error" msg file_id), w') ∧
    ∀ id a, aid = Some id → id ≠ 0 → get_analysis (w_db w) id = Some a →
      status_of (w_db w') id = Some "failed" ∧ error_of (w_db w') id = Some msg.
Proof.
  intros H. rewrite task_run.
  destruct (task_try_validation_failure caps self (w_clock w) file_path query file_id
              fname aid uid w H) as (msg & -> & Hmsg).
  cbn [analysis_task_except str_exn]. rewrite bind_run.
  destruct (processing_block_spec aid "processing" (Some (req_id self)) None w)
    as (_ & _ & _ & _ & Hrow & _).
  set (w1 := (if_analysis_id aid _ w).2) in *.
  destruct (status_block_spec aid uid "failed" "failure" ("Validation error: " +:+ msg)
              None (Some msg) w1) as (Hok & _ & _ & _ & Hrow').
  cbn zeta in Hok, Hrow'.
  destruct (if_analysis_id aid _ w1) as [r2 w2]. simpl in Hok, Hrow'. subst r2.
  exists msg, w2. split; [reflexivity|].
  intros id a Haid Hid Ha.
  destruct (Hrow id a Haid Hid Ha) as (a1 & Ha1 & _).
  destruct (Hrow' id a1 Haid Hid Ha1) as (a2 & Ha2 & Hst & Herr).
  unfold status_of, error_of. rewrite Ha2. simpl.
  rewrite Hst, Herr. simpl. now rewrite Hmsg.
Qed.

(** The statement C6 makes fails for a malformed document: the sample
    file has the header of a PDF, so that [validate_pdf_file] accepts
    it, but the PDF reader cannot parse it and raises.  The first
    attempt then asks for a retry after one second, and the job has four
    attempts, 1, 2 and 4 seconds apart, before it ends failed. *)
Lemma malformed_document_retried :
  validate_pdf_file (fs_calls (w_fs sample_world)) sample_path = Ok true ∧
  extract_pdf_text (load_data malformed_caps) (w_fs sample_world) sample_path
    = Raise (Exception_ "EOF marker not found") ∧
  (analyze_financial_document_task malformed_caps first_attempt sample_path
     "summarize risk" "f1" "report.pdf" (Some 1) None sample_world).1
    = Raise (Retry 1 (Exception_ "EOF marker not found")) ∧
  (λ '(r, delays, w'), (r, delays, status_of (w_db w') 1)) <$>
    run_job 4 (λ _, malformed_caps) "task-1" 0 sample_path "summarize risk" "f1"
            "report.pdf" (Some 1) None [] sample_world
    = Some (Raise (Exception_ "EOF marker not found"), [1; 2; 4], Some "failed").
Proof. repeat split; by_evaluation. Qed.

(** C6 (amended).  A job whose input fails the validation the code
    makes, because [validate_pdf_file] rejects the file (missing, not
    named [.pdf], larger than 10 MB, without the PDF header, or not
    readable) or because the text extracted from it is empty, ends on
    its first attempt: the task returns the validation-error dictionary,
    the job's row is failed with the error message, and no retry is
    scheduled, so that the job has had exactly one attempt. *)
Theorem validation_failure_never_retried (caps : Z → capabilities)
    (task_id file_path query file_id fname : string) (aid uid : option Z)
    (w : world) (fuel : nat) :
  validate_pdf_file (fs_calls (w_fs w)) file_path = Ok false ∨
  (validate_pdf_file (fs_calls (w_fs w)) file_path = Ok true ∧
   extract_pdf_text (load_data (caps 0)) (w_fs w) file_path = Ok "") →
  ∃ msg w',
    run_job (S fuel) caps task_id 0 file_path query file_id fname aid uid [] w =
      Some (Ok (TaskError "validation_error" msg file_id), [], w') ∧
    ∀ id a, aid = Some id → id ≠ 0 → get_analysis (w_db w) id = Some a →
      status_of (w_db w') id = Some "failed" ∧ error_of (w_db w') id = Some msg.
Proof.
  intros H.
  destruct (task_validation_failure (caps 0) {| req_id := task_id; req_retries := 0 |}
              file_path query file_id fname aid uid w H) as (msg & w' & Hrun & Hrow).
  exists msg, w'. split; [|exact Hrow].
  cbn [run_job]. now rewrite Hrun.
Qed.

Lemma validation_failure_never_retried_witness :
  ∃ msg w',
    run_job 1 (λ _, sample_caps [] all_succeed) "task-1" 0 sample_path "summarize risk"
            "f1" "report.pdf" (Some 1) None [] sample_world =
      Some (Ok (TaskError "validation_error" msg "f1"), [], w') ∧
    ∀ id a, Some 1 = Some id → id ≠ 0 → get_analysis (w_db sample_world) id = Some a →
      status_of (w_db w') id = Some "failed" ∧ error_of (w_db w') id = Some msg.
Proof.
  apply (validation_failure_never_retried (λ _, sample_caps [] all_succeed) "task-1"
           sample_path "summarize risk" "f1" "report.pdf" (Some 1) None sample_world 0).
  right. split; by_evaluation.
Defined.

Lemma mark_completed_run (self : request) (file_id : string) (uid : option Z) (pt : Z)
    (res : results) (id : Z) (w : world) :
  mark_completed self file_id uid pt res id w =
  (Ok (),
   set_db
     (log_audit (w_clock w)
        (update_analysis_status (w_clock w)
           (create_analysis_result (w_clock w) (w_db w) id
              (res_verification res) (res_analysis res) (res_investment res)
              (res_risk res)
              (Some [("task_id", MStr (req_id self)); ("file_id", MStr file_id);
                     ("completion_time", MTime (w_clock w))])
              (Some pt)).1
           id "completed" None None).1
        "analyze_document" "analysis" "success" uid (Some id)
        (Some ("Analysis completed in " +:+ str_int pt +:+ "s")) None).1
     w).
Proof.
  unfold mark_completed. rewrite bind_run. cbn [gets].
  rewrite bind_run. unfold db_op at 1. cbn [create_analysis_result fst snd].
  rewrite bind_run, set_status_run, audit_run. reflexivity.
Qed.

Lemma remove_if_exists_spec (p : string) (w : world) :
  (remove_if_exists p w).1 = Ok () ∧
  w_db (remove_if_exists p w).2 = w_db w ∧
  w_clock (remove_if_exists p w).2 = w_clock w ∧
  w_calls (remove_if_exists p w).2 = w_calls w.
Proof.
  unfold remove_if_exists. rewrite bind_run. cbn [gets].
  destruct (path_exists (w_fs w) p); [|now repeat split].
  unfold try_except, os_remove.
  destruct (path_remove (w_fs w) p) as [[[]|?] fs']; now repeat split.
Qed.

(** The completion block on an existing row: it does not raise, the row
    is completed at the current time, and one result row is appended. *)
Lemma completed_block_spec (self : request) (file_id : string) (aid uid : option Z)
    (pt : Z) (res : results) (w : world) :
  let block := if_analysis_id aid (mark_completed self file_id uid pt res) in
  (block w).1 = Ok () ∧
  w_fs (block w).2 = w_fs w ∧ w_clock (block w).2 = w_clock w ∧
  w_calls (block w).2 = w_calls w ∧
  ∀ id a, aid = Some id → id ≠ 0 → get_analysis (w_db w) id = Some a →
    status_of (w_db (block w).2) id = Some "completed" ∧
    completed_at_of (w_db (block w).2) id = Some (w_clock w).
Proof.
  unfold if_analysis_id.
  destruct aid as [id|]; simpl; [|repeat split; congruence].
  destruct (Z.eqb_spec id 0); simpl.
  { repeat split; intros; congruence. }
  rewrite mark_completed_run. cbn [fst snd w_fs w_db w_clock w_calls set_db].
  split; [reflexivity|]. split; [reflexivity|]. split; [reflexivity|].
  split; [reflexivity|].
  intros id' a [= <-] _ Ha. unfold status_of, completed_at_of.
  rewrite get_analysis_log_audit.
  rewrite (get_analysis_update _ _ _ _ _ _ _ a), decide_True by
    (reflexivity || (rewrite get_analysis_create_result; exact Ha)).
  split; reflexivity.
Qed.

(** The [try] block of the task, by its outcome.  An exception leaves
    the database as the first status update made it and the file system
    as it was; a return means the row was completed. *)
Lemma task_try_outcome (caps : capabilities) (self : request) (t0 : Z)
    (file_path query file_id fname : string) (aid uid : option Z) (w : world) :
  let w0 := (if_analysis_id aid
               (λ id, set_status id "processing" (Some (req_id self)) None) w).2 in
  match analysis_task_try caps self t0 file_path query file_id fname aid uid w with
  | (Raise e, w1) => w_db w1 = w_db w0 ∧ w_fs w1 = w_fs w
  | (Ok ret, w1) =>
      (∃ pt res, ret = TaskSuccess file_id fname (req_id self) pt res) ∧
      ∀ id a, aid = Some id → id ≠ 0 → get_analysis (w_db w) id = Some a →
        status_of (w_db w1) id = Some "completed"
  end.
Proof.
  intros w0. unfold analysis_task_try. rewrite bind_run.
  destruct (processing_block_spec aid "processing" (Some (req_id self)) None w)
    as (Hok & Hfs & _ & _ & Hrow & _).
  fold w0 in Hok, Hfs, Hrow |- *.
  destruct (if_analysis_id aid _ w) as [r1 w0'] eqn:Hblock.
  simpl in Hok. subst r1. simpl in w0. subst w0.
  rewrite bind_run. cbn beta iota.
  destruct (validate_pdf_file (fs_calls (w_fs w0')) file_path) as [[|]|e]; simpl;
    [|now split|now split].
  rewrite bind_run.
  destruct (run_crew_frame caps query file_path w0') as [Hfs1 Hdb1].
  destruct (run_financial_analysis_crew caps query file_path w0') as [[res|e] w1];
    simpl in Hfs1, Hdb1; [|split; congruence].
  rewrite bind_run. cbn [gets]. rewrite bind_run.
  destruct (completed_block_spec self file_id aid uid (w_clock w1 - t0) res w1)
    as (Hok2 & _ & _ & _ & Hrow2).
  cbn zeta in Hok2, Hrow2.
  destruct (if_analysis_id aid _ w1) as [r2 w2]. simpl in Hok2, Hrow2. subst r2.
  rewrite bind_run.
  destruct (remove_if_exists_spec file_path w2) as (Hok3 & Hdb3 & _).
  destruct (remove_if_exists file_path w2) as [r3 w3]. simpl in Hok3, Hdb3. subst r3.
  cbn [mret M_ret]. split; [eauto|].
  intros id a Haid Hid Ha. rewrite Hdb3.
  destruct (Hrow id a Haid Hid Ha) as (a1 & Ha1 & _).
  rewrite <- Hdb1 in Ha1.
  now destruct (Hrow2 id a1 Haid Hid Ha1).
Qed.

(** The case of an exception that the last handler of the task takes. *)
Ltac generic_handler Hfail Hfin :=
  match goal with
  | |- context [self_retry ?self ?c ?e] =>
      let w' := fresh "w'" in
      let Heq := fresh "Heq" in
      let Hw' := fresh "Hw'" in
      destruct (Hfail ("Error: " +:+ str_exn e) (raise (self_retry self c e)))
        as (w' & Heq & Hw');
      exists w'; split; [exact Heq | now apply Hfin]
  end.

(** One attempt whose [try] block raises: the handler chosen by the class
    of the exception decides the outcome, and the row is failed with the
    handler's message (an empty message leaves the stored one). *)
Lemma task_raise_outcome (caps : capabilities) (self : request)
    (file_path query file_id fname : string) (aid uid : option Z) (w : world) (e : exn) :
  (analysis_task_try caps self (w_clock w) file_path query file_id fname aid uid w).1
    = Raise e →
  let msg := match e with
             | SoftTimeLimitExceeded => "Task timeout"
             | _ => str_exn e
             end in
  ∃ w',
    analyze_financial_document_task caps self file_path query file_id fname aid uid w =
      (match e with
       | SoftTimeLimitExceeded =>
           Raise (self_retry self 60 (Exception_ "Task timeout, retrying..."))
       | ValueError _ => Ok (TaskError "validation_error" msg file_id)
       | _ => Raise (self_retry self (2 ^ req_retries self) e)
       end, w') ∧
    ∀ id a, aid = Some id → id ≠ 0 → get_analysis (w_db w) id = Some a →
      status_of (w_db w') id = Some "failed" ∧
      error_of (w_db w') id = (if truthy_str msg then Some msg else a_error_message a).
Proof.
  intros Hbody msg. rewrite task_run.
  pose proof (task_try_outcome caps self (w_clock w) file_path query file_id fname
                aid uid w) as Hout.
  destruct (processing_block_spec aid "processing" (Some (req_id self)) None w)
    as (_ & _ & _ & _ & Hrow & _).
  cbn zeta in Hout, Hrow.
  destruct (analysis_task_try _ _ _ _ _ _ _ _ _ w) as [[ret|e'] w1];
    simpl in Hbody; [discriminate|].
  injection Hbody as ->. destruct Hout as [Hdb _].
  assert (Hfail : ∀ details (tail : M task_return),
    ∃ w', (if_analysis_id aid
             (λ id, set_status id "failed" None (Some msg);;
                    audit "failure" uid id details);; tail) w1 = tail w' ∧
          ∀ id a, aid = Some id → id ≠ 0 → get_analysis (w_db w) id = Some a →
            ∃ a', get_analysis (w_db w') id = Some a' ∧ a_status a' = "failed" ∧
                  a_error_message a' =
                    (if truthy_str msg then Some msg else a_error_message a)).
  { intros details tail. rewrite bind_run.
    destruct (status_block_spec aid uid "failed" "failure" details None (Some msg) w1)
      as (Hok & _ & _ & _ & Hrow').
    cbn zeta in Hok, Hrow'.
    destruct (if_analysis_id aid _ w1) as [r2 w2]. simpl in Hok, Hrow'. subst r2.
    exists w2. split; [reflexivity|].
    intros id a Haid Hid Ha.
    destruct (Hrow id a Haid Hid Ha) as (a1 & Ha1 & _ & Herr1).
    rewrite <- Hdb in Ha1.
    destruct (Hrow' id a1 Haid Hid Ha1) as (a2 & Ha2 & Hst & Herr).
    exists a2. split; [exact Ha2|]. split; [exact Hst|].
    rewrite Herr. simpl in *. now rewrite Herr1. }
  assert (Hfin : ∀ w', (∀ id a, aid = Some id → id ≠ 0 →
      get_analysis (w_db w) id = Some a →
      ∃ a', get_analysis (w_db w') id = Some a' ∧ a_status a' = "failed" ∧
            a_error_message a' = (if truthy_str msg then Some msg else a_error_message a)) →
    ∀ id a, aid = Some id → id ≠ 0 → get_analysis (w_db w) id = Some a →
      status_of (w_db w') id = Some "failed" ∧
      error_of (w_db w') id = (if truthy_str msg then Some msg else a_error_message a)).
  { intros w' H id a Haid Hid Ha. destruct (H id a Haid Hid Ha) as (a' & Ha' & Hst & Herr).
    unfold status_of, error_of. rewrite Ha'. simpl. now rewrite Hst, Herr. }
  destruct e; cbn [analysis_task_except].
  - destruct (Hfail "Task timeout"
                (raise (self_retry self 60 (Exception_ "Task timeout, retrying...")))) as (w' & Heq & Hw').
    exists w'. split; [exact Heq | now apply Hfin].
  - destruct (Hfail ("Validation error: " +:+ msg0)
                (mret (TaskError "validation_error" msg0 file_id)))
      as (w' & Heq & Hw').
    exists w'. split; [exact Heq | now apply Hfin].
  - generic_handler Hfail Hfin.
  - generic_handler Hfail Hfin.
  - generic_handler Hfail Hfin.
  - generic_handler Hfail Hfin.
  - generic_handler Hfail Hfin.
Qed.

Lemma self_retry_cases (self : request) (countdown : Z) (exc : exn) :
  (req_retries self < 3 → self_retry self countdown exc = Retry countdown exc) ∧
  (3 ≤ req_retries self → self_retry self countdown exc = exc).
Proof.
  unfold self_retry, max_retries.
  destruct (Z.gtb_spec (req_retries self + 1) 3); split; intros; (reflexivity || lia).
Qed.

(** The statement C7 makes about the stored message fails: with crews
    that time out on every attempt the sample job is retried three
    times, 60 seconds apart, and ends with its row failed, but the
    message stored is "Task timeout". *)
Lemma timeout_message_differs :
  job_summary all_time_out =
    Some (Raise (Exception_ "Task timeout, retrying..."), [60; 60; 60],
          Some "failed", Some "Task timeout") ∧
  job_summary all_time_out ≠
    Some (Raise (Exception_ "Task timeout, retrying..."), [60; 60; 60],
          Some "failed", Some "timeout, retries exhausted.").
Proof. split; by_evaluation. Qed.

(** C7 (amended).  An attempt of the analysis task that exceeds its soft
    time limit sets the job's row to failed with the message "Task
    timeout" and asks for a retry after 60 seconds; the retry is granted
    while fewer than 3 retries were made, and after the third retry the
    attempt ends the task with the exception "Task timeout, retrying...",
    the row staying failed with "Task timeout". *)
Theorem timeout_retry_policy (caps : capabilities) (self : request)
    (file_path query file_id fname : string) (aid uid : option Z) (w : world) :
  (analysis_task_try caps self (w_clock w) file_path query file_id fname aid uid w).1
    = Raise SoftTimeLimitExceeded →
  ∃ w',
    (req_retries self < 3 →
       analyze_financial_document_task caps self file_path query file_id fname aid uid w
       = (Raise (Retry 60 (Exception_ "Task timeout, retrying...")), w')) ∧
    (3 ≤ req_retries self →
       analyze_financial_document_task caps self file_path query file_id fname aid uid w
       = (Raise (Exception_ "Task timeout, retrying..."), w')) ∧
    ∀ id a, aid = Some id → id ≠ 0 → get_analysis (w_db w) id = Some a →
      status_of (w_db w') id = Some "failed" ∧
      error_of (w_db w') id = Some "Task timeout".
Proof.
  intros Hbody.
  destruct (task_raise_outcome caps self file_path query file_id fname aid uid w _ Hbody)
    as (w' & Hrun & Hrow).
  destruct (self_retry_cases self 60 (Exception_ "Task timeout, retrying...")) as [Hlt Hge].
  exists w'. split; [|split].
  - intros H. now rewrite Hrun, Hlt.
  - intros H. now rewrite Hrun, Hge.
  - exact Hrow.
Qed.

Lemma timeout_retry_policy_witness :
  ∃ w',
    (req_retries first_attempt < 3 →
       analyze_financial_document_task (sample_caps ["revenue grew"] all_time_out)
         first_attempt sample_path "summarize risk" "f1" "report.pdf" (Some 1) None
         sample_world
       = (Raise (Retry 60 (Exception_ "Task timeout, retrying...")), w')) ∧
    (3 ≤ req_retries first_attempt →
       analyze_financial_document_task (sample_caps ["revenue grew"] all_time_out)
         first_attempt sample_path "summarize risk" "f1" "report.pdf" (Some 1) None
         sample_world
       = (Raise (Exception_ "Task timeout, retrying..."), w')) ∧
    ∀ id a, Some 1 = Some id → id ≠ 0 → get_analysis (w_db sample_world) id = Some a →
      status_of (w_db w') id = Some "failed" ∧
      error_of (w_db w') id = Some "Task timeout".
Proof.
  apply (timeout_retry_policy (sample_caps ["revenue grew"] all_time_out) first_attempt
           sample_path "summarize risk" "f1" "report.pdf" (Some 1) None sample_world).
  by_evaluation.
Defined.

(** The statement C8 makes fails twice.  An error of execution that
    is a [ValueError] is not retried: with a valid file, a text
    extracted, and crews that raise [ValueError], the sample job ends on
    its first attempt with the validation-error dictionary.  And the
    delay is not [2 ^ n] for the attempt number [n]: after the first
    attempt of the job whose crews break, the retry is asked for after
    one second. *)
Lemma stage_value_error_not_retried :
  validate_pdf_file (fs_calls (w_fs sample_world)) sample_path = Ok true ∧
  extract_pdf_text (load_data (sample_caps ["revenue grew"] all_reject))
    (w_fs sample_world) sample_path = Ok "revenue grew" ∧
  job_summary all_reject =
    Some (Ok (TaskError "validation_error" "Invalid response from LLM call" "f1"), [],
          Some "failed", Some "Invalid response from LLM call") ∧
  (analyze_financial_document_task (sample_caps ["revenue grew"] all_break)
     first_attempt sample_path "summarize risk" "f1" "report.pdf" (Some 1) None
     sample_world).1 = Raise (Retry 1 (Exception_ "connection reset")).
Proof. repeat split; by_evaluation. Qed.

(** C8 (amended).  An attempt of the analysis task whose [try] block
    raises an exception other than the soft time limit sets the job's
    row to failed.  When the exception is a [ValueError], whatever
    raised it (the validation, the PDF reader or a stage), the attempt
    returns the validation-error dictionary and asks for no retry.
    Every other exception asks for a retry after [2 ^ n] seconds, [n]
    being the number of retries made so far (0 on the first run, so one
    second after the first attempt); the retry is granted while fewer
    than 3 retries were made, and after the third retry the attempt ends
    the task with that exception. *)
Theorem error_retry_backoff (caps : capabilities) (self : request)
    (file_path query file_id fname : string) (aid uid : option Z) (w : world) (e : exn) :
  (analysis_task_try caps self (w_clock w) file_path query file_id fname aid uid w).1
    = Raise e →
  e ≠ SoftTimeLimitExceeded →
  ∃ w',
    match e with
    | ValueError msg =>
        analyze_financial_document_task caps self file_path query file_id fname aid uid w
        = (Ok (TaskError "validation_error" msg file_id), w')
    | _ =>
        (req_retries self < 3 →
           analyze_financial_document_task caps self file_path query file_id fname aid uid w
           = (Raise (Retry (2 ^ req_retries self) e), w')) ∧
        (3 ≤ req_retries self →
           analyze_financial_document_task caps self file_path query file_id fname aid uid w
           = (Raise e, w'))
    end ∧
    ∀ id a, aid = Some id → id ≠ 0 → get_analysis (w_db w) id = Some a →
      status_of (w_db w') id = Some "failed".
Proof.
  intros Hbody Hsoft.
  destruct (task_raise_outcome caps self file_path query file_id fname aid uid w _ Hbody)
    as (w' & Hrun & Hrow).
  destruct (self_retry_cases self (2 ^ req_retries self) e) as [Hlt Hge].
  exists w'. split.
  - destruct e; try contradiction; try exact Hrun;
      (split; intros H; rewrite Hrun; [now rewrite (Hlt H) | now rewrite (Hge H)]).
  - intros id a Haid Hid Ha. now destruct (Hrow id a Haid Hid Ha).
Qed.

Lemma error_retry_backoff_witness :
  ∃ w',
    ((req_retries first_attempt < 3 →
        analyze_financial_document_task (sample_caps ["revenue grew"] all_break)
          first_attempt sample_path "summarize risk" "f1" "report.pdf" (Some 1) None
          sample_world
        = (Raise (Retry (2 ^ req_retries first_attempt) (Exception_ "connection reset")),
           w')) ∧
     (3 ≤ req_retries first_attempt →
        analyze_financial_document_task (sample_caps ["revenue grew"] all_break)
          first_attempt sample_path "summarize risk" "f1" "report.pdf" (Some 1) None
          sample_world
        = (Raise (Exception_ "connection reset"), w'))) ∧
    ∀ id a, Some 1 = Some id → id ≠ 0 → get_analysis (w_db sample_world) id = Some a →
      status_of (w_db w') id = Some "failed".
Proof.
  apply (error_retry_backoff (sample_caps ["revenue grew"] all_break) first_attempt
           sample_path "summarize risk" "f1" "report.pdf" (Some 1) None sample_world
           (Exception_ "connection reset")).
  - by_evaluation.
  - discriminate.
Defined.

(** The sample job with crews that break on every attempt: three
    retries, after 1, 2 and 4 seconds, then the failure is final. *)
Example breaking_job_schedule :
  job_summary all_break =
    Some (Raise (Exception_ "connection reset"), [1; 2; 4],
          Some "failed", Some "connection reset").
Proof. by_evaluation. Qed.

(** ** The state machine of the job row *)

(** The statement C2 makes fails: on the completed sample job, a request
    to set the status back to queued, which is not an edge of the state
    machine, is applied and nothing is raised. *)
Lemma completed_row_set_back_to_queued :
  status_of (w_db completed_world) 1 = Some "completed" ∧
  legal_transition "completed" "queued" = false ∧
  status_of (update_analysis_status 500 (w_db completed_world) 1 "queued" None None).1 1
    = Some "queued" ∧
  a_status <$> (update_analysis_status 500 (w_db completed_world) 1 "queued" None None).2
    = Some "queued".
Proof. repeat split; by_evaluation. Qed.

(** One attempt of the task leaves an existing row completed when it
    returns the success dictionary and failed otherwise. *)
Lemma task_attempt_final_status (caps : capabilities) (self : request)
    (file_path query file_id fname : string) (aid uid : option Z) (w : world)
    (id : Z) (a : Analysis) :
  aid = Some id → id ≠ 0 → get_analysis (w_db w) id = Some a →
  let out :=
    analyze_financial_document_task caps self file_path query file_id fname aid uid w in
  status_of (w_db out.2) id =
    Some match out.1 with
         | Ok (TaskSuccess _ _ _ _ _) => "completed"
         | _ => "failed"
         end.
Proof.
  intros Haid Hid Ha out. subst out.
  destruct (analysis_task_try caps self (w_clock w) file_path query file_id fname
              aid uid w) as [[ret|e] w1] eqn:Hbody.
  - pose proof (task_try_outcome caps self (w_clock w) file_path query file_id fname
                  aid uid w) as Hout.
    cbn zeta in Hout. rewrite Hbody in Hout. destruct Hout as [(pt & res & ->) Hrow].
    rewrite task_run, Hbody. simpl. now apply (Hrow id a).
  - assert (Hraise : (analysis_task_try caps self (w_clock w) file_path query file_id
                        fname aid uid w).1 = Raise e) by now rewrite Hbody.
    destruct (task_raise_outcome caps self file_path query file_id fname aid uid w e
                Hraise) as (w' & -> & Hrow).
    destruct (Hrow id a Haid Hid Ha) as [Hst _]. cbn [fst snd]. rewrite Hst.
    destruct e; reflexivity.
Qed.

(** C2 (amended).  [update_analysis_status] checks no transition: on an
    existing row it sets the status to whatever is requested, whatever
    the current status, returns the row and raises nothing, and it leaves
    the other rows alone.  The order queued, processing, then completed
    or failed is followed only by the way one attempt of the analysis
    task uses it: the attempt starts by setting processing and leaves the
    row completed if it returns its success dictionary and failed if
    not. *)
Theorem status_update_unchecked (now : Z) (db : database) (id : Z) (old : Analysis)
    (status : string) (tid em : option string)
    (caps : capabilities) (self : request) (file_path query file_id fname : string)
    (uid : option Z) (w : world) (job : Z) (row : Analysis) :
  get_analysis db id = Some old →
  job ≠ 0 →
  get_analysis (w_db w) job = Some row →
  let upd := update_analysis_status now db id status tid em in
  let start := if_analysis_id (Some job)
                 (λ i, set_status i "processing" (Some (req_id self)) None) in
  let out := analyze_financial_document_task caps self file_path query file_id fname
               (Some job) uid w in
  (status_of upd.1 id = Some status ∧
   a_status <$> upd.2 = Some status ∧
   ∀ id', id' ≠ id → get_analysis upd.1 id' = get_analysis db id') ∧
  ((∃ rest, ∀ t0, analysis_task_try caps self t0 file_path query file_id fname
                    (Some job) uid = start ≫= rest t0) ∧
   status_of (w_db (start w).2) job = Some "processing" ∧
   status_of (w_db out.2) job =
     Some match out.1 with
          | Ok (TaskSuccess _ _ _ _ _) => "completed"
          | _ => "failed"
          end).
Proof.
  intros Hold Hjob Hrow upd start out. split; [|split; [|split]].
  - subst upd. split; [|split].
    + unfold status_of. rewrite (get_analysis_update _ _ _ _ _ _ _ old Hold).
      now rewrite decide_True.
    + unfold update_analysis_status. unfold get_analysis in Hold. now rewrite Hold.
    + intros id' Hne. rewrite (get_analysis_update _ _ _ _ _ _ _ old Hold).
      rewrite decide_False; congruence.
  - eexists (λ t0 _, _). intros t0. unfold analysis_task_try. reflexivity.
  - destruct (processing_block_spec (Some job) "processing" (Some (req_id self)) None w)
      as (_ & _ & _ & _ & H & _).
    destruct (H job row eq_refl Hjob Hrow) as (a' & Ha' & Hst & _).
    subst start. unfold status_of. rewrite Ha'. simpl. now rewrite Hst.
  - now apply (task_attempt_final_status caps self file_path query file_id fname
                 (Some job) uid w job row).
Qed.

Lemma status_update_unchecked_witness :
  let upd := update_analysis_status 500 (w_db sample_world) 1 "completed" None None in
  let start := if_analysis_id (Some 1)
                 (λ i, set_status i "processing" (Some (req_id first_attempt)) None) in
  let out := analyze_financial_document_task (sample_caps ["revenue grew"] all_succeed)
               first_attempt sample_path "summarize risk" "f1" "report.pdf"
               (Some 1) None sample_world in
  (status_of upd.1 1 = Some "completed" ∧
   a_status <$> upd.2 = Some "completed" ∧
   ∀ id', id' ≠ 1 → get_analysis upd.1 id' = get_analysis (w_db sample_world) id') ∧
  ((∃ rest, ∀ t0, analysis_task_try (sample_caps ["revenue grew"] all_succeed)
                    first_attempt t0 sample_path "summarize risk" "f1" "report.pdf"
                    (Some 1) None = start ≫= rest t0) ∧
   status_of (w_db (start sample_world).2) 1 = Some "processing" ∧
   status_of (w_db out.2) 1 =
     Some match out.1 with
          | Ok (TaskSuccess _ _ _ _ _) => "completed"
          | _ => "failed"
          end).
Proof.
  apply (status_update_unchecked 500 (w_db sample_world) 1 sample_row "completed"
           None None (sample_caps ["revenue grew"] all_succeed) first_attempt
           sample_path "summarize risk" "f1" "report.pdf" None sample_world 1
           sample_row).
  - by_evaluation.
  - lia.
  - by_evaluation.
Defined.

(** ** Completing a job twice *)

(** The statement C3 makes fails: the sample job is completed at time
    120 with one result row; the completion block run again an hour
    later moves [completed_at] to 3720 and stores a second result row. *)
Lemma second_completion_changes_row :
  status_of (w_db completed_world) 1 = Some "completed" ∧
  completed_at_of (w_db completed_world) 1 = Some 120 ∧
  Z.of_nat (length (analysis_results (w_db completed_world))) = 1 ∧
  (mark_completed first_attempt "f1" None 20 sample_results 1 later_world).1 = Ok () ∧
  completed_at_of
    (w_db (mark_completed first_attempt "f1" None 20 sample_results 1 later_world).2) 1
    = Some 3720 ∧
  Z.of_nat (length (analysis_results
    (w_db (mark_completed first_attempt "f1" None 20 sample_results 1 later_world).2)))
    = 2.
Proof. repeat split; by_evaluation. Qed.

Lemma analysis_results_update (now : Z) (db : database) (id : Z) (status : string)
    (tid em : option string) :
  analysis_results (update_analysis_status now db id status tid em).1 =
  analysis_results db.
Proof. unfold update_analysis_status. now destruct (analyses db !! id). Qed.

(** C3 (amended).  Running the completion block again on a job that is
    already completed raises nothing and leaves the status completed,
    but it sets [completed_at] to the time of this second run and
    appends one more result row holding the outputs given; the result
    rows stored before stay as they were. *)
Theorem second_completion (self : request) (file_id : string) (uid : option Z) (pt : Z)
    (res : results) (id : Z) (w : world) (a : Analysis) :
  get_analysis (w_db w) id = Some a →
  a_status a = "completed" →
  let out := mark_completed self file_id uid pt res id w in
  out.1 = Ok () ∧
  status_of (w_db out.2) id = Some "completed" ∧
  completed_at_of (w_db out.2) id = Some (w_clock w) ∧
  ∃ row,
    analysis_results (w_db out.2) = analysis_results (w_db w) ++ [row] ∧
    r_analysis_id row = id ∧
    r_verification row = res_verification res ∧
    r_financial_analysis row = res_analysis res ∧
    r_investment_recommendations row = res_investment res ∧
    r_risk_assessment row = res_risk res.
Proof.
  intros Ha _ out. subst out. rewrite mark_completed_run.
  cbn [fst snd w_db set_db]. split; [reflexivity|].
  unfold status_of, completed_at_of. rewrite get_analysis_log_audit.
  rewrite (get_analysis_update _ _ _ _ _ _ _ a), decide_True by
    (reflexivity || (rewrite get_analysis_create_result; exact Ha)).
  split; [reflexivity|]. split; [reflexivity|].
  cbn [log_audit fst analysis_results]. rewrite analysis_results_update.
  eexists. split; [reflexivity|]. repeat split.
Qed.

Lemma second_completion_witness :
  let out := mark_completed first_attempt "f1" None 20 sample_results 1 later_world in
  out.1 = Ok () ∧
  status_of (w_db out.2) 1 = Some "completed" ∧
  completed_at_of (w_db out.2) 1 = Some (w_clock later_world) ∧
  ∃ row,
    analysis_results (w_db out.2) = analysis_results (w_db later_world) ++ [row] ∧
    r_analysis_id row = 1 ∧
    r_verification row = res_verification sample_results ∧
    r_financial_analysis row = res_analysis sample_results ∧
    r_investment_recommendations row = res_investment sample_results ∧
    r_risk_assessment row = res_risk sample_results.
Proof.
  apply (second_completion first_attempt "f1" None 20 sample_results 1 later_world
           (default sample_row (get_analysis (w_db later_world) 1))).
  - by_evaluation.
  - by_evaluation.
Defined.

(** ** The periodic clean-up *)

Lemma glob_documents_spec (fs : filesystem) :
  NoDup (glob_documents fs) ∧
  ∀ p, p ∈ glob_documents fs ↔ is_Some (fs !! p) ∧ is_document_path p = true.
Proof.
  unfold glob_documents. split.
  - apply NoDup_filter. apply (NoDup_fst_map_to_list fs).
  - intros p. rewrite list_elem_of_filter. split.
    + intros [Hdoc Hin]. split; [|exact Hdoc].
      apply list_elem_of_fmap in Hin as ([q n] & -> & Hin).
      apply elem_of_map_to_list in Hin. simpl. eauto.
    + intros [[n Hn] Hdoc]. split; [exact Hdoc|].
      apply list_elem_of_fmap. exists (p, n). split; [reflexivity|].
      now apply elem_of_map_to_list.
Qed.

Lemma count_if_cons (f : string → bool) (p : string) (l : list string) :
  count_if f (p :: l) = (if f p then 1 else 0) + count_if f l.
Proof.
  unfold count_if. destruct (f p) eqn:E.
  - rewrite filter_cons_True by exact E. simpl length. lia.
  - rewrite filter_cons_False by (rewrite E; discriminate). lia.
Qed.

Lemma count_if_ext (f g : string → bool) (l : list string) :
  (∀ p, p ∈ l → f p = g p) → count_if f l = count_if g l.
Proof.
  induction l as [|p l IH]; intros H; [reflexivity|].
  rewrite !count_if_cons, (H p), IH; [reflexivity | |].
  - intros q Hq. apply H. now apply list_elem_of_further.
  - apply list_elem_of_here.
Qed.

(** One pass of the loop body. *)
Lemma cleanup_step_run (now count errors : Z) (p : string) (w : world) :
  cleanup_step now (count, errors) p w =
  (Ok (count + (if entry_removed (w_fs w) now p then 1 else 0),
       errors + (if entry_failed (w_fs w) now p then 1 else 0)),
   set_fs (if entry_removed (w_fs w) now p then delete p (w_fs w) else w_fs w) w).
Proof.
  unfold cleanup_step, try_except, entry_removed, entry_failed, expired.
  rewrite bind_run. unfold path_getmtime.
  destruct w as [fs db clock calls]. cbn [w_fs set_fs w_db w_clock w_calls].
  destruct (fs !! p) as [n|] eqn:Hp; simpl; [|now rewrite Z.add_0_r].
  destruct (n_stat n) as [t|]; simpl; [|now rewrite Z.add_0_r].
  destruct (now - t >? older_than); simpl; [|now rewrite !Z.add_0_r].
  rewrite bind_run. unfold os_remove, path_remove. cbn [w_fs]. rewrite Hp.
  destruct (n_removable n); simpl; now rewrite Z.add_0_r.
Qed.

Lemma entry_tests_agree (fs fs' : filesystem) (now : Z) (p : string) :
  fs' !! p = fs !! p →
  entry_removed fs' now p = entry_removed fs now p ∧
  entry_failed fs' now p = entry_failed fs now p.
Proof. unfold entry_removed, entry_failed. now intros ->. Qed.

(** The loop over a list of distinct paths: the counters grow by the
    numbers of entries removed and failed, and exactly the removed
    entries leave the file system. *)
Lemma for_each_cleanup (now : Z) (l : list string) :
  ∀ (count errors : Z) (w : world),
    NoDup l →
    let out := for_each (cleanup_step now) (count, errors) l w in
    out.1 = Ok (count + count_if (entry_removed (w_fs w) now) l,
                errors + count_if (entry_failed (w_fs w) now) l) ∧
    (∀ p, w_fs out.2 !! p =
          if bool_decide (p ∈ l) && entry_removed (w_fs w) now p
          then None else w_fs w !! p) ∧
    w_db out.2 = w_db w ∧ w_clock out.2 = w_clock w ∧ w_calls out.2 = w_calls w.
Proof.
  induction l as [|p l IH]; intros count errors w Hnd out; subst out.
  - simpl. unfold count_if. simpl. rewrite !Z.add_0_r. repeat split.
  - apply NoDup_cons in Hnd as [Hp Hnd].
    cbn [for_each]. rewrite bind_run, cleanup_step_run.
    set (fs1 := if entry_removed (w_fs w) now p then delete p (w_fs w) else w_fs w).
    assert (Hother : ∀ q, q ≠ p → fs1 !! q = w_fs w !! q).
    { intros q Hq. subst fs1. destruct (entry_removed (w_fs w) now p); [|reflexivity].
      now apply lookup_delete_ne. }
    specialize (IH (count + (if entry_removed (w_fs w) now p then 1 else 0))
                   (errors + (if entry_failed (w_fs w) now p then 1 else 0))
                   (set_fs fs1 w) Hnd).
    cbn zeta in IH. destruct IH as (Hres & Hfs & Hdb & Hclock & Hcalls).
    cbn [w_fs set_fs] in Hres, Hfs.
    rewrite (count_if_ext (entry_removed fs1 now) (entry_removed (w_fs w) now)) in Hres
      by (intros q Hq; apply entry_tests_agree, Hother; intros ->; contradiction).
    rewrite (count_if_ext (entry_failed fs1 now) (entry_failed (w_fs w) now)) in Hres
      by (intros q Hq; apply entry_tests_agree, Hother; intros ->; contradiction).
    split; [|split; [|now repeat split]].
    + rewrite Hres, !count_if_cons. f_equal. f_equal; lia.
    + intros q. rewrite Hfs. destruct (decide (q = p)) as [->|Hq].
      * rewrite (bool_decide_eq_false_2 (p ∈ l)) by exact Hp.
        rewrite (bool_decide_eq_true_2 (p ∈ p :: l)) by apply list_elem_of_here.
        simpl. subst fs1. destruct (entry_removed (w_fs w) now p); [|reflexivity].
        apply lookup_delete_eq.
      * destruct (entry_tests_agree (w_fs w) fs1 now q (Hother q Hq)) as [-> _].
        rewrite (Hother q Hq).
        replace (bool_decide (q ∈ p :: l)) with (bool_decide (q ∈ l)); [reflexivity|].
        apply bool_decide_ext. rewrite elem_of_cons. tauto.
Qed.

(** The statement C9 makes about the second counter fails: of the
    three tracked files of the example one removal fails, and the sweep
    reports two errors, the other being the file whose modification time
    could not be read, which the sweep never tried to remove. *)
Lemma errors_exceed_removal_failures :
  (cleanup_old_files stubborn_world).1 = Ok (CleanupCounts 1 2) ∧
  count_if (removal_failed (w_fs stubborn_world) (w_clock stubborn_world))
           (glob_documents (w_fs stubborn_world)) = 1 ∧
  path_getmtime (w_fs stubborn_world) (data_path "c") = Raise (FileNotFoundError (data_path "c")) ∧
  removal_failed (w_fs stubborn_world) (w_clock stubborn_world) (data_path "c") = false.
Proof. repeat split; by_evaluation. Qed.

(** C9 (amended).  Whatever the directory holds, the sweep returns its two
    counters and never the error report, and it removes exactly the
    tracked files that are older than 86400 seconds and can be removed:
    younger files, files whose age cannot be read and files outside the
    pattern all stay.  The first counter is the number of files removed;
    the second is the number of tracked files whose modification time
    could not be read or whose removal failed, and such a failure does
    not keep the sweep from handling the other files. *)
Theorem cleanup_old_files_sweep (w : world) :
  let now := w_clock w in
  let tracked := glob_documents (w_fs w) in
  let out := cleanup_old_files w in
  out.1 = Ok (CleanupCounts (count_if (entry_removed (w_fs w) now) tracked)
                            (count_if (entry_failed (w_fs w) now) tracked)) ∧
  (NoDup tracked ∧
   ∀ p, p ∈ tracked ↔ is_Some (w_fs w !! p) ∧ is_document_path p = true) ∧
  (∀ p, w_fs out.2 !! p =
        if is_document_path p && entry_removed (w_fs w) now p
        then None else w_fs w !! p) ∧
  (∀ p n t, w_fs w !! p = Some n → n_stat n = Some t → now - t ≤ 86400 →
            w_fs out.2 !! p = Some n) ∧
  (∀ p n t, w_fs w !! p = Some n → is_document_path p = true →
            n_stat n = Some t → 86400 < now - t → n_removable n = true →
            w_fs out.2 !! p = None) ∧
  w_db out.2 = w_db w.
Proof.
  intros now tracked out.
  destruct (glob_documents_spec (w_fs w)) as [Hnd Hin]. fold tracked in Hnd, Hin.
  destruct (for_each_cleanup now tracked 0 0 w Hnd) as (Hres & Hfs & Hdb & _).
  cbn zeta in Hres, Hfs, Hdb. rewrite !Z.add_0_l in Hres.
  assert (Hout : out = (Ok (CleanupCounts (count_if (entry_removed (w_fs w) now) tracked)
                                          (count_if (entry_failed (w_fs w) now) tracked)),
                        (for_each (cleanup_step now) (0, 0) tracked w).2)).
  { subst out. unfold cleanup_old_files. rewrite bind_run. cbn [gets].
    unfold try_except. rewrite bind_run. cbn [gets]. rewrite bind_run.
    fold now tracked.
    destruct (for_each (cleanup_step now) (0, 0) tracked w) as [r w'].
    simpl in Hres. subst r. reflexivity. }
  assert (Hfs' : ∀ p, w_fs out.2 !! p =
                      if is_document_path p && entry_removed (w_fs w) now p
                      then None else w_fs w !! p).
  { intros p. rewrite Hout. cbn [snd]. rewrite Hfs.
    destruct (is_document_path p) eqn:Hdoc; simpl.
    - destruct (w_fs w !! p) as [n|] eqn:Hp.
      + rewrite bool_decide_eq_true_2; [reflexivity|]. apply Hin. eauto.
      + unfold entry_removed. rewrite Hp. now rewrite andb_false_r.
    - rewrite bool_decide_eq_false_2; [reflexivity|].
      intros H. apply Hin in H as [_ H]. congruence. }
  split; [now rewrite Hout|]. split; [now split|]. split; [exact Hfs'|].
  split; [|split].
  - intros p n t Hp Hst Hage. rewrite Hfs'.
    unfold entry_removed, expired. rewrite Hp, Hst.
    destruct (Z.gtb_spec (now - t) older_than) as [H|H];
      [unfold older_than in H; lia|].
    simpl. now rewrite andb_false_r.
  - intros p n t Hp Hdoc Hst Hage Hrm. rewrite Hfs', Hdoc.
    unfold entry_removed, expired. rewrite Hp, Hst, Hrm.
    destruct (Z.gtb_spec (now - t) older_than) as [H|H];
      [reflexivity | unfold older_than in H; lia].
  - now rewrite Hout.
Qed.

(** The scenario of the specification: of a file aged 25 hours and a
    file aged 1 hour, the sweep removes the first only and reports one
    removal and no error. *)
Example reaper_scenario :
  (cleanup_old_files reaper_world).1 = Ok (CleanupCounts 1 0) ∧
  w_fs (cleanup_old_files reaper_world).2 !! data_path "old" = None ∧
  w_fs (cleanup_old_files reaper_world).2 !! data_path "new" = Some (sample_node 96400) ∧
  w_fs (cleanup_old_files reaper_world).2 !! "data/notes.txt" = Some (sample_node 0).
Proof. repeat split; by_evaluation. Qed.

(** Failures are counted and the sweep goes on: of three tracked files
    the expired and removable one is removed, the other two are counted
    as errors and stay. *)
Example reaper_partial_failure :
  (cleanup_old_files stubborn_world).1 = Ok (CleanupCounts 1 2) ∧
  w_fs (cleanup_old_files stubborn_world).2 !! data_path "a" = None ∧
  is_Some (w_fs (cleanup_old_files stubborn_world).2 !! data_path "b") ∧
  is_Some (w_fs (cleanup_old_files stubborn_world).2 !! data_path "c").
Proof. repeat split; by_evaluation. Qed.

(** ** The submission endpoint *)

(** The statement C1 makes fails: an upload that the endpoint accepts
    and whose PDF yields no text makes the call itself raise an HTTP
    error, and after an accepted upload whose analysis succeeds the row
    stored is completed, not queued. *)
Lemma accepted_upload_raises :
  upload_accepted sample_upload = true ∧
  (analyze_financial_document_endpoint (sample_caps [] all_succeed) true "f2"
     (Some sample_upload) "summarize risk" fresh_world).1
    = Raise (HTTPException 400 "Validation error: Could not extract text from PDF") ∧
  status_of
    (w_db (analyze_financial_document_endpoint (sample_caps ["revenue grew"] all_succeed)
             true "f2" (Some sample_upload) "summarize risk" fresh_world).2) 1
    = Some "completed".
Proof. repeat split; by_evaluation. Qed.

Lemma write_file_run (p : string) (data : list byte) (w : world) :
  write_file p data w = (Ok (), set_fs (path_write (w_clock w) (w_fs w) p data) w).
Proof. reflexivity. Qed.

Lemma endpoint_try_accepted (caps : capabilities) (db_up : bool) (file_id : string)
    (file : UploadFile) (query : string) :
  upload_accepted file = true →
  endpoint_try caps db_up file_id (Some file) query =
  (write_file (data_path file_id) (content file);;
   res ← run_financial_analysis_crew caps (normalize_query query) (data_path file_id);
   write_file (output_path_of file_id)
     (json_dump caps file_id (filename file) (normalize_query query) res);;
   endpoint_save db_up file_id (filename file) (normalize_query query) res
     (output_path_of file_id);;
   mret {| resp_status := "success"; resp_file_id := file_id;
           resp_filename := filename file; resp_query := normalize_query query;
           resp_analysis_results := res;
           resp_output_file := output_path_of file_id |}).
Proof.
  unfold upload_accepted, endpoint_try. intros H.
  apply andb_true_iff in H as [H H3]. apply andb_true_iff in H as [H1 H2].
  apply negb_true_iff in H2. now rewrite H1, H2, H3.
Qed.

Lemma endpoint_save_spec (db_up : bool) (file_id fname query : string) (res : results)
    (output_path : string) (w : world) :
  let out := endpoint_save db_up file_id fname query res output_path w in
  out.1 = Ok () ∧ w_fs out.2 = w_fs w ∧
  (db_up = true →
     ∃ row, get_analysis (w_db out.2) (next_analysis_id (w_db w)) = Some row ∧
            a_file_id row = file_id ∧ a_status row = "completed" ∧
            a_completed_at row = Some (w_clock w)) ∧
  (db_up = false → w_db out.2 = w_db w).
Proof.
  unfold endpoint_save, try_except. destruct db_up; simpl.
  - repeat split; try discriminate. intros _.
    unfold get_analysis. simpl. rewrite lookup_insert_eq.
    eexists. split; [reflexivity|]. repeat split.
  - repeat split; discriminate.
Qed.

(** C1 (amended).  The endpoint answers only when the analysis is over.
    For every upload it accepts, it runs the four stages before it
    returns: when they succeed it returns the file id with the results,
    and the row it stores (if the database write succeeds) is completed
    from the start; when the analysis raises, the call itself raises an
    HTTP error, 404 for a missing file, 400 for a [ValueError] and 500
    otherwise, and stores no row.  A row reports queued only when it is
    made by [create_analysis], which the endpoint does not call. *)
Theorem endpoint_answers_after_analysis (caps : capabilities) (db_up : bool)
    (file_id : string) (file : UploadFile) (query : string) (w : world)
    (now : Z) (db : database) (fname : string) (uid : option Z) :
  upload_accepted file = true →
  let w1 := set_fs (path_write (w_clock w) (w_fs w) (data_path file_id) (content file)) w in
  let run := run_financial_analysis_crew caps (normalize_query query)
               (data_path file_id) w1 in
  let out := analyze_financial_document_endpoint caps db_up file_id (Some file) query w in
  match run.1 with
  | Ok res =>
      out.1 = Ok {| resp_status := "success"; resp_file_id := file_id;
                    resp_filename := filename file;
                    resp_query := normalize_query query;
                    resp_analysis_results := res;
                    resp_output_file := output_path_of file_id |} ∧
      (db_up = true →
         ∃ row, get_analysis (w_db out.2) (next_analysis_id (w_db w)) = Some row ∧
                a_file_id row = file_id ∧ a_status row = "completed" ∧
                a_completed_at row = Some (w_clock run.2))
  | Raise e => out.1 = Raise (http_error e) ∧ w_db out.2 = w_db w
  end ∧
  status_of (create_analysis now db file_id fname query uid).1 (next_analysis_id db)
    = Some "queued".
Proof.
  intros Hacc w1 run out. split.
  2: { unfold status_of, get_analysis, create_analysis. simpl.
       now rewrite lookup_insert_eq. }
  subst out. unfold analyze_financial_document_endpoint, try_finally, try_except.
  rewrite (endpoint_try_accepted _ _ _ _ _ Hacc).
  rewrite bind_run, write_file_run. fold w1. rewrite bind_run. fold run.
  destruct (run_crew_frame caps (normalize_query query) (data_path file_id) w1)
    as [Hfs Hdb]. fold run in Hfs, Hdb.
  destruct run as [[res|e] w2]; cbn [fst snd] in *.
  - rewrite bind_run, write_file_run, bind_run.
    set (w3 := set_fs _ w2).
    destruct (endpoint_save_spec db_up file_id (filename file) (normalize_query query)
                res (output_path_of file_id) w3) as (Hok & _ & Hup & _).
    cbn zeta in Hok, Hup.
    destruct (endpoint_save _ _ _ _ _ _ w3) as [r4 w4]. simpl in Hok, Hup. subst r4.
    cbn [mret M_ret].
    destruct (remove_if_exists_spec (data_path file_id) w4) as (Hok5 & Hdb5 & _).
    destruct (remove_if_exists (data_path file_id) w4) as [r5 w5].
    simpl in Hok5, Hdb5. subst r5. cbn [fst snd]. split; [reflexivity|].
    intros Hdbup. rewrite Hdb5.
    destruct (Hup Hdbup) as (row & Hrow & Hfid & Hst & Hat).
    exists row. subst w3. cbn [w_db set_fs w_clock] in Hrow, Hat.
    rewrite Hdb in Hrow. subst w1. cbn [w_db set_fs] in Hrow. eauto.
  - assert (Hex : ∃ h, endpoint_except e = Some h ∧ h w2 = (Raise (http_error e), w2)).
    { destruct e; eexists; (split; [reflexivity|reflexivity]). }
    destruct Hex as (h & -> & ->).
    destruct (remove_if_exists_spec (data_path file_id) w2) as (Hok5 & Hdb5 & _).
    destruct (remove_if_exists (data_path file_id) w2) as [r5 w5].
    simpl in Hok5, Hdb5. subst r5. cbn [fst snd]. split; [reflexivity|].
    rewrite Hdb5, Hdb. reflexivity.
Qed.

Lemma endpoint_answers_after_analysis_witness :
  let w1 := set_fs (path_write (w_clock fresh_world) (w_fs fresh_world) (data_path "f2")
                      (content sample_upload)) fresh_world in
  let run := run_financial_analysis_crew (sample_caps [] all_succeed)
               (normalize_query "summarize risk") (data_path "f2") w1 in
  let out := analyze_financial_document_endpoint (sample_caps [] all_succeed) true "f2"
               (Some sample_upload) "summarize risk" fresh_world in
  match run.1 with
  | Ok res =>
      out.1 = Ok {| resp_status := "success"; resp_file_id := "f2";
                    resp_filename := filename sample_upload;
                    resp_query := normalize_query "summarize risk";
                    resp_analysis_results := res;
                    resp_output_file := output_path_of "f2" |} ∧
      (true = true →
         ∃ row, get_analysis (w_db out.2) (next_analysis_id (w_db fresh_world)) = Some row ∧
                a_file_id row = "f2" ∧ a_status row = "completed" ∧
                a_completed_at row = Some (w_clock run.2))
  | Raise e => out.1 = Raise (http_error e) ∧ w_db out.2 = w_db fresh_world
  end ∧
  status_of (create_analysis 50 empty_db "f2" "report.pdf" "summarize risk" None).1
            (next_analysis_id empty_db)
    = Some "queued".
Proof.
  apply (endpoint_answers_after_analysis (sample_caps [] all_succeed) true "f2"
           sample_upload "summarize risk" fresh_world 50 empty_db "report.pdf" None).
  by_evaluation.
Defined.

(** ** The writes of the task *)

Section keeps_db.
Context (R : relation database) `{!PreOrder R}.

Lemma keeps_db_untouched {A : Type} (m : M A) :
  (∀ w, w_db (m w).2 = w_db w) → keeps_db R m.
Proof. intros H w. now rewrite H. Qed.

Lemma keeps_db_bind {A B : Type} (m : M A) (f : A → M B) :
  keeps_db R m → (∀ a, keeps_db R (f a)) → keeps_db R (m ≫= f).
Proof.
  intros Hm Hf w. rewrite bind_run. specialize (Hm w).
  destruct (m w) as [[a|e] w1]; simpl in *; [|exact Hm].
  etransitivity; [exact Hm | apply Hf].
Qed.

Lemma keeps_db_try_except {A : Type} (body : M A) (handler : exn → option (M A)) :
  keeps_db R body → (∀ e h, handler e = Some h → keeps_db R h) →
  keeps_db R (try_except body handler).
Proof.
  intros Hb Hh w. unfold try_except. specialize (Hb w).
  destruct (body w) as [[a|e] w1]; simpl in *; [exact Hb|].
  destruct (handler e) as [h|] eqn:He; simpl; [|exact Hb].
  etransitivity; [exact Hb | now apply (Hh e h)].
Qed.

Lemma keeps_db_try_finally {A : Type} (body : M A) (fin : M unit) :
  keeps_db R body → keeps_db R fin → keeps_db R (try_finally body fin).
Proof.
  intros Hb Hf w. unfold try_finally. specialize (Hb w).
  destruct (body w) as [r w1]. specialize (Hf w1).
  destruct (fin w1) as [[[]|e] w2]; simpl in *; etransitivity; eauto.
Qed.

Lemma keeps_db_if_analysis_id (aid : option Z) (block : Z → M unit) :
  (∀ id, aid = Some id → id ≠ 0 → keeps_db R (block id)) →
  keeps_db R (if_analysis_id aid block).
Proof.
  intros H w. unfold if_analysis_id. destruct aid as [id|]; [|reflexivity].
  destruct (Z.eqb_spec id 0); simpl; [reflexivity | now apply (H id)].
Qed.

Lemma keeps_db_crew (caps : capabilities) (query file_path : string) :
  keeps_db R (run_financial_analysis_crew caps query file_path).
Proof. apply keeps_db_untouched. intros w. apply run_crew_frame. Qed.

Lemma keeps_db_remove_if_exists (p : string) : keeps_db R (remove_if_exists p).
Proof. apply keeps_db_untouched. intros w. apply remove_if_exists_spec. Qed.

(** The task keeps every relation that the three writes it makes for
    its job keep. *)
Lemma task_keeps_db (caps : capabilities) (self : request)
    (file_path query file_id fname : string) (aid uid : option Z) :
  (∀ id, aid = Some id → id ≠ 0 → ∀ db' db, db_step id db db' → R db db') →
  keeps_db R (analyze_financial_document_task caps self file_path query file_id fname
                aid uid).
Proof.
  intros Hstep.
  assert (Hstatus : ∀ id st tid em, aid = Some id → id ≠ 0 →
            keeps_db R (set_status id st tid em)).
  { intros id st tid em Hid Hnz w. rewrite set_status_run. simpl.
    apply (Hstep id Hid Hnz). constructor. }
  assert (Haudit : ∀ id st u d, aid = Some id → id ≠ 0 → keeps_db R (audit st u id d)).
  { intros id st u d Hid Hnz w. rewrite audit_run. simpl.
    apply (Hstep id Hid Hnz). constructor. }
  assert (Hmark : ∀ id pt res, aid = Some id → id ≠ 0 →
            keeps_db R (mark_completed self file_id uid pt res id)).
  { intros id pt res Hid Hnz w. rewrite mark_completed_run. cbn [snd w_db set_db].
    etransitivity; [|apply (Hstep id Hid Hnz); constructor].
    etransitivity; [|apply (Hstep id Hid Hnz); constructor].
    apply (Hstep id Hid Hnz). constructor. }
  assert (Hfail : ∀ msg d, keeps_db R
            (if_analysis_id aid
               (λ id, set_status id "failed" None (Some msg);;
                      audit "failure" uid id d))).
  { intros msg d. apply keeps_db_if_analysis_id. intros id Hid Hnz.
    apply keeps_db_bind; [now apply Hstatus | intros _; now apply Haudit]. }
  unfold analyze_financial_document_task.
  apply keeps_db_bind; [apply keeps_db_untouched; reflexivity|]. intros t0.
  apply keeps_db_try_finally; [|apply keeps_db_untouched; reflexivity].
  apply keeps_db_try_except.
  - unfold analysis_task_try.
    apply keeps_db_bind.
    { apply keeps_db_if_analysis_id. intros id Hid Hnz. now apply Hstatus. }
    intros _. apply keeps_db_bind; [apply keeps_db_untouched; reflexivity|].
    intros valid. destruct valid; simpl; [|apply keeps_db_untouched; reflexivity].
    apply keeps_db_bind; [apply keeps_db_crew|]. intros res.
    apply keeps_db_bind; [apply keeps_db_untouched; reflexivity|]. intros t1.
    apply keeps_db_bind.
    { apply keeps_db_if_analysis_id. intros id Hid Hnz. now apply Hmark. }
    intros _. apply keeps_db_bind; [apply keeps_db_remove_if_exists|].
    intros _. apply keeps_db_untouched. reflexivity.
  - intros e h He.
    destruct e; cbn [analysis_task_except] in He; injection He as <-;
      (apply keeps_db_bind; [apply Hfail | intros _; apply keeps_db_untouched; reflexivity]).
Qed.

(** The worker's loop keeps what its attempts keep. *)
Lemma run_job_keeps_db (caps : Z → capabilities) (task_id : string)
    (file_path query file_id fname : string) (aid uid : option Z) (fuel : nat) :
  (∀ id, aid = Some id → id ≠ 0 → ∀ db' db, db_step id db db' → R db db') →
  ∀ retries delays w r delays' w',
    run_job fuel caps task_id retries file_path query file_id fname aid uid delays w
      = Some (r, delays', w') →
    R (w_db w) (w_db w').
Proof.
  intros Hstep. induction fuel as [|fuel IH]; intros retries delays w r delays' w' Hrun;
    [discriminate|].
  cbn [run_job] in Hrun.
  pose proof (task_keeps_db (caps retries) {| req_id := task_id; req_retries := retries |}
                file_path query file_id fname aid uid Hstep w) as Hone.
  destruct (analyze_financial_document_task _ _ _ _ _ _ _ _ w) as [[ret|e] w1];
    simpl in Hone.
  - now injection Hrun as <- <- <-.
  - destruct e; try (now injection Hrun as <- <- <-).
    etransitivity; [exact Hone|]. apply IH in Hrun. exact Hrun.
Qed.

End keeps_db.

#[local] Instance only_row_changed_po (job : Z) : PreOrder (only_row_changed job).
Proof.
  split.
  - intros db. repeat split; eauto. intros a Ha. exists a. now repeat split.
  - intros db1 db2 db3 (H1 & H2 & H3) (H1' & H2' & H3'). split; [|split].
    + intros id Hid. now rewrite H1', H1.
    + intros a Ha. destruct (H2 a Ha) as (a2 & Ha2 & S2).
      destruct (H2' a2 Ha2) as (a3 & Ha3 & S3). exists a3. split; [exact Ha3|].
      unfold same_job in *. intuition congruence.
    + intros Hn. auto.
Qed.

#[local] Instance rows_appended_po (job : Z) : PreOrder (rows_appended job).
Proof.
  split.
  - intros db. split; exists []; now rewrite app_nil_r.
  - intros db1 db2 db3 [(n1 & E1 & F1) (m1 & G1 & K1)] [(n2 & E2 & F2) (m2 & G2 & K2)].
    split.
    + exists (n1 ++ n2). rewrite E2, E1, app_assoc. split; [reflexivity|].
      now apply Forall_app.
    + exists (m1 ++ m2). rewrite G2, G1, app_assoc. split; [reflexivity|].
      now apply Forall_app.
Qed.

Lemma audit_logs_update (now : Z) (db : database) (id : Z) (status : string)
    (tid em : option string) :
  audit_logs (update_analysis_status now db id status tid em).1 = audit_logs db.
Proof. unfold update_analysis_status. now destruct (analyses db !! id). Qed.

Lemma only_row_changed_same_rows (job : Z) (db db' : database) :
  (∀ id, get_analysis db' id = get_analysis db id) → only_row_changed job db db'.
Proof.
  intros H. split; [|split].
  - intros id _. apply H.
  - intros a Ha. exists a. rewrite H. split; [exact Ha | now repeat split].
  - intros Hn. now rewrite H.
Qed.

Lemma db_step_only_row (job : Z) (db db' : database) :
  db_step job db db' → only_row_changed job db db'.
Proof.
  destruct 1; try (apply only_row_changed_same_rows; reflexivity).
  destruct (get_analysis db job) as [a|] eqn:Ha.
  - split; [|split].
    + intros id Hid. rewrite (get_analysis_update _ _ _ _ _ _ _ a Ha).
      rewrite decide_False; congruence.
    + intros a0 Ha0. rewrite Ha in Ha0. injection Ha0 as <-.
      rewrite (get_analysis_update _ _ _ _ _ _ _ a Ha).
      rewrite decide_True by reflexivity. eexists. split; [reflexivity|].
      now repeat split.
    + congruence.
  - rewrite get_analysis_update_missing by exact Ha. reflexivity.
Qed.

Lemma db_step_rows_appended (job : Z) (db db' : database) :
  db_step job db db' → rows_appended job db db'.
Proof.
  destruct 1.
  - split; exists []; rewrite app_nil_r;
      (split; [|constructor]); [apply analysis_results_update | apply audit_logs_update].
  - split; [|exists []; now rewrite app_nil_r].
    eexists [_]. split; [reflexivity|]. now repeat constructor.
  - split; [exists []; now rewrite app_nil_r|].
    eexists [_]. split; [reflexivity|]. now repeat constructor.
Qed.

Lemma db_step_completed_rows_dated (job : Z) (db db' : database) :
  db_step job db db' → completed_rows_dated db → completed_rows_dated db'.
Proof.
  destruct 1; try (intros H; exact H).
  intros Hinv id a Ha Hst.
  destruct (get_analysis db job) as [a0|] eqn:Ha0.
  - rewrite (get_analysis_update _ _ _ _ _ _ _ a0 Ha0) in Ha.
    destruct (decide (job = id)) as [->|Hne]; [|now apply (Hinv id a)].
    injection Ha as <-. simpl in *. subst status. simpl. eauto.
  - rewrite get_analysis_update_missing in Ha by exact Ha0. now apply (Hinv id a).
Qed.

(** X1.  An attempt of the analysis task that is given no analysis id
    (or the id 0) leaves the whole database as it was, whatever the
    attempt's outcome. *)
Theorem task_without_job_leaves_database (caps : capabilities) (self : request)
    (file_path query file_id fname : string) (uid : option Z) (w : world) :
  w_db (analyze_financial_document_task caps self file_path query file_id fname
          None uid w).2 = w_db w ∧
  w_db (analyze_financial_document_task caps self file_path query file_id fname
          (Some 0) uid w).2 = w_db w.
Proof.
  split; symmetry.
  - apply (task_keeps_db eq). intros id [=].
  - apply (task_keeps_db eq). intros id [= <-] H. contradiction.
Qed.

(** X2.  Whatever an attempt of the analysis task does for job [job],
    and whatever a whole job with its retries does, every other row of
    the job table stays exactly as it was, no row is created or deleted,
    and the job's own row keeps its id, user, file id, file name, query
    and creation time. *)
Theorem task_changes_own_row_only (caps : capabilities) (self : request)
    (file_path query file_id fname : string) (job : Z) (uid : option Z) (w : world) :
  only_row_changed job (w_db w)
    (w_db (analyze_financial_document_task caps self file_path query file_id fname
             (Some job) uid w).2) ∧
  ∀ (capsf : Z → capabilities) fuel retries delays r delays' w',
    run_job fuel capsf (req_id self) retries file_path query file_id fname
            (Some job) uid delays w = Some (r, delays', w') →
    only_row_changed job (w_db w) (w_db w').
Proof.
  assert (H : ∀ id, Some job = Some id → id ≠ 0 →
                ∀ db' db, db_step id db db' → only_row_changed job db db').
  { intros id [= <-] _ db' db. apply db_step_only_row. }
  split.
  - now apply (task_keeps_db (only_row_changed job)).
  - intros capsf fuel retries delays r delays' w'.
    now apply (run_job_keeps_db (only_row_changed job)).
Qed.

(** X3.  Result rows and audit entries are append-only for the analysis
    task: an attempt, and a whole job with its retries, never changes or
    removes a stored result row or audit entry, and every row or entry
    it adds belongs to its own job. *)
Theorem task_appends_rows_only (caps : capabilities) (self : request)
    (file_path query file_id fname : string) (job : Z) (uid : option Z) (w : world) :
  rows_appended job (w_db w)
    (w_db (analyze_financial_document_task caps self file_path query file_id fname
             (Some job) uid w).2) ∧
  ∀ (capsf : Z → capabilities) fuel retries delays r delays' w',
    run_job fuel capsf (req_id self) retries file_path query file_id fname
            (Some job) uid delays w = Some (r, delays', w') →
    rows_appended job (w_db w) (w_db w').
Proof.
  assert (H : ∀ id, Some job = Some id → id ≠ 0 →
                ∀ db' db, db_step id db db' → rows_appended job db db').
  { intros id [= <-] _ db' db. apply db_step_rows_appended. }
  split.
  - now apply (task_keeps_db (rows_appended job)).
  - intros capsf fuel retries delays r delays' w'.
    now apply (run_job_keeps_db (rows_appended job)).
Qed.

(** ** One attempt, step by step *)

(** What a positive answer of [validate_pdf_file] tells. *)
Lemma validate_true_inv (os : os_calls) (file_path : string) :
  validate_pdf_file os file_path = Ok true →
  os_path_exists os file_path = true ∧
  endswith (lower file_path) ".pdf" = true ∧
  (∃ size, os_path_getsize os file_path = Ok size ∧ size ≤ MAX_FILE_SIZE) ∧
  open_rb_read os file_path 4 = Ok PDF_HEADER.
Proof.
  unfold validate_pdf_file, validate_pdf_file_try.
  destruct (os_path_exists os file_path); simpl; [|discriminate].
  destruct (endswith (lower file_path) ".pdf"); simpl; [|discriminate].
  destruct (os_path_getsize os file_path) as [size|]; simpl; [|discriminate].
  destruct (Z.gtb_spec size MAX_FILE_SIZE); [discriminate|].
  destruct (open_rb_read os file_path 4) as [header|]; simpl; [|discriminate].
  destruct (bytes_eqb header PDF_HEADER) eqn:Hh; simpl; [|discriminate].
  apply bytes_eqb_eq in Hh. subst header. intros _. repeat split. eauto.
Qed.

Lemma if_analysis_id_some (job : Z) (block : Z → M unit) (w : world) :
  job ≠ 0 → if_analysis_id (Some job) block w = block job w.
Proof. intros H. unfold if_analysis_id. now destruct (Z.eqb_spec job 0). Qed.

Lemma remove_if_exists_run (p : string) (w : world) :
  remove_if_exists p w =
  (Ok (), set_fs (if path_exists (w_fs w) p then (path_remove (w_fs w) p).2 else w_fs w) w).
Proof.
  unfold remove_if_exists. rewrite bind_run. cbn [gets].
  destruct (path_exists (w_fs w) p); [|now destruct w].
  unfold try_except, os_remove.
  now destruct (path_remove (w_fs w) p) as [[[]|?] fs'].
Qed.

(** The [try] block of the task by the cases of its validation and of
    the four-stage run. *)
Lemma task_try_cases (caps : capabilities) (self : request) (t0 : Z)
    (file_path query file_id fname : string) (aid uid : option Z) (w : world) :
  analysis_task_try caps self t0 file_path query file_id fname aid uid w =
  let w0 := (if_analysis_id aid
               (λ id, set_status id "processing" (Some (req_id self)) None) w).2 in
  match validate_pdf_file (fs_calls (w_fs w0)) file_path with
  | Ok true =>
      match run_financial_analysis_crew caps query file_path w0 with
      | (Ok res, w1) =>
          (Ok (TaskSuccess file_id fname (req_id self) (w_clock w1 - t0) res),
           (remove_if_exists file_path
              (if_analysis_id aid
                 (mark_completed self file_id uid (w_clock w1 - t0) res) w1).2).2)
      | (Raise e, w1) => (Raise e, w1)
      end
  | Ok false => (Raise (ValueError "Invalid PDF file"), w0)
  | Raise e => (Raise e, w0)
  end.
Proof.
  unfold analysis_task_try. rewrite bind_run.
  destruct (processing_block_spec aid "processing" (Some (req_id self)) None w)
    as (Hok & _).
  destruct (if_analysis_id aid _ w) as [r1 w0]. simpl in Hok. subst r1.
  cbn zeta. cbn [snd]. rewrite bind_run. cbn beta iota.
  destruct (validate_pdf_file (fs_calls (w_fs w0)) file_path) as [[|]|e]; simpl;
    try reflexivity.
  rewrite bind_run.
  destruct (run_financial_analysis_crew caps query file_path w0) as [[res|e] w1];
    [|reflexivity].
  rewrite bind_run. cbn [gets]. rewrite bind_run.
  destruct (completed_block_spec self file_id aid uid (w_clock w1 - t0) res w1)
    as (Hok2 & _).
  cbn zeta in Hok2.
  destruct (if_analysis_id aid _ w1) as [r2 w2]. simpl in Hok2. subst r2.
  cbn [snd]. rewrite bind_run, !remove_if_exists_run. reflexivity.
Qed.

(** What one attempt for job [job] leaves behind.  On success: the
    row set to processing and then completed, one result row, one audit
    entry, and the uploaded file removed if it can be.  Otherwise: the
    row set to processing and then failed, one audit entry, and the
    file system untouched. *)
Lemma task_attempt_effects (caps : capabilities) (self : request)
    (file_path query file_id fname : string) (job : Z) (uid : option Z) (w : world) :
  job ≠ 0 →
  let out := analyze_financial_document_task caps self file_path query file_id fname
               (Some job) uid w in
  let db0 := (update_analysis_status (w_clock w) (w_db w) job "processing"
                (Some (req_id self)) None).1 in
  match out.1 with
  | Ok (TaskSuccess fid fn tid pt res) =>
      pt = w_clock out.2 - w_clock w ∧
      validate_pdf_file (fs_calls (w_fs w)) file_path = Ok true ∧
      w_db out.2 =
        (log_audit (w_clock out.2)
           (update_analysis_status (w_clock out.2)
              (create_analysis_result (w_clock out.2) db0 job
                 (res_verification res) (res_analysis res) (res_investment res)
                 (res_risk res)
                 (Some [("task_id", MStr (req_id self)); ("file_id", MStr file_id);
                        ("completion_time", MTime (w_clock out.2))])
                 (Some pt)).1
              job "completed" None None).1
           "analyze_document" "analysis" "success" uid (Some job)
           (Some ("Analysis completed in " +:+ str_int pt +:+ "s")) None).1 ∧
      w_fs out.2 = (path_remove (w_fs w) file_path).2
  | _ =>
      (∃ t msg details,
         w_db out.2 =
           (log_audit t (update_analysis_status t db0 job "failed" None (Some msg)).1
              "analyze_document" "analysis" "failure" uid (Some job)
              (Some details) None).1) ∧
      w_fs out.2 = w_fs w
  end.
Proof.
  intros Hjob out db0. subst out. rewrite task_run, task_try_cases. cbn zeta.
  rewrite (if_analysis_id_some job _ w Hjob), set_status_run.
  cbn [snd w_fs set_db]. fold db0.
  set (w0 := set_db db0 w).
  assert (Hfail : ∀ e w1, w_db w1 = db0 → w_fs w1 = w_fs w →
    ∀ h, analysis_task_except self file_id (Some job) uid e = Some h →
    match (h w1).1 with
    | Ok (TaskSuccess _ _ _ _ _) => False
    | _ => (∃ t msg details,
              w_db (h w1).2 =
                (log_audit t (update_analysis_status t db0 job "failed" None (Some msg)).1
                   "analyze_document" "analysis" "failure" uid (Some job)
                   (Some details) None).1) ∧
           w_fs (h w1).2 = w_fs w
    end).
  { intros e w1 Hdb Hfs h He.
    assert (Hnz : (job =? 0) = false) by now apply Z.eqb_neq.
    destruct e; cbn [analysis_task_except] in He; injection He as <-;
      rewrite bind_run, Hnz; cbn [negb];
      rewrite bind_run, set_status_run, audit_run;
      cbn [fst snd w_db w_fs set_db raise mret M_ret];
      rewrite Hdb; (split; [eauto | exact Hfs]). }
  destruct (validate_pdf_file (fs_calls (w_fs w)) file_path) as [[|]|e] eqn:Hval.
  - destruct (run_crew_frame caps query file_path w0) as [Hfs1 Hdb1].
    destruct (run_financial_analysis_crew caps query file_path w0) as [[res|e] w1];
      simpl in Hfs1, Hdb1.
    + cbn [fst snd]. rewrite (if_analysis_id_some job _ w1 Hjob), mark_completed_run.
      cbn [snd]. rewrite remove_if_exists_run. cbn [snd w_clock w_db w_fs set_fs set_db].
      rewrite Hdb1, Hfs1. subst w0. cbn [w_db w_fs set_db].
      split; [reflexivity|]. split; [reflexivity|]. split; [reflexivity|].
      assert (Hex : path_exists (w_fs w) file_path = true).
      { now destruct (validate_true_inv (fs_calls (w_fs w)) file_path Hval). }
      now rewrite Hex.
    + destruct (analysis_task_except self file_id (Some job) uid e) as [h|] eqn:He;
        [|destruct e; discriminate].
      specialize (Hfail e w1 Hdb1 Hfs1 h He).
      destruct ((h w1).1) as [[]|]; (contradiction || exact Hfail).
  - destruct (analysis_task_except self file_id (Some job) uid
                (ValueError "Invalid PDF file")) as [h|] eqn:He; [|discriminate].
    specialize (Hfail _ w0 eq_refl eq_refl h He).
    destruct ((h w0).1) as [[]|]; (contradiction || exact Hfail).
  - destruct (analysis_task_except self file_id (Some job) uid e) as [h|] eqn:He;
      [|destruct e; discriminate].
    specialize (Hfail e w0 eq_refl eq_refl h He).
    destruct ((h w0).1) as [[]|]; (contradiction || exact Hfail).
Qed.

(** X4.  Every attempt of the analysis task for a job whose row exists,
    made without a user id, writes exactly one audit entry, about that
    job, with status success when the attempt returns its success
    dictionary and failure in every other case, retried or final. *)
Theorem task_writes_one_audit_entry (caps : capabilities) (self : request)
    (file_path query file_id fname : string) (job : Z) (w : world) (a : Analysis) :
  job ≠ 0 →
  get_analysis (w_db w) job = Some a →
  let out := analyze_financial_document_task caps self file_path query file_id fname
               (Some job) None w in
  ∃ entry,
    audit_logs (w_db out.2) = audit_logs (w_db w) ++ [entry] ∧
    l_action entry = "analyze_document" ∧ l_resource_type entry = "analysis" ∧
    l_resource_id entry = Some job ∧ l_user_id entry = None ∧
    l_status entry = (if is_success out.1 then "success" else "failure").
Proof.
  intros Hjob _ out.
  pose proof (task_attempt_effects caps self file_path query file_id fname job None w Hjob)
    as H. cbn zeta in H. fold out in H.
  destruct (out.1) as [[fid fn tid pt res|ty m fid]|e].
  - destruct H as (_ & _ & -> & _). cbn [log_audit fst audit_logs].
    rewrite audit_logs_update. cbn [create_analysis_result fst audit_logs].
    rewrite audit_logs_update. eexists. split; [reflexivity|]. now repeat split.
  - destruct H as [(t & msg & d & ->) _]. cbn [log_audit fst audit_logs].
    rewrite !audit_logs_update. eexists. split; [reflexivity|]. now repeat split.
  - destruct H as [(t & msg & d & ->) _]. cbn [log_audit fst audit_logs].
    rewrite !audit_logs_update. eexists. split; [reflexivity|]. now repeat split.
Qed.

Lemma task_writes_one_audit_entry_witness :
  let out := analyze_financial_document_task (sample_caps ["revenue grew"] all_break)
               first_attempt sample_path "summarize risk" "f1" "report.pdf"
               (Some 1) None sample_world in
  ∃ entry,
    audit_logs (w_db out.2) = audit_logs (w_db sample_world) ++ [entry] ∧
    l_action entry = "analyze_document" ∧ l_resource_type entry = "analysis" ∧
    l_resource_id entry = Some 1 ∧ l_user_id entry = None ∧
    l_status entry = (if is_success out.1 then "success" else "failure").
Proof.
  apply (task_writes_one_audit_entry (sample_caps ["revenue grew"] all_break)
           first_attempt sample_path "summarize risk" "f1" "report.pdf" 1
           sample_world sample_row).
  - lia.
  - by_evaluation.
Defined.

(** X5.  For a job whose row exists and an attempt made without a user
    id: an attempt that returns the success dictionary has stored
    exactly one result row for its job, holding the four stage outputs
    and the processing time it returns; an attempt that ends in any
    other way stores no result row, so the outputs of the stages that
    did run are lost. *)
Theorem task_result_row (caps : capabilities) (self : request)
    (file_path query file_id fname : string) (job : Z) (w : world) (a : Analysis) :
  job ≠ 0 →
  get_analysis (w_db w) job = Some a →
  let out := analyze_financial_document_task caps self file_path query file_id fname
               (Some job) None w in
  match out.1 with
  | Ok (TaskSuccess _ _ _ pt res) =>
      ∃ row,
        analysis_results (w_db out.2) = analysis_results (w_db w) ++ [row] ∧
        r_analysis_id row = job ∧
        r_verification row = res_verification res ∧
        r_financial_analysis row = res_analysis res ∧
        r_investment_recommendations row = res_investment res ∧
        r_risk_assessment row = res_risk res ∧
        r_processing_time row = Some pt
  | _ => analysis_results (w_db out.2) = analysis_results (w_db w)
  end.
Proof.
  intros Hjob _ out.
  pose proof (task_attempt_effects caps self file_path query file_id fname job None w Hjob)
    as H. cbn zeta in H. fold out in H.
  destruct (out.1) as [[fid fn tid pt res|ty m fid]|e].
  - destruct H as (_ & _ & -> & _). cbn [log_audit fst analysis_results].
    rewrite analysis_results_update. cbn [create_analysis_result fst analysis_results].
    rewrite analysis_results_update. eexists. split; [reflexivity|]. now repeat split.
  - destruct H as [(t & msg & d & ->) _]. cbn [log_audit fst analysis_results].
    now rewrite !analysis_results_update.
  - destruct H as [(t & msg & d & ->) _]. cbn [log_audit fst analysis_results].
    now rewrite !analysis_results_update.
Qed.

Lemma task_result_row_witness :
  let out := analyze_financial_document_task (sample_caps ["revenue grew"] all_succeed)
               first_attempt sample_path "summarize risk" "f1" "report.pdf"
               (Some 1) None sample_world in
  match out.1 with
  | Ok (TaskSuccess _ _ _ pt res) =>
      ∃ row,
        analysis_results (w_db out.2) = analysis_results (w_db sample_world) ++ [row] ∧
        r_analysis_id row = 1 ∧
        r_verification row = res_verification res ∧
        r_financial_analysis row = res_analysis res ∧
        r_investment_recommendations row = res_investment res ∧
        r_risk_assessment row = res_risk res ∧
        r_processing_time row = Some pt
  | _ => analysis_results (w_db out.2) = analysis_results (w_db sample_world)
  end.
Proof.
  apply (task_result_row (sample_caps ["revenue grew"] all_succeed)
           first_attempt sample_path "summarize risk" "f1" "report.pdf" 1
           sample_world sample_row).
  - lia.
  - by_evaluation.
Defined.

(** X6.  After an attempt that returns the success dictionary, the
    job's row is completed, with the completion and update times equal
    to the clock at the end of the run and with the attempt's task id
    recorded; but the error message it held before is still there, so a
    job that succeeds on a retry stays marked with the message of its
    earlier failure. *)
Theorem task_success_row (caps : capabilities) (self : request)
    (file_path query file_id fname : string) (job : Z) (uid : option Z) (w : world)
    (a : Analysis) :
  job ≠ 0 →
  get_analysis (w_db w) job = Some a →
  let out := analyze_financial_document_task caps self file_path query file_id fname
               (Some job) uid w in
  is_success out.1 = true →
  ∃ a',
    get_analysis (w_db out.2) job = Some a' ∧
    a_status a' = "completed" ∧
    a_completed_at a' = Some (w_clock out.2) ∧
    a_updated_at a' = w_clock out.2 ∧
    a_task_id a' = (if truthy_str (req_id self) then Some (req_id self) else a_task_id a) ∧
    a_error_message a' = a_error_message a.
Proof.
  intros Hjob Ha out Hsucc.
  pose proof (task_attempt_effects caps self file_path query file_id fname job uid w Hjob)
    as H. cbn zeta in H. fold out in H.
  destruct (out.1) as [[fid fn tid pt res|ty m fid]|e]; try discriminate.
  destruct H as (_ & _ & -> & _).
  rewrite get_analysis_log_audit.
  erewrite get_analysis_update;
    [|rewrite get_analysis_create_result;
      rewrite (get_analysis_update _ _ _ _ _ _ _ a Ha), decide_True by reflexivity;
      reflexivity].
  rewrite decide_True by reflexivity.
  eexists. split; [reflexivity|]. now repeat split.
Qed.


Lemma task_success_row_witness :
  let out := analyze_financial_document_task (sample_caps ["revenue grew"] all_succeed)
               second_attempt sample_path "summarize risk" "f1" "report.pdf"
               (Some 1) None retried_world in
  ∃ a',
    get_analysis (w_db out.2) 1 = Some a' ∧
    a_status a' = "completed" ∧
    a_completed_at a' = Some (w_clock out.2) ∧
    a_updated_at a' = w_clock out.2 ∧
    a_task_id a' = (if truthy_str (req_id second_attempt)
                    then Some (req_id second_attempt)
                    else a_task_id (row_in retried_world)) ∧
    a_error_message a' = a_error_message (row_in retried_world).
Proof.
  apply (task_success_row (sample_caps ["revenue grew"] all_succeed)
           second_attempt sample_path "summarize risk" "f1" "report.pdf" 1 None
           retried_world (row_in retried_world)).
  - lia.
  - by_evaluation.
  - vm_compute. reflexivity.
Defined.

(** The sample job succeeding on its first retry: completed, and still
    carrying the message of the attempt that timed out. *)
Example retry_success_keeps_message :
  a_error_message (row_in retried_world) = Some "Task timeout" ∧
  status_of (w_db (analyze_financial_document_task
                     (sample_caps ["revenue grew"] all_succeed) second_attempt
                     sample_path "summarize risk" "f1" "report.pdf" (Some 1) None
                     retried_world).2) 1 = Some "completed" ∧
  error_of (w_db (analyze_financial_document_task
                    (sample_caps ["revenue grew"] all_succeed) second_attempt
                    sample_path "summarize risk" "f1" "report.pdf" (Some 1) None
                    retried_world).2) 1 = Some "Task timeout".
Proof. repeat split; by_evaluation. Qed.

(** The file system after one attempt, for any analysis id. *)
Lemma task_attempt_files (caps : capabilities) (self : request)
    (file_path query file_id fname : string) (aid uid : option Z) (w : world) :
  let out := analyze_financial_document_task caps self file_path query file_id fname
               aid uid w in
  if is_success out.1
  then validate_pdf_file (fs_calls (w_fs w)) file_path = Ok true ∧
       w_fs out.2 = (path_remove (w_fs w) file_path).2
  else w_fs out.2 = w_fs w.
Proof.
  intros out. subst out. rewrite task_run, task_try_cases. cbn zeta.
  destruct (processing_block_spec aid "processing" (Some (req_id self)) None w)
    as (_ & Hfs0 & _).
  set (w0 := (if_analysis_id aid _ w).2) in *.
  assert (Hfail : ∀ e w1, w_fs w1 = w_fs w →
    ∀ h, analysis_task_except self file_id aid uid e = Some h →
    is_success (h w1).1 = false ∧ w_fs (h w1).2 = w_fs w).
  { intros e w1 Hfs h He.
    assert (Hblock : ∀ msg d (tail : M task_return),
      (∀ w', is_success (tail w').1 = false ∧ w_fs (tail w').2 = w_fs w') →
      is_success ((if_analysis_id aid
                     (λ id, set_status id "failed" None (Some msg);;
                            audit "failure" uid id d);; tail) w1).1 = false ∧
      w_fs ((if_analysis_id aid
               (λ id, set_status id "failed" None (Some msg);;
                      audit "failure" uid id d);; tail) w1).2 = w_fs w).
    { intros msg d tail Htail. rewrite bind_run.
      destruct (status_block_spec aid uid "failed" "failure" d None (Some msg) w1)
        as (Hok & Hfs' & _). cbn zeta in Hok, Hfs'.
      destruct (if_analysis_id aid _ w1) as [r2 w2]. simpl in Hok, Hfs'. subst r2.
      destruct (Htail w2) as [H1 H2]. split; [exact H1 | congruence]. }
    destruct e; cbn [analysis_task_except] in He; injection He as <-;
      apply Hblock; intros w'; split; reflexivity. }
  rewrite Hfs0.
  destruct (validate_pdf_file (fs_calls (w_fs w)) file_path) as [[|]|e] eqn:Hval.
  - destruct (run_crew_frame caps query file_path w0) as [Hfs1 _].
    destruct (run_financial_analysis_crew caps query file_path w0) as [[res|e] w1];
      simpl in Hfs1.
    + cbn [fst snd is_success]. split; [reflexivity|].
      destruct (completed_block_spec self file_id aid uid (w_clock w1 - w_clock w) res w1)
        as (_ & Hfs2 & _). cbn zeta in Hfs2.
      rewrite remove_if_exists_run. cbn [snd w_fs set_fs]. rewrite Hfs2, Hfs1, Hfs0.
      destruct (validate_true_inv (fs_calls (w_fs w)) file_path Hval) as [Hex _].
      cbn [os_path_exists fs_calls] in Hex. now rewrite Hex.
    + destruct (analysis_task_except self file_id aid uid e) as [h|] eqn:He;
        [|destruct e; discriminate].
      destruct (Hfail e w1 (eq_trans Hfs1 Hfs0) h He) as [-> H2]. exact H2.
  - destruct (analysis_task_except self file_id aid uid (ValueError "Invalid PDF file"))
      as [h|] eqn:He; [|discriminate].
    destruct (Hfail _ w0 Hfs0 h He) as [-> H2]. exact H2.
  - destruct (analysis_task_except self file_id aid uid e) as [h|] eqn:He;
      [|destruct e; discriminate].
    destruct (Hfail e w0 Hfs0 h He) as [-> H2]. exact H2.
Qed.

(** X7.  An attempt that does not return the success dictionary leaves
    the file system exactly as it found it, so the uploaded file is
    still there for a retry; an attempt that succeeds found the file
    valid and removes it when it can be removed, touching nothing
    else. *)
Theorem task_keeps_file_until_success (caps : capabilities) (self : request)
    (file_path query file_id fname : string) (aid uid : option Z) (w : world) :
  let out := analyze_financial_document_task caps self file_path query file_id fname
               aid uid w in
  (is_success out.1 = false → w_fs out.2 = w_fs w) ∧
  (is_success out.1 = true →
     ∃ n, w_fs w !! file_path = Some n ∧
          w_fs out.2 = if n_removable n then delete file_path (w_fs w) else w_fs w).
Proof.
  intros out.
  pose proof (task_attempt_files caps self file_path query file_id fname aid uid w) as H.
  cbn zeta in H. fold out in H.
  destruct (is_success out.1); split; try discriminate; intros _; [|exact H].
  destruct H as [Hval ->].
  destruct (validate_true_inv _ _ Hval) as [Hex _].
  cbn [os_path_exists fs_calls] in Hex. unfold path_exists in Hex.
  unfold path_remove.
  destruct (w_fs w !! file_path) as [n|]; [|discriminate].
  exists n. split; [reflexivity|]. now destruct (n_removable n).
Qed.

(** ** An invariant of the job table *)

Lemma completed_rows_dated_forall (db : database) :
  map_Forall (λ _ a, a_status a = "completed" → is_Some (a_completed_at a))
             (analyses db) →
  completed_rows_dated db.
Proof. intros H id a Ha. exact (H id a Ha). Qed.

Lemma update_keeps_completed_rows_dated (now : Z) (db : database) (id : Z)
    (status : string) (tid em : option string) :
  completed_rows_dated db →
  completed_rows_dated (update_analysis_status now db id status tid em).1.
Proof. apply (db_step_completed_rows_dated id). constructor. Qed.

Lemma insert_keeps_completed_rows_dated (db db' : database) (key : Z) (a : Analysis) :
  analyses db' = <[key := a]> (analyses db) →
  (a_status a = "completed" → is_Some (a_completed_at a)) →
  completed_rows_dated db → completed_rows_dated db'.
Proof.
  intros Hrows Ha Hinv id a' Hget. unfold get_analysis in Hget. rewrite Hrows in Hget.
  apply lookup_insert_Some in Hget as [[_ <-]|[_ Hget]]; [exact Ha|].
  now apply (Hinv id a').
Qed.

Section endpoint_keeps_db.
Context (R : relation database) `{!PreOrder R}.

(** The endpoint keeps every relation that its save block keeps. *)
Lemma endpoint_keeps_db (caps : capabilities) (db_up : bool) (file_id : string)
    (file : option UploadFile) (query : string) :
  (∀ fname q res out, keeps_db R (endpoint_save db_up file_id fname q res out)) →
  keeps_db R (analyze_financial_document_endpoint caps db_up file_id file query).
Proof.
  intros Hsave. unfold analyze_financial_document_endpoint.
  assert (Hsame : ∀ (A : Type) (m : M A), (∀ w, w_db (m w).2 = w_db w) → keeps_db R m)
    by (intros A m; now apply keeps_db_untouched).
  apply (keeps_db_try_finally R); [|now apply keeps_db_remove_if_exists].
  apply (keeps_db_try_except R).
  - unfold endpoint_try. destruct file as [file|]; [|apply Hsame; reflexivity].
    repeat (match goal with |- keeps_db _ (if ?c then _ else _) => destruct c end;
            [apply Hsame; reflexivity|]).
    apply (keeps_db_bind R); [apply Hsame; reflexivity|].
    intros _. apply (keeps_db_bind R); [now apply keeps_db_crew|].
    intros res. apply (keeps_db_bind R); [apply Hsame; reflexivity|].
    intros _. apply (keeps_db_bind R); [apply Hsave|].
    intros _. apply Hsame. reflexivity.
  - intros e h He. destruct e; injection He as <-; (apply Hsame; reflexivity).
Qed.

End endpoint_keeps_db.

(** X8.  Every completed row carries a completion time, and everything
    that writes job rows keeps it so: [create_analysis], any call of
    [update_analysis_status], an attempt of the analysis task, and a
    call of the endpoint. *)
Theorem completed_rows_stay_dated (w : world) (now id : Z) (status : string)
    (tid em : option string) (fid fn q : string) (user : option Z)
    (caps : capabilities) (self : request) (file_path query file_id fname : string)
    (aid uid : option Z) (db_up : bool) (upload : option UploadFile) :
  completed_rows_dated (w_db w) →
  completed_rows_dated (create_analysis now (w_db w) fid fn q user).1 ∧
  completed_rows_dated (update_analysis_status now (w_db w) id status tid em).1 ∧
  completed_rows_dated
    (w_db (analyze_financial_document_task caps self file_path query file_id fname
             aid uid w).2) ∧
  completed_rows_dated
    (w_db (analyze_financial_document_endpoint caps db_up file_id upload query w).2).
Proof.
  intros Hinv.
  assert (Hpo : PreOrder (λ db db', completed_rows_dated db → completed_rows_dated db')).
  { split; [intros db H; exact H | intros a b c H1 H2 H; auto]. }
  split; [|split; [|split]].
  - eapply insert_keeps_completed_rows_dated; [reflexivity| |exact Hinv]. discriminate.
  - now apply update_keeps_completed_rows_dated.
  - revert Hinv.
    apply (task_keeps_db (λ db db', completed_rows_dated db → completed_rows_dated db')).
    intros i _ _ db' db. apply db_step_completed_rows_dated.
  - revert Hinv.
    apply (endpoint_keeps_db (λ db db', completed_rows_dated db → completed_rows_dated db')).
    intros f q' res out w0. unfold endpoint_save, try_except.
    destruct db_up; simpl; [|tauto].
    apply insert_keeps_completed_rows_dated with (key := next_analysis_id (w_db w0))
      (a := {| a_id := next_analysis_id (w_db w0); a_user_id := None;
               a_file_id := file_id; a_filename := f; a_query := q';
               a_status := "completed"; a_task_id := None; a_error_message := None;
               a_created_at := w_clock w0; a_updated_at := w_clock w0;
               a_completed_at := Some (w_clock w0) |}); [reflexivity|].
    simpl. eauto.
Qed.

Lemma completed_rows_stay_dated_witness :
  completed_rows_dated
    (create_analysis 200 (w_db completed_world) "f9" "b.pdf" "q" None).1 ∧
  completed_rows_dated
    (update_analysis_status 200 (w_db completed_world) 1 "failed" None None).1 ∧
  completed_rows_dated
    (w_db (analyze_financial_document_task (sample_caps ["revenue grew"] all_succeed)
             first_attempt sample_path "summarize risk" "f1" "report.pdf"
             (Some 1) None completed_world).2) ∧
  completed_rows_dated
    (w_db (analyze_financial_document_endpoint (sample_caps ["revenue grew"] all_succeed)
             true "f1" (Some sample_upload) "summarize risk" completed_world).2).
Proof.
  apply (completed_rows_stay_dated completed_world 200 1 "failed" None None
           "f9" "b.pdf" "q" None (sample_caps ["revenue grew"] all_succeed)
           first_attempt sample_path "summarize risk" "f1" "report.pdf" (Some 1) None
           true (Some sample_upload)).
  apply completed_rows_dated_forall. by_evaluation.
Defined.


(** ** More on the submission endpoint *)

Lemma string_app_assoc (a b c : string) : (a +:+ b) +:+ c = a +:+ (b +:+ c).
Proof.
  induction a as [|x a IH]; [reflexivity|].
  rewrite !string_app_cons. now rewrite IH.
Qed.

Lemma upload_rejection_accepted (file : UploadFile) :
  upload_rejection (Some file) = None ↔ upload_accepted file = true.
Proof.
  unfold upload_rejection, upload_accepted.
  destruct (endswith (lower (filename file)) ".pdf"); simpl; [|split; discriminate].
  destruct (Z.of_nat (length (content file)) >? MAX_FILE_SIZE); simpl;
    [split; discriminate|].
  destruct (bytes_eqb (take 4 (content file)) PDF_HEADER); simpl; split;
    (reflexivity || discriminate).
Qed.



(** X10.  The endpoint's own checks imply the check of the analysis: an
    upload the endpoint accepts, once written under its data path,
    always passes [validate_pdf_file], whatever the file id and
    whatever else the file system holds.  So the run the endpoint
    starts never fails with "Invalid or missing PDF file". *)
Theorem accepted_upload_validates (file : UploadFile) (file_id : string) (now : Z)
    (fs : filesystem) :
  upload_accepted file = true →
  validate_pdf_file (fs_calls (path_write now fs (data_path file_id) (content file)))
                    (data_path file_id) = Ok true.
Proof.
  unfold upload_accepted. intros H.
  apply andb_true_iff in H as [H H3]. apply andb_true_iff in H as [_ H2].
  apply negb_true_iff in H2.
  unfold validate_pdf_file, validate_pdf_file_try.
  cbn [os_path_exists os_path_getsize open_rb_read fs_calls].
  unfold path_exists, path_getsize, path_read, path_write.
  rewrite !lookup_insert_eq. cbn [n_stat n_data n_readable negb].
  assert (Hext : endswith (lower (data_path file_id)) ".pdf" = true).
  { apply endswith_lower_spec. exists ("data/financial_document_" +:+ file_id), ".pdf".
    split; [|reflexivity]. unfold data_path. now rewrite string_app_assoc. }
  rewrite Hext. cbn [negb mbind result_bind]. rewrite H2. cbn [mbind result_bind].
  now rewrite H3.
Qed.

Lemma accepted_upload_validates_witness :
  validate_pdf_file
    (fs_calls (path_write 100 (w_fs sample_world) (data_path "f2") (content sample_upload)))
    (data_path "f2") = Ok true.
Proof.
  apply (accepted_upload_validates sample_upload "f2" 100 (w_fs sample_world)).
  vm_compute. reflexivity.
Defined.






(** ** White space: [strip], [split] and [join] *)

Lemma all_space_app (a b : string) : all_space (a +:+ b) = all_space a && all_space b.
Proof.
  induction a as [|c a IH]; [reflexivity|].
  rewrite string_app_cons. simpl. now rewrite IH, andb_assoc.
Qed.

Lemma lstrip_empty (s : string) : lstrip s = "" ↔ all_space s = true.
Proof.
  induction s as [|c s IH]; simpl; [tauto|].
  destruct (is_space c); simpl; [exact IH | split; discriminate].
Qed.

Lemma all_space_lstrip (s : string) : all_space (lstrip s) = all_space s.
Proof.
  induction s as [|c s IH]; simpl; [reflexivity|].
  destruct (is_space c) eqn:Hc; simpl; [exact IH | now rewrite Hc].
Qed.

Lemma all_space_reverse_onto (s acc : string) :
  all_space (reverse_onto s acc) = all_space s && all_space acc.
Proof.
  revert acc. induction s as [|c s IH]; intros acc; simpl; [reflexivity|].
  rewrite IH. simpl. destruct (is_space c), (all_space s); reflexivity.
Qed.

Lemma all_space_reverse (s : string) : all_space (reverse s) = all_space s.
Proof. unfold reverse. now rewrite all_space_reverse_onto, andb_true_r. Qed.

Lemma reverse_onto_empty (s acc : string) : reverse_onto s acc = "" → s = "" ∧ acc = "".
Proof.
  revert acc. induction s as [|c s IH]; intros acc; simpl; [tauto|].
  intros H. apply IH in H as [_ H]. discriminate.
Qed.

(** A stripped string is empty exactly when the string is blank. *)
Lemma strip_empty (s : string) : strip s = "" ↔ all_space s = true.
Proof.
  unfold strip, rstrip. split.
  - intros H. apply reverse_onto_empty in H as [H _].
    apply lstrip_empty in H. now rewrite all_space_reverse, all_space_lstrip in H.
  - intros H. apply lstrip_empty in H. rewrite H. reflexivity.
Qed.

Lemma all_space_join (ws : list string) :
  all_space (join " " ws) = forallb all_space ws.
Proof.
  induction ws as [|w ws IH]; [reflexivity|].
  destruct ws as [|w' ws]; [simpl; now rewrite andb_true_r|].
  change (join " " (w :: w' :: ws)) with (w +:+ " " +:+ join " " (w' :: ws)).
  rewrite !all_space_app, IH. reflexivity.
Qed.

(** [split] yields words, none of them blank, and no word at all exactly
    when the string is blank. *)
Lemma split_ws_words (s cur : string) :
  (cur = "" ∨ all_space cur = false) →
  Forall (λ w, all_space w = false) (split_ws cur s) ∧
  (split_ws cur s = [] ↔ cur = "" ∧ all_space s = true).
Proof.
  revert cur. induction s as [|c s IH]; intros cur Hcur; simpl.
  - destruct cur as [|x cur].
    + split; [constructor | tauto].
    + split.
      * constructor; [|constructor]. rewrite all_space_reverse.
        destruct Hcur; [discriminate | assumption].
      * split; [discriminate | intros [? _]; discriminate].
  - destruct (is_space c) eqn:Hc; simpl.
    + destruct cur as [|x cur].
      * destruct (IH "" (or_introl eq_refl)) as [H1 H2]. split; [exact H1|].
        rewrite H2. tauto.
      * destruct (IH "" (or_introl eq_refl)) as [H1 _]. split.
        -- constructor; [|exact H1]. rewrite all_space_reverse.
           destruct Hcur; [discriminate | assumption].
        -- split; [discriminate | intros [? _]; discriminate].
    + destruct (IH (String c cur)) as [H1 H2].
      { right. simpl. now rewrite Hc. }
      split; [exact H1|]. rewrite H2. split; [intros [? _]; discriminate|].
      intros [_ ?]; discriminate.
Qed.

Lemma all_space_join_split (content : string) :
  all_space (join " " (split content)) = all_space content.
Proof.
  destruct (split_ws_words content "" (or_introl eq_refl)) as [Hwords Hnil].
  fold (split content) in Hwords, Hnil. rewrite all_space_join.
  destruct (split content) as [|w ws] eqn:Hs.
  - destruct Hnil as [Hnil _]. destruct (Hnil eq_refl) as [_ ->]. reflexivity.
  - apply Forall_cons in Hwords as [Hw _]. simpl. rewrite Hw. simpl.
    destruct (all_space content) eqn:Hc; [|reflexivity].
    destruct Hnil as [_ Hnil]. now discriminate Hnil.
Qed.

Lemma all_space_documents (docs : list string) (acc : string) :
  all_space (fold_left (λ full_text content,
                          full_text +:+ join " " (split content) +:+ NL) docs acc) =
  all_space acc && forallb all_space docs.
Proof.
  revert acc. induction docs as [|d docs IH]; intros acc; simpl;
    [now rewrite andb_true_r|].
  rewrite IH, !all_space_app, all_space_join_split.
  change (all_space NL) with true. now rewrite andb_true_r, andb_assoc.
Qed.

Lemma all_space_strip (s : string) : all_space (strip s) = all_space s.
Proof.
  unfold strip, rstrip. now rewrite all_space_reverse, all_space_lstrip, all_space_reverse,
    all_space_lstrip.
Qed.

(** X12.  [extract_pdf_text] yields the empty text, the case the
    analysis refuses with "Could not extract text from PDF", exactly
    when the PDF reader returns documents that are all blank (no
    document at all included); and a text it yields that is not empty
    is not blank either, so the stages are never handed white space
    alone. *)
Theorem extract_pdf_text_empty (reader : result (list byte) → result (list string))
    (fs : filesystem) (file_path : string) :
  (extract_pdf_text reader fs file_path = Ok "" ↔
   ∃ docs, reader (path_read fs file_path) = Ok docs ∧
           Forall (λ d, all_space d = true) docs) ∧
  (∀ text, extract_pdf_text reader fs file_path = Ok text →
           text ≠ "" → all_space text = false).
Proof.
  unfold extract_pdf_text.
  destruct (reader (path_read fs file_path)) as [docs|e]; cbn [mbind result_bind].
  - assert (Hblank : ∀ l : list string,
              forallb all_space l = true ↔ Forall (λ d, all_space d = true) l).
    { intros l. rewrite forallb_forall, Forall_forall.
      split; intros H d Hd; apply H; now apply list_elem_of_In. }
    split; [split|].
    + intros [= H]. exists docs. split; [reflexivity|].
      apply strip_empty in H. rewrite all_space_documents in H. now apply Hblank.
    + intros (docs' & [= <-] & Hall). f_equal. apply strip_empty.
      rewrite all_space_documents. now apply Hblank.
    + intros text [= <-] Hne. rewrite all_space_strip.
      destruct (all_space (fold_left _ docs "")) eqn:Hs; [|reflexivity].
      apply strip_empty in Hs. contradiction.
  - split; [split|].
    + discriminate.
    + intros (docs & H & _). discriminate.
    + discriminate.
Qed.

(** X13.  The query the endpoint hands to the analysis is never empty:
    an empty or blank query is replaced by the default query, and any
    other query is passed stripped. *)
Theorem normalize_query_never_empty (query : string) :
  normalize_query query ≠ "" ∧
  (all_space query = true → normalize_query query = DEFAULT_QUERY) ∧
  (all_space query = false → normalize_query query = strip query).
Proof.
  unfold normalize_query.
  destruct (all_space query) eqn:Hq.
  - assert (strip query = "") as Hs by now apply strip_empty.
    rewrite Hs. simpl. rewrite orb_true_r.
    assert (Hd : strip DEFAULT_QUERY = DEFAULT_QUERY) by (vm_compute; reflexivity).
    rewrite Hd. repeat split; discriminate.
  - assert (Hs : strip query ≠ "").
    { intros H. apply strip_empty in H. congruence. }
    assert (Ht : truthy_str query = true).
    { destruct query; [discriminate | reflexivity]. }
    rewrite Ht. simpl. destruct (String.eqb_spec (strip query) ""); [contradiction|].
    repeat split; (assumption || discriminate).
Qed.


(** ** What is never cleared *)

#[local] Instance marks_kept_po : PreOrder marks_kept.
Proof.
  split.
  - intros db id a Ha. exists a. tauto.
  - intros db1 db2 db3 H1 H2 id a Ha.
    destruct (H1 id a Ha) as (a2 & Ha2 & T2 & E2 & C2).
    destruct (H2 id a2 Ha2) as (a3 & Ha3 & T3 & E3 & C3).
    exists a3. tauto.
Qed.

Lemma db_step_marks_kept (job : Z) (db db' : database) :
  db_step job db db' → marks_kept db db'.
Proof.
  destruct 1; try (intros id a Ha; exists a; split; [exact Ha | tauto]).
  intros id a Ha.
  destruct (get_analysis db job) as [a0|] eqn:Ha0.
  - rewrite (get_analysis_update _ _ _ _ _ _ _ a0 Ha0).
    destruct (decide (job = id)) as [->|Hne]; [|exists a; tauto].
    rewrite Ha in Ha0. injection Ha0 as <-.
    assert (Hkeep : ∀ new : option string, ∀ old : option string,
              is_Some old → is_Some (if truthy_ostr new then new else old)).
    { intros [n|] old Hold; simpl; [|exact Hold].
      destruct (truthy_str n); [eauto | exact Hold]. }
    eexists. split; [reflexivity|]. simpl.
    split; [apply Hkeep|]. split; [apply Hkeep|].
    intros Hc. destruct (String.eqb status "completed"); [eauto | exact Hc].
  - rewrite get_analysis_update_missing by exact Ha0. exists a. tauto.
Qed.

(** X14.  Over an attempt of the analysis task, and over a whole job
    with its retries, no row of the job table loses its task id, its
    error message or its completion time: once one of them is set it
    stays set, also when the status moves on (a row that failed once
    keeps an error message after it completes, a row that completed
    once keeps a completion time after it is set to failed). *)
Theorem task_never_clears_marks (caps : capabilities) (self : request)
    (file_path query file_id fname : string) (aid uid : option Z) (w : world) :
  marks_kept (w_db w)
    (w_db (analyze_financial_document_task caps self file_path query file_id fname
             aid uid w).2) ∧
  ∀ (capsf : Z → capabilities) fuel retries delays r delays' w',
    run_job fuel capsf (req_id self) retries file_path query file_id fname
            aid uid delays w = Some (r, delays', w') →
    marks_kept (w_db w) (w_db w').
Proof.
  assert (H : ∀ id, aid = Some id → id ≠ 0 →
                ∀ db' db, db_step id db db' → marks_kept db db').
  { intros id _ _ db' db. apply db_step_marks_kept. }
  split.
  - now apply (task_keeps_db marks_kept).
  - intros capsf fuel retries delays r delays' w'.
    now apply (run_job_keeps_db marks_kept).
Qed.

(** ** Creating and finding job rows *)

Lemma by_file_id_spec (db : database) (file_id : string) :
  match get_analysis_by_file_id db file_id with
  | Some a => (∃ id, get_analysis db id = Some a) ∧ a_file_id a = file_id
  | None => ∀ id a, get_analysis db id = Some a → a_file_id a ≠ file_id
  end.
Proof.
  unfold get_analysis_by_file_id.
  destruct (list_find _ _) as [[i a]|] eqn:Hfind; simpl.
  - apply list_find_Some in Hfind as (Hi & Hfid & _). split; [|exact Hfid].
    apply list_elem_of_lookup_2 in Hi.
    apply list_elem_of_fmap in Hi as ([id a'] & -> & Hin).
    exists id. now apply elem_of_map_to_list in Hin.
  - apply list_find_None in Hfind. intros id a Ha.
    rewrite Forall_forall in Hfind. apply Hfind.
    apply list_elem_of_fmap. exists (id, a). split; [reflexivity|].
    now apply elem_of_map_to_list.
Qed.

(** X15.  A job row made by [create_analysis] for a file id no row has
    yet can be read back both ways, by its id and by its file id: both
    lookups return the row created, which is queued, holds the values
    given and has no task id, error message or completion time; the
    rows under other ids are as before.  A lookup by file id, in any
    table, returns a row of the table with that file id, or [None] when
    the table has none. *)
Theorem create_then_lookup (now : Z) (db : database) (file_id fname query : string)
    (uid : option Z) :
  (∀ id a, get_analysis db id = Some a → a_file_id a ≠ file_id) →
  let out := create_analysis now db file_id fname query uid in
  get_analysis out.1 (a_id out.2) = Some out.2 ∧
  get_analysis_by_file_id out.1 file_id = Some out.2 ∧
  a_status out.2 = "queued" ∧ a_file_id out.2 = file_id ∧ a_filename out.2 = fname ∧
  a_query out.2 = query ∧ a_user_id out.2 = uid ∧
  a_task_id out.2 = None ∧ a_error_message out.2 = None ∧ a_completed_at out.2 = None ∧
  (∀ id, id ≠ a_id out.2 → get_analysis out.1 id = get_analysis db id) ∧
  (∀ db0 fid, match get_analysis_by_file_id db0 fid with
              | Some a => (∃ id, get_analysis db0 id = Some a) ∧ a_file_id a = fid
              | None => ∀ id a, get_analysis db0 id = Some a → a_file_id a ≠ fid
              end).
Proof.
  intros Hfresh out.
  assert (Hget : get_analysis out.1 (a_id out.2) = Some out.2).
  { unfold get_analysis, out, create_analysis. simpl. apply lookup_insert_eq. }
  assert (Hother : ∀ id, id ≠ a_id out.2 → get_analysis out.1 id = get_analysis db id).
  { intros id Hid. unfold get_analysis, out, create_analysis in *. simpl in *.
    now rewrite lookup_insert_ne by congruence. }
  split; [exact Hget|]. split.
  - pose proof (by_file_id_spec out.1 file_id) as Hspec.
    destruct (get_analysis_by_file_id out.1 file_id) as [a|].
    + destruct Hspec as [(id & Ha) Hfid].
      destruct (decide (id = a_id out.2)) as [->|Hne]; [congruence|].
      rewrite Hother in Ha by exact Hne. now destruct (Hfresh id a Ha).
    + now destruct (Hspec _ _ Hget).
  - repeat split; try reflexivity; [exact Hother|]. intros db0 fid. apply by_file_id_spec.
Qed.

Lemma create_then_lookup_witness :
  let out := create_analysis 300 (w_db sample_world) "f7" "b.pdf" "q" None in
  get_analysis out.1 (a_id out.2) = Some out.2 ∧
  get_analysis_by_file_id out.1 "f7" = Some out.2 ∧
  a_status out.2 = "queued" ∧ a_file_id out.2 = "f7" ∧ a_filename out.2 = "b.pdf" ∧
  a_query out.2 = "q" ∧ a_user_id out.2 = None ∧
  a_task_id out.2 = None ∧ a_error_message out.2 = None ∧ a_completed_at out.2 = None ∧
  (∀ id, id ≠ a_id out.2 → get_analysis out.1 id = get_analysis (w_db sample_world) id) ∧
  (∀ db0 fid, match get_analysis_by_file_id db0 fid with
              | Some a => (∃ id, get_analysis db0 id = Some a) ∧ a_file_id a = fid
              | None => ∀ id a, get_analysis db0 id = Some a → a_file_id a ≠ fid
              end).
Proof.
  apply (create_then_lookup 300 (w_db sample_world) "f7" "b.pdf" "q" None).
  intros id a Ha.
  pose proof (by_file_id_spec (w_db sample_world) "f7") as H.
  assert (Hnone : get_analysis_by_file_id (w_db sample_world) "f7" = None)
    by (vm_compute; reflexivity).
  rewrite Hnone in H. exact (H id a Ha).
Defined.


(** ** The end of every job *)

Lemma validate_never_raises (os : os_calls) (p : string) (e : exn) :
  validate_pdf_file os p ≠ Raise e.
Proof.
  unfold validate_pdf_file. now destruct (validate_pdf_file_try os p) as [b|e'].
Qed.

(** Where the exceptions of the [try] block come from. *)
Lemma task_try_raise_not_retry (caps : capabilities) (self : request) (t0 : Z)
    (file_path query file_id fname : string) (aid uid : option Z) (w : world) (e : exn) :
  never_retry caps →
  (analysis_task_try caps self t0 file_path query file_id fname aid uid w).1 = Raise e →
  is_retry e = false.
Proof.
  intros [Hload Hkick]. rewrite task_try_cases. cbn zeta.
  set (w0 := (if_analysis_id aid _ w).2).
  destruct (validate_pdf_file (fs_calls (w_fs w0)) file_path) as [[|]|e'] eqn:Hval.
  - rewrite run_crew_cases, Hval.
    destruct (extract_pdf_text (load_data caps) (w_fs w0) file_path) as [text|e'] eqn:Hext.
    + destruct (truthy_str text); [|simpl; now intros [= <-]].
      pose proof (kickoff_all_spec caps
        {| ci_query := query; ci_document_content := truncate_document text |} w0) as H.
      cbn zeta in H. destruct H as (_ & _ & k & _ & _ & _ & Hraise).
      destruct (kickoff_all _ _ w0) as [[res|e'] w1]; simpl; [discriminate|].
      intros [= <-]. destruct (Hraise e' eq_refl) as (st & _ & _ & Hst).
      exact (Hkick _ _ _ Hst).
    + simpl. intros [= <-]. unfold extract_pdf_text in Hext.
      destruct (load_data caps (path_read (w_fs w0) file_path)) as [docs|e0] eqn:Hl;
        simpl in Hext; [discriminate|].
      injection Hext as <-. exact (Hload _ _ Hl).
  - simpl. now intros [= <-].
  - now destruct (validate_never_raises _ _ _ Hval).
Qed.

(** The retry request of an attempt: only while fewer than 3 retries
    were made, and with a countdown of 60 or of 2 to the number of
    retries. *)
Lemma task_retry_request (caps : capabilities) (self : request)
    (file_path query file_id fname : string) (aid uid : option Z) (w : world)
    (c : Z) (x : exn) :
  never_retry caps →
  (analyze_financial_document_task caps self file_path query file_id fname aid uid w).1
    = Raise (Retry c x) →
  req_retries self < 3 ∧ (c = 60 ∨ c = 2 ^ req_retries self).
Proof.
  intros Hcaps Hout.
  destruct (analysis_task_try caps self (w_clock w) file_path query file_id fname
              aid uid w) as [[ret|e] w1] eqn:Hbody.
  - rewrite task_run, Hbody in Hout. discriminate.
  - assert (Hraise : (analysis_task_try caps self (w_clock w) file_path query file_id
                        fname aid uid w).1 = Raise e) by now rewrite Hbody.
    pose proof (task_try_raise_not_retry _ _ _ _ _ _ _ _ _ _ _ Hcaps Hraise) as Hnot.
    destruct (task_raise_outcome caps self file_path query file_id fname aid uid w e
                Hraise) as (w' & Hrun & _).
    rewrite Hrun in Hout. cbn [fst] in Hout.
    assert (Hself : ∀ cd exc, is_retry exc = false → self_retry self cd exc = Retry c x →
                              req_retries self < 3 ∧ c = cd).
    { intros cd exc Hexc. unfold self_retry, max_retries.
      destruct (Z.gtb_spec (req_retries self + 1) 3).
      - intros ->. discriminate.
      - intros [= <- _]. split; [lia | reflexivity]. }
    destruct e; try discriminate; injection Hout as Hout;
      apply Hself in Hout as [Hlt ->]; try reflexivity; tauto.
Qed.

(** The worker's loop from the attempt with [3 - n] retries on: it ends
    within [n + 1] attempts, and more fuel changes nothing. *)
Lemma run_job_ends (capsf : Z → capabilities) (task_id : string)
    (file_path query file_id fname : string) (aid uid : option Z) :
  (∀ r, never_retry (capsf r)) →
  ∀ (n extra : nat) (retries : Z) (delays : list Z) (w : world),
    retries = 3 - Z.of_nat n → 0 ≤ retries →
    ∃ r new w',
      run_job (S n + extra) capsf task_id retries file_path query file_id fname aid uid
              delays w = Some (r, delays ++ new, w') ∧
      run_job (S n) capsf task_id retries file_path query file_id fname aid uid
              delays w = Some (r, delays ++ new, w') ∧
      (length new ≤ n)%nat ∧
      (∀ k d, new !! k = Some d → d = 60 ∨ d = 2 ^ (retries + Z.of_nat k)) ∧
      is_retry (match r with Raise e => e | Ok _ => SoftTimeLimitExceeded end) = false.
Proof.
  intros Hcaps n. induction n as [|n IH]; intros extra retries delays w Hr Hpos.
  - cbn [run_job Nat.add].
    pose proof (task_retry_request (capsf retries)
                  {| req_id := task_id; req_retries := retries |}
                  file_path query file_id fname aid uid w) as Hreq.
    destruct (analyze_financial_document_task _ _ _ _ _ _ _ _ w) as [[ret|e] w1].
    + exists (Ok ret), [], w1. rewrite app_nil_r.
      repeat split; try reflexivity; try (intros; discriminate).
    + destruct (is_retry e) eqn:He.
      * destruct e; try discriminate.
        destruct (Hreq _ _ (Hcaps retries) eq_refl) as [Hlt _]. simpl in Hlt. lia.
      * exists (Raise e), [], w1. rewrite app_nil_r.
        destruct e; try discriminate;
          repeat split; try reflexivity; try (intros; discriminate).
  - cbn [run_job Nat.add].
    pose proof (task_retry_request (capsf retries)
                  {| req_id := task_id; req_retries := retries |}
                  file_path query file_id fname aid uid w) as Hreq.
    destruct (analyze_financial_document_task _ _ _ _ _ _ _ _ w) as [[ret|e] w1].
    + exists (Ok ret), [], w1. rewrite app_nil_r.
      repeat split; try reflexivity; try (simpl; lia); try (intros; discriminate).
    + destruct (is_retry e) eqn:He.
      * destruct e as [| | | | | |c x]; try discriminate.
        destruct (Hreq c x (Hcaps retries) eq_refl) as [_ Hc]. simpl in Hc.
        destruct (IH extra (retries + 1) (delays ++ [c])
                    {| w_fs := w_fs w1; w_db := w_db w1; w_clock := w_clock w1 + c;
                       w_calls := w_calls w1 |})
          as (r & new & w' & H1 & H2 & Hlen & Hd & Hfin); [lia | lia |].
        exists r, (c :: new), w'.
        rewrite <- app_assoc in H1, H2. split; [exact H1|]. split; [exact H2|].
        split; [simpl; lia|]. split; [|exact Hfin].
        intros [|k] d Hk; simpl in Hk.
        -- injection Hk as <-. now rewrite Z.add_0_r.
        -- apply Hd in Hk. replace (retries + Z.of_nat (S k)) with (retries + 1 + Z.of_nat k)
             by lia. exact Hk.
      * exists (Raise e), [], w1. rewrite app_nil_r.
        destruct e; try discriminate;
          repeat split; try reflexivity; try (simpl; lia); try (intros; discriminate).
Qed.

(** X16.  Every job ends.  When the collaborators raise only errors of
    their own, the worker's loop started on a fresh job stops after at
    most four attempts: it makes at most three retries, the retry
    number [k] (from 0) after a countdown of 60 seconds or of [2 ^ k]
    seconds, its last attempt does not ask for another retry, and
    running it with more fuel gives the same result. *)
Theorem job_ends_within_four_attempts (capsf : Z → capabilities) (task_id : string)
    (file_path query file_id fname : string) (aid uid : option Z) (w : world)
    (extra : nat) :
  (∀ r, never_retry (capsf r)) →
  ∃ r delays w',
    run_job 4 capsf task_id 0 file_path query file_id fname aid uid [] w
      = Some (r, delays, w') ∧
    run_job (4 + extra) capsf task_id 0 file_path query file_id fname aid uid [] w
      = Some (r, delays, w') ∧
    (length delays ≤ 3)%nat ∧
    (∀ k d, delays !! k = Some d → d = 60 ∨ d = 2 ^ Z.of_nat k) ∧
    (∀ c x, r ≠ Raise (Retry c x)).
Proof.
  intros Hcaps.
  destruct (run_job_ends capsf task_id file_path query file_id fname aid uid Hcaps
              3%nat extra 0 [] w) as (r & new & w' & H1 & H2 & Hlen & Hd & Hfin);
    [reflexivity | lia |].
  exists r, new, w'. simpl in H1, H2.
  split; [exact H2|]. split; [exact H1|]. split; [exact Hlen|]. split.
  - intros k d Hk. apply Hd in Hk. now rewrite Z.add_0_l in Hk.
  - intros c x ->. discriminate.
Qed.

Lemma job_ends_within_four_attempts_witness :
  ∃ r delays w',
    run_job 4 (λ _, sample_caps ["revenue grew"] all_break) "task-1" 0 sample_path
            "summarize risk" "f1" "report.pdf" (Some 1) None [] sample_world
      = Some (r, delays, w') ∧
    run_job (4 + 3) (λ _, sample_caps ["revenue grew"] all_break) "task-1" 0 sample_path
            "summarize risk" "f1" "report.pdf" (Some 1) None [] sample_world
      = Some (r, delays, w') ∧
    (length delays ≤ 3)%nat ∧
    (∀ k d, delays !! k = Some d → d = 60 ∨ d = 2 ^ Z.of_nat k) ∧
    (∀ c x, r ≠ Raise (Retry c x)).
Proof.
  apply (job_ends_within_four_attempts (λ _, sample_caps ["revenue grew"] all_break)
           "task-1" sample_path "summarize risk" "f1" "report.pdf" (Some 1) None
           sample_world 3).
  intros _. split.
  - intros data e. simpl. discriminate.
  - intros st inp e. simpl. now intros [= <-].
Defined.


(** ** A sweep repeated at once *)

(** [cleanup_old_files] run on a world. *)
Lemma cleanup_old_files_run (w : world) :
  let out := cleanup_old_files w in
  out.1 = Ok (CleanupCounts
                (count_if (entry_removed (w_fs w) (w_clock w)) (glob_documents (w_fs w)))
                (count_if (entry_failed (w_fs w) (w_clock w)) (glob_documents (w_fs w)))) ∧
  (∀ p, w_fs out.2 !! p =
        if is_document_path p && entry_removed (w_fs w) (w_clock w) p
        then None else w_fs w !! p) ∧
  w_clock out.2 = w_clock w.
Proof.
  intros out.
  destruct (glob_documents_spec (w_fs w)) as [Hnd Hin].
  destruct (for_each_cleanup (w_clock w) (glob_documents (w_fs w)) 0 0 w Hnd)
    as (Hres & Hfs & _ & Hclock & _).
  cbn zeta in Hres, Hfs, Hclock. rewrite !Z.add_0_l in Hres.
  assert (Hout : out = (Ok (CleanupCounts
      (count_if (entry_removed (w_fs w) (w_clock w)) (glob_documents (w_fs w)))
      (count_if (entry_failed (w_fs w) (w_clock w)) (glob_documents (w_fs w)))),
      (for_each (cleanup_step (w_clock w)) (0, 0) (glob_documents (w_fs w)) w).2)).
  { subst out. unfold cleanup_old_files. rewrite bind_run. cbn [gets].
    unfold try_except. rewrite bind_run. cbn [gets]. rewrite bind_run.
    destruct (for_each _ _ _ w) as [r w']. simpl in Hres. subst r. reflexivity. }
  rewrite Hout. cbn [fst snd]. split; [reflexivity|]. split; [|exact Hclock].
  intros p. rewrite Hfs.
  destruct (is_document_path p) eqn:Hdoc; simpl.
  - destruct (w_fs w !! p) as [n|] eqn:Hp.
    + rewrite bool_decide_eq_true_2; [reflexivity|]. apply Hin. eauto.
    + unfold entry_removed. rewrite Hp. now rewrite andb_false_r.
  - rewrite bool_decide_eq_false_2; [reflexivity|].
    intros H. apply Hin in H as [_ H]. congruence.
Qed.

Lemma count_if_none (f : string → bool) (l : list string) :
  (∀ p, p ∈ l → f p = false) → count_if f l = 0.
Proof.
  induction l as [|p l IH]; intros H; [reflexivity|].
  rewrite count_if_cons, (H p) by apply list_elem_of_here.
  rewrite IH; [reflexivity|]. intros q Hq. apply H. now apply list_elem_of_further.
Qed.

Lemma count_if_same_elements (f g : string → bool) (l l' : list string) :
  NoDup l → NoDup l' →
  (∀ p, p ∈ l ∧ f p = true ↔ p ∈ l' ∧ g p = true) →
  count_if f l = count_if g l'.
Proof.
  intros Hl Hl' H. unfold count_if. f_equal. apply Permutation_length.
  apply NoDup_Permutation; try now apply NoDup_filter.
  intros p. rewrite !list_elem_of_filter. specialize (H p). tauto.
Qed.

Lemma entry_failed_not_removed (fs : filesystem) (now : Z) (p : string) :
  entry_failed fs now p = true → entry_removed fs now p = false.
Proof.
  unfold entry_failed, entry_removed, expired.
  destruct (fs !! p) as [n|]; [|reflexivity].
  destruct (n_stat n); [|reflexivity].
  destruct (n_removable n); [now rewrite andb_false_r | now rewrite andb_false_r].
Qed.

(** X17.  A sweep run again at once removes nothing more: the second
    sweep reports no removal and the same number of errors as the
    first, and leaves the file system as the first sweep left it. *)
Theorem cleanup_twice (w : world) :
  let first := cleanup_old_files w in
  let second := cleanup_old_files first.2 in
  ∃ removed errors,
    first.1 = Ok (CleanupCounts removed errors) ∧
    second.1 = Ok (CleanupCounts 0 errors) ∧
    w_fs second.2 = w_fs first.2.
Proof.
  intros first second.
  destruct (cleanup_old_files_run w) as (H1 & Hfs1 & Hclock1). fold first in H1, Hfs1, Hclock1.
  destruct (cleanup_old_files_run first.2) as (H2 & Hfs2 & _). fold second in H2, Hfs2.
  rewrite Hclock1 in H2, Hfs2.
  set (now := w_clock w) in *. set (fs := w_fs w) in *. set (fs1 := w_fs first.2) in *.
  assert (Hkept : ∀ p, is_Some (fs1 !! p) → is_document_path p = true →
                       fs1 !! p = fs !! p ∧ entry_removed fs now p = false).
  { intros p [n Hp] Hdoc. rewrite Hfs1, Hdoc in Hp. simpl in Hp.
    rewrite Hfs1, Hdoc. simpl.
    destruct (entry_removed fs now p); [discriminate | tauto]. }
  destruct (glob_documents_spec fs) as [Hnd Hin].
  destruct (glob_documents_spec fs1) as [Hnd1 Hin1].
  assert (Hnone : ∀ p, p ∈ glob_documents fs1 → entry_removed fs1 now p = false).
  { intros p Hp. apply Hin1 in Hp as [Hsome Hdoc].
    destruct (Hkept p Hsome Hdoc) as [Heq Hrm].
    now destruct (entry_tests_agree fs fs1 now p Heq) as [-> _]. }
  eexists _, _. split; [exact H1|]. split.
  - rewrite H2. f_equal. f_equal.
    + now apply count_if_none.
    + apply count_if_same_elements; try assumption. intros p.
      rewrite Hin, Hin1. split.
      * intros [[Hsome Hdoc] Hf].
        destruct (Hkept p Hsome Hdoc) as [Heq _].
        destruct (entry_tests_agree fs fs1 now p Heq) as [_ Hfe].
        rewrite Hfe in Hf. rewrite Heq in Hsome. tauto.
      * intros [[Hsome Hdoc] Hf].
        assert (Heq : fs1 !! p = fs !! p).
        { rewrite Hfs1, Hdoc. simpl. now rewrite (entry_failed_not_removed fs now p Hf). }
        destruct (entry_tests_agree fs fs1 now p Heq) as [_ Hfe].
        rewrite Hfe, Heq. tauto.
  - apply map_eq. intros p. rewrite Hfs2.
    destruct (is_document_path p) eqn:Hdoc; [|reflexivity]. simpl.
    destruct (fs1 !! p) as [n|] eqn:Hp; [|now destruct (entry_removed fs1 now p)].
    destruct (Hkept p (ex_intro _ n Hp) Hdoc) as [Heq Hrm].
    destruct (entry_tests_agree fs fs1 now p) as [Hre _]; [congruence|].
    now rewrite Hre, Hrm.
Qed.

(** ** The verification task *)

(** X18.  The verification task never fails on account of the file
    and asks for no retry: for every file it returns status "success"
    with [is_valid] equal to the answer of [validate_pdf_file], so an
    invalid or missing file is reported, not raised (the audit write is
    taken to succeed).  It changes neither the job rows, nor the result
    rows, nor the file system; when it is given a job it writes one
    audit entry, with status success for a valid file and failure for an
    invalid one, and otherwise no entry. *)
Theorem verify_document_task_reports (self : request) (file_path file_id : string)
    (aid uid : option Z) (w : world) :
  let out := verify_document_task self file_path file_id aid uid w in
  ∃ is_valid : bool,
    validate_pdf_file (fs_calls (w_fs w)) file_path = Ok is_valid ∧
    out.1 = Ok (VerifyResult "success" file_id is_valid (req_id self)) ∧
    analyses (w_db out.2) = analyses (w_db w) ∧
    analysis_results (w_db out.2) = analysis_results (w_db w) ∧
    w_fs out.2 = w_fs w ∧
    audit_logs (w_db out.2) =
      audit_logs (w_db w) ++
      match aid with
      | Some id =>
          if id =? 0 then []
          else [{| l_id := Z.of_nat (length (audit_logs (w_db w))) + 1;
                   l_user_id := uid; l_action := "verify_document";
                   l_resource_type := "analysis"; l_resource_id := Some id;
                   l_status := if is_valid then "success" else "failure";
                   l_details := None; l_ip_address := None;
                   l_created_at := w_clock w |}]
      | None => []
      end.
Proof.
  intros out. subst out. unfold verify_document_task, try_finally, try_except.
  rewrite bind_run.
  destruct (validate_pdf_file (fs_calls (w_fs w)) file_path) as [b|e] eqn:Hval;
    [|now destruct (validate_never_raises _ _ _ Hval)].
  exists b. split; [reflexivity|]. rewrite bind_run. unfold if_analysis_id.
  destruct aid as [id|]; [destruct (id =? 0)|]; simpl; rewrite ?app_nil_r;
    repeat split; reflexivity.
Qed.


(** ** The document reader tool *)

Lemma has_slash_cons (c : ascii) (s : string) :
  has_slash (String c s) = Ascii.eqb "/" c || has_slash s.
Proof. reflexivity. Qed.

Lemma has_slash_app (a b : string) : has_slash (a +:+ b) = has_slash a || has_slash b.
Proof.
  induction a as [|c a IH]; [reflexivity|].
  rewrite string_app_cons, !has_slash_cons. now rewrite IH, orb_assoc.
Qed.

Lemma after_last_slash_none (p cand : string) :
  has_slash p = false → after_last_slash cand p = cand.
Proof.
  revert cand. induction p as [|c p IH]; intros cand H; [reflexivity|].
  rewrite has_slash_cons in H. apply orb_false_iff in H as [Hc Hp].
  cbn [after_last_slash]. rewrite Ascii.eqb_sym, Hc. now apply IH.
Qed.

Lemma after_last_slash_some (p : string) :
  has_slash p = true →
  ∃ dir name, p = dir +:+ "/" +:+ name ∧ has_slash name = false ∧
              ∀ cand, after_last_slash cand p = name.
Proof.
  induction p as [|c p IH]; intros H; [discriminate|].
  destruct (has_slash p) eqn:Hp.
  - destruct (IH eq_refl) as (dir & name & -> & Hname & Hlast).
    exists (String c dir), name. split; [reflexivity|]. split; [exact Hname|].
    intros cand. cbn [after_last_slash]. apply Hlast.
  - rewrite has_slash_cons, Hp, orb_false_r in H.
    apply Ascii.eqb_eq in H. subst c.
    exists "", p. split; [reflexivity|]. split; [exact Hp|].
    intros cand. cbn [after_last_slash]. rewrite Ascii.eqb_refl.
    now apply after_last_slash_none.
Qed.

(** The base name is the part of the path after its last [/]. *)
Lemma basename_spec (p : string) :
  has_slash (basename p) = false ∧
  (p = basename p ∨ ∃ dir, p = dir +:+ "/" +:+ basename p).
Proof.
  unfold basename. destruct (has_slash p) eqn:Hp.
  - destruct (after_last_slash_some p Hp) as (dir & name & Heq & Hname & Hlast).
    rewrite Hlast. split; [exact Hname|]. right. now exists dir.
  - rewrite after_last_slash_none by exact Hp. split; [exact Hp | now left].
Qed.

(** A suffix without [/] of a path lies in its base name. *)
Lemma suffix_after_slash (dir name suf : string) :
  has_slash suf = false →
  (∃ pre, dir +:+ "/" +:+ name = pre +:+ suf) → ∃ pre, name = pre +:+ suf.
Proof.
  intros Hsuf. induction dir as [|c dir IH]; intros [pre Heq].
  - destruct pre as [|x pre].
    + assert (E : suf = String "/" name) by (symmetry; exact Heq).
      subst suf. discriminate.
    + assert (E : String "/" name = String x (pre +:+ suf)) by exact Heq.
      injection E as _ E. now exists pre.
  - destruct pre as [|x pre].
    + assert (E : suf = String c dir +:+ "/" +:+ name) by (symmetry; exact Heq).
      subst suf.
      rewrite string_app_cons, has_slash_cons, !has_slash_app in Hsuf.
      change (has_slash "/") with true in Hsuf.
      now rewrite orb_true_r, orb_true_r in Hsuf.
    + rewrite !string_app_cons in Heq. injection Heq as _ Heq. apply IH. now exists pre.
Qed.

Lemma lower_ascii_slash (c : ascii) : Ascii.eqb "/" c = true → lower_ascii c = "/"%char.
Proof. intros H. apply Ascii.eqb_eq in H. now subst c. Qed.

Lemma pdf_suffix_no_slash (suf : string) : lower suf = ".pdf" → has_slash suf = false.
Proof.
  intros H.
  destruct suf as [|c1 [|c2 [|c3 [|c4 [|c5 suf]]]]]; try discriminate H.
  simpl in H. injection H as H1 H2 H3 H4. rewrite !has_slash_cons.
  destruct (Ascii.eqb "/" c1) eqn:E1; [rewrite (lower_ascii_slash _ E1) in H1; discriminate|].
  destruct (Ascii.eqb "/" c2) eqn:E2; [rewrite (lower_ascii_slash _ E2) in H2; discriminate|].
  destruct (Ascii.eqb "/" c3) eqn:E3; [rewrite (lower_ascii_slash _ E3) in H3; discriminate|].
  destruct (Ascii.eqb "/" c4) eqn:E4; [rewrite (lower_ascii_slash _ E4) in H4; discriminate|].
  reflexivity.
Qed.

(** The extension test gives the same answer on a path and on its base
    name under any directory. *)
Lemma extension_of_basename (dir p : string) :
  endswith (lower (dir +:+ "/" +:+ basename p)) ".pdf" = endswith (lower p) ".pdf".
Proof.
  destruct (basename_spec p) as [Hname Hp].
  assert (Hiff : ∀ q, endswith (lower q) ".pdf" = true ↔
                      ∃ suf, lower suf = ".pdf" ∧ ∃ pre, q = pre +:+ suf).
  { intros q. rewrite endswith_lower_spec. split.
    - intros (pre & suf & ? & ?). eauto.
    - intros (suf & ? & pre & ?). eauto. }
  assert (Hbase : ∀ q, (q = basename p ∨ ∃ d, q = d +:+ "/" +:+ basename p) →
            (endswith (lower q) ".pdf" = true ↔ endswith (lower (basename p)) ".pdf" = true)).
  { intros q Hq. rewrite !Hiff. split.
    - intros (suf & Hsuf & Hpre). exists suf. split; [exact Hsuf|].
      destruct Hq as [->|[d ->]]; [exact Hpre|].
      apply (suffix_after_slash d); [now apply pdf_suffix_no_slash | exact Hpre].
    - intros (suf & Hsuf & pre & Hpre). exists suf. split; [exact Hsuf|].
      destruct Hq as [->|[d ->]]; [now exists pre|].
      exists (d +:+ "/" +:+ pre). rewrite Hpre at 1. now rewrite !string_app_assoc. }
  apply eq_true_iff_eq. rewrite (Hbase p Hp). apply Hbase. right. now exists dir.
Qed.

Lemma remove_prefix_spec (pre s name : string) :
  remove_prefix pre s = Some name → s = pre +:+ name.
Proof.
  revert s. induction pre as [|a pre IH]; intros s H.
  - injection H as ->. reflexivity.
  - destruct s as [|b s]; [discriminate|]. cbn [remove_prefix] in H.
    destruct (Ascii.eqb a b) eqn:E; [|discriminate].
    apply Ascii.eqb_eq in E. subst b. rewrite string_app_cons. f_equal. now apply IH.
Qed.

Lemma glob_app_data_pdf_spec (fs : filesystem) (p : string) :
  p ∈ glob_app_data_pdf fs ↔ is_Some (fs !! p) ∧ is_app_data_pdf p = true.
Proof.
  unfold glob_app_data_pdf. rewrite list_elem_of_filter. split.
  - intros [Hpdf Hin]. split; [|exact Hpdf].
    apply list_elem_of_fmap in Hin as ([q n] & -> & Hin).
    apply elem_of_map_to_list in Hin. simpl. eauto.
  - intros [[n Hn] Hpdf]. split; [exact Hpdf|].
    apply list_elem_of_fmap. exists (p, n). split; [reflexivity|].
    now apply elem_of_map_to_list.
Qed.

(** What [glob] lists passes the tool's own tests of a path. *)
Lemma app_data_pdf_path (p : string) :
  is_app_data_pdf p = true → truthy_str p = true ∧ endswith (lower p) ".pdf" = true.
Proof.
  unfold is_app_data_pdf. destruct (remove_prefix "/app/data/" p) as [name|] eqn:Hname;
    [|discriminate].
  apply remove_prefix_spec in Hname. subst p. intros H.
  apply andb_true_iff in H as [_ H]. apply endswith_spec in H as [pre ->].
  split; [reflexivity|]. apply endswith_lower_spec.
  exists ("/app/data/" +:+ pre), ".pdf". split; [|reflexivity].
  now rewrite string_app_assoc.
Qed.

Lemma path_getmtime_cases (fs : filesystem) (p : string) :
  match path_getmtime fs p with
  | Ok _ => path_exists fs p = true
  | Raise e => path_exists fs p = false ∧ e = FileNotFoundError p
  end.
Proof.
  unfold path_getmtime, path_exists.
  destruct (fs !! p) as [n|]; [destruct (n_stat n)|]; auto.
Qed.

(** [max] over the listed paths: the answer is a listed path no other
    listed path is newer than, unless one of them cannot be examined. *)
Lemma max_by_mtime_cases (fs : filesystem) (paths : list string) :
  ∀ best best_time, path_getmtime fs best = Ok best_time →
  match max_by_mtime fs best best_time paths with
  | Ok q =>
      (∀ p, p ∈ paths → path_exists fs p = true) ∧ q ∈ best :: paths ∧
      ∃ t, path_getmtime fs q = Ok t ∧ best_time ≤ t ∧
           ∀ p t', p ∈ paths → path_getmtime fs p = Ok t' → t' ≤ t
  | Raise e => ∃ p, p ∈ paths ∧ path_exists fs p = false ∧ e = FileNotFoundError p
  end.
Proof.
  induction paths as [|p paths IH]; intros best best_time Hbest; cbn [max_by_mtime].
  - split; [intros p Hp; now apply elem_of_nil in Hp|].
    split; [apply list_elem_of_here|]. exists best_time. split; [exact Hbest|].
    split; [lia|]. intros p t' Hp. now apply elem_of_nil in Hp.
  - pose proof (path_getmtime_cases fs p) as Hp.
    destruct (path_getmtime fs p) as [t|e] eqn:Ht; cbn [mbind result_bind].
    + destruct (Z.gtb_spec t best_time) as [Hgt|Hle].
      * specialize (IH p t Ht).
        destruct (max_by_mtime fs p t paths) as [q|e].
        -- destruct IH as (Hall & Hq & tq & Htq & Hge & Hmax).
           split; [intros x Hx; apply elem_of_cons in Hx as [->|Hx]; auto|].
           split. { apply elem_of_cons in Hq as [->|Hq];
                    [apply list_elem_of_further, list_elem_of_here
                    | now do 2 apply list_elem_of_further]. }
           exists tq. split; [exact Htq|]. split; [lia|].
           intros x t' Hx Hxt. apply elem_of_cons in Hx as [->|Hx]; [|eauto].
           rewrite Ht in Hxt. injection Hxt as <-. exact Hge.
        -- destruct IH as (x & Hx & Hnot & ->). exists x.
           split; [now apply list_elem_of_further | tauto].
      * specialize (IH best best_time Hbest).
        destruct (max_by_mtime fs best best_time paths) as [q|e].
        -- destruct IH as (Hall & Hq & tq & Htq & Hge & Hmax).
           split; [intros x Hx; apply elem_of_cons in Hx as [->|Hx]; auto|].
           split. { apply elem_of_cons in Hq as [->|Hq];
                    [apply list_elem_of_here | now do 2 apply list_elem_of_further]. }
           exists tq. split; [exact Htq|]. split; [exact Hge|].
           intros x t' Hx Hxt. apply elem_of_cons in Hx as [->|Hx]; [|eauto].
           rewrite Ht in Hxt. injection Hxt as <-. lia.
        -- destruct IH as (x & Hx & Hnot & ->). exists x.
           split; [now apply list_elem_of_further | tauto].
    + destruct Hp as [Hnot ->]. exists p. split; [apply list_elem_of_here | tauto].
Qed.

Lemma auto_detect_cases (fs : filesystem) :
  match auto_detect fs with
  | Ok q =>
      (∀ p, p ∈ glob_app_data_pdf fs → path_exists fs p = true) ∧
      q ∈ glob_app_data_pdf fs ∧
      ∃ t, path_getmtime fs q = Ok t ∧
           ∀ p t', p ∈ glob_app_data_pdf fs → path_getmtime fs p = Ok t' → t' ≤ t
  | Raise e =>
      (glob_app_data_pdf fs = [] ∧
       e = FileNotFoundError "No PDF files found in /app/data directory") ∨
      ∃ p, p ∈ glob_app_data_pdf fs ∧ path_exists fs p = false ∧ e = FileNotFoundError p
  end.
Proof.
  unfold auto_detect. destruct (glob_app_data_pdf fs) as [|p paths]; [now left|].
  pose proof (path_getmtime_cases fs p) as Hp.
  destruct (path_getmtime fs p) as [t|e] eqn:Ht; cbn [mbind result_bind].
  - pose proof (max_by_mtime_cases fs paths p t Ht) as H.
    destruct (max_by_mtime fs p t paths) as [q|e].
    + destruct H as (Hall & Hq & tq & Htq & Hge & Hmax).
      split; [intros x Hx; apply elem_of_cons in Hx as [->|Hx]; auto|].
      split; [exact Hq|]. exists tq. split; [exact Htq|].
      intros x t' Hx Hxt. apply elem_of_cons in Hx as [->|Hx]; [|eauto].
      rewrite Ht in Hxt. injection Hxt as <-. exact Hge.
    + destruct H as (x & Hx & Hnot & ->). right. exists x.
      split; [now apply list_elem_of_further | tauto].
  - destruct Hp as [Hnot ->]. right. exists p. split; [apply list_elem_of_here | tauto].
Qed.

Lemma alternative_path_existing (fs : filesystem) (p : string) :
  path_exists fs p = true → alternative_path fs p = Ok p.
Proof. intros H. unfold alternative_path. now rewrite H. Qed.

(** The path the tool reads, when it finds one: the path asked for or
    its base name in one of the two data directories; it exists, and its
    extension is that of the path asked for. *)
Lemma alternative_path_cases (fs : filesystem) (p : string) :
  match alternative_path fs p with
  | Ok q =>
      q ∈ [p; "/app/data/" +:+ basename p; "/data/" +:+ basename p] ∧
      path_exists fs q = true ∧
      endswith (lower q) ".pdf" = endswith (lower p) ".pdf"
  | Raise e =>
      e = FileNotFoundError ("PDF file not found: " +:+ p +:+ " or alternatives") ∧
      ∀ q, q ∈ [p; "/app/data/" +:+ basename p; "/data/" +:+ basename p] →
           path_exists fs q = false
  end.
Proof.
  unfold alternative_path. destruct (path_exists fs p) eqn:Hp.
  { split; [apply list_elem_of_here | now split]. }
  cbn [find]. rewrite Hp.
  destruct (path_exists fs ("/app/data/" +:+ basename p)) eqn:H1.
  { split; [apply list_elem_of_further, list_elem_of_here|]. split; [exact H1|].
    apply (extension_of_basename "/app/data" p). }
  destruct (path_exists fs ("/data/" +:+ basename p)) eqn:H2.
  { split; [do 2 apply list_elem_of_further; apply list_elem_of_here|]. split; [exact H2|].
    apply (extension_of_basename "/data" p). }
  split; [reflexivity|]. intros q Hq.
  repeat (apply elem_of_cons in Hq as [->|Hq]; [assumption|]).
  now apply elem_of_nil in Hq.
Qed.

Lemma tool_with_path (reader : result (list byte) → result (list string)) (fs : filesystem)
    (p : string) :
  truthy_str p = true → path_exists fs p = true → endswith (lower p) ".pdf" = true →
  ReadFinancialDocumentTool_run reader fs (Some p) =
    (documents ← reader (path_read fs p);
     let full_report :=
       fold_left (λ full_report content, full_report +:+ join " " (split content) +:+ NL)
                 documents "" in
     if negb (truthy_str (strip full_report)) then Ok EMPTY_PDF_WARNING
     else Ok full_report).
Proof.
  intros Hp Hex Hext. unfold ReadFinancialDocumentTool_run.
  cbn [truthy_ostr default from_option id]. rewrite Hp. cbn [negb mbind result_bind].
  rewrite (alternative_path_existing fs p Hex). cbn [mbind result_bind].
  now rewrite Hext.
Qed.

(** X19.  On a file that [validate_pdf_file] accepts, the reader tool
    and [extract_pdf_text] agree: the tool raises what the extraction
    raises; it answers with its warning exactly when the extraction
    yields the empty text (the case the analysis refuses); otherwise
    the extracted text is the tool's report stripped. *)
Theorem reader_tool_agrees_with_extraction (reader : result (list byte) → result (list string))
    (fs : filesystem) (file_path : string) :
  validate_pdf_file (fs_calls fs) file_path = Ok true →
  match extract_pdf_text reader fs file_path with
  | Raise e => ReadFinancialDocumentTool_run reader fs (Some file_path) = Raise e
  | Ok text =>
      if String.eqb text ""
      then ReadFinancialDocumentTool_run reader fs (Some file_path) = Ok EMPTY_PDF_WARNING
      else ∃ full_report,
             ReadFinancialDocumentTool_run reader fs (Some file_path) = Ok full_report ∧
             strip full_report = text
  end.
Proof.
  intros Hval. apply validate_true_inv in Hval as (Hex & Hext & _ & _).
  cbn [os_path_exists fs_calls] in Hex.
  assert (Hp : truthy_str file_path = true) by (now destruct file_path).
  rewrite (tool_with_path reader fs file_path Hp Hex Hext).
  unfold extract_pdf_text.
  destruct (reader (path_read fs file_path)) as [documents|e]; [|reflexivity].
  cbn [mbind result_bind].
  cbv zeta. unfold truthy_str.
  destruct (String.eqb (strip _) "") eqn:E; cbn [negb]; [reflexivity|].
  eexists. split; reflexivity.
Qed.

Lemma reader_tool_agrees_with_extraction_witness :
  match extract_pdf_text (λ _, Ok ["Revenue  up"; " "]) (w_fs sample_world) sample_path with
  | Raise e =>
      ReadFinancialDocumentTool_run (λ _, Ok ["Revenue  up"; " "]) (w_fs sample_world)
        (Some sample_path) = Raise e
  | Ok text =>
      if String.eqb text ""
      then ReadFinancialDocumentTool_run (λ _, Ok ["Revenue  up"; " "]) (w_fs sample_world)
             (Some sample_path) = Ok EMPTY_PDF_WARNING
      else ∃ full_report,
             ReadFinancialDocumentTool_run (λ _, Ok ["Revenue  up"; " "]) (w_fs sample_world)
               (Some sample_path) = Ok full_report ∧
             strip full_report = text
  end.
Proof.
  apply (reader_tool_agrees_with_extraction (λ _, Ok ["Revenue  up"; " "])
           (w_fs sample_world) sample_path).
  vm_compute. reflexivity.
Defined.

(** X20.  The reader tool never hands an agent a blank text: whatever
    it returns contains a character that is not white space (a blank
    extraction is replaced by the warning). *)
Theorem reader_tool_never_blank (reader : result (list byte) → result (list string))
    (fs : filesystem) (file_path : option string) (report : string) :
  ReadFinancialDocumentTool_run reader fs file_path = Ok report →
  all_space report = false.
Proof.
  unfold ReadFinancialDocumentTool_run.
  destruct (if negb (truthy_ostr file_path) then _ else _) as [p|e];
    cbn [mbind result_bind]; [|discriminate].
  destruct (alternative_path fs p) as [q|e]; cbn [mbind result_bind]; [|discriminate].
  destruct (endswith (lower q) ".pdf"); cbn [negb]; [|discriminate].
  destruct (reader (path_read fs q)) as [documents|e]; cbn [mbind result_bind];
    [|discriminate].
  cbv zeta. unfold truthy_str.
  destruct (String.eqb (strip _) "") eqn:E; cbn [negb]; intros H; injection H as <-.
  - reflexivity.
  - destruct (all_space _) eqn:Hs; [|reflexivity].
    apply strip_empty in Hs. rewrite Hs in E. discriminate.
Qed.

Lemma reader_tool_never_blank_witness :
  all_space ("Revenue up" +:+ NL) = false.
Proof.
  apply (reader_tool_never_blank (λ _, Ok ["Revenue  up"]) (w_fs sample_world)
           (Some sample_path)).
  vm_compute. reflexivity.
Defined.

(** X21.  A path whose name does not end in [.pdf] (in any mix of
    cases) is never read: whatever the PDF reader would do, the tool
    raises.  It raises [FileNotFoundError] when neither the path nor its
    base name under [/app/data] or [/data] exists, and otherwise
    [ValueError] naming the first of these three that exists. *)
Theorem reader_tool_wrong_extension (fs : filesystem) (file_path : string) :
  file_path ≠ "" → endswith (lower file_path) ".pdf" = false →
  ∃ e, (∀ reader, ReadFinancialDocumentTool_run reader fs (Some file_path) = Raise e) ∧
       match find (path_exists fs)
                  [file_path; "/app/data/" +:+ basename file_path;
                   "/data/" +:+ basename file_path] with
       | Some q => e = ValueError ("Expected PDF file: " +:+ q)
       | None => e = FileNotFoundError
                       ("PDF file not found: " +:+ file_path +:+ " or alternatives")
       end.
Proof.
  intros Hne Hext.
  assert (Hp : truthy_str file_path = true) by (now destruct file_path).
  pose proof (alternative_path_cases fs file_path) as Halt.
  assert (Hfind : alternative_path fs file_path =
            match find (path_exists fs)
                       [file_path; "/app/data/" +:+ basename file_path;
                        "/data/" +:+ basename file_path] with
            | Some q => Ok q
            | None => Raise (FileNotFoundError
                               ("PDF file not found: " +:+ file_path +:+ " or alternatives"))
            end).
  { unfold alternative_path. cbn [find].
    destruct (path_exists fs file_path) eqn:H0; [reflexivity|].
    destruct (path_exists fs ("/app/data/" +:+ basename file_path)); [reflexivity|].
    destruct (path_exists fs ("/data/" +:+ basename file_path)); reflexivity. }
  rewrite Hfind in Halt.
  destruct (find (path_exists fs) _) as [q|] eqn:Hq.
  - destruct Halt as (_ & _ & Hsame). rewrite Hext in Hsame.
    eexists. split; [|reflexivity]. intros reader.
    unfold ReadFinancialDocumentTool_run. cbn [truthy_ostr default from_option id]. rewrite Hp.
    cbn [negb mbind result_bind]. rewrite Hfind. cbn [mbind result_bind].
    now rewrite Hsame.
  - eexists. split; [|reflexivity]. intros reader.
    unfold ReadFinancialDocumentTool_run. cbn [truthy_ostr default from_option id]. rewrite Hp.
    cbn [negb mbind result_bind]. now rewrite Hfind.
Qed.

Lemma reader_tool_wrong_extension_witness :
  ∃ e, (∀ reader, ReadFinancialDocumentTool_run reader app_data_fs (Some "docs/notes.txt")
                  = Raise e) ∧
       match find (path_exists app_data_fs)
                  ["docs/notes.txt"; "/app/data/" +:+ basename "docs/notes.txt";
                   "/data/" +:+ basename "docs/notes.txt"] with
       | Some q => e = ValueError ("Expected PDF file: " +:+ q)
       | None => e = FileNotFoundError
                       ("PDF file not found: " +:+ "docs/notes.txt" +:+ " or alternatives")
       end.
Proof.
  apply (reader_tool_wrong_extension app_data_fs "docs/notes.txt");
    [discriminate | vm_compute; reflexivity].
Defined.

(** X22.  Called without a path (or with the empty path), the tool
    looks in [/app/data]: with no [*.pdf] entry there it raises
    [FileNotFoundError]; when an entry cannot be examined it raises
    [FileNotFoundError] for such an entry; otherwise it answers as if it
    had been asked for one of the listed files, one that no listed file
    is newer than. *)
Theorem reader_tool_auto_detect (reader : result (list byte) → result (list string))
    (fs : filesystem) (file_path : option string) :
  truthy_ostr file_path = false →
  let listed := glob_app_data_pdf fs in
  (listed = [] →
     ReadFinancialDocumentTool_run reader fs file_path =
       Raise (FileNotFoundError "No PDF files found in /app/data directory")) ∧
  ((∃ p, p ∈ listed ∧ path_exists fs p = false) →
     ∃ p, p ∈ listed ∧ path_exists fs p = false ∧
          ReadFinancialDocumentTool_run reader fs file_path = Raise (FileNotFoundError p)) ∧
  (listed ≠ [] → (∀ p, p ∈ listed → path_exists fs p = true) →
     ∃ q t, q ∈ listed ∧ path_getmtime fs q = Ok t ∧
            (∀ p t', p ∈ listed → path_getmtime fs p = Ok t' → t' ≤ t) ∧
            ReadFinancialDocumentTool_run reader fs file_path =
              ReadFinancialDocumentTool_run reader fs (Some q)).
Proof.
  intros Hnone listed.
  assert (Hrun : ∀ o', ReadFinancialDocumentTool_run reader fs o' =
            (p ← (if negb (truthy_ostr o') then auto_detect fs else Ok (default "" o'));
             q ← alternative_path fs p;
             if negb (endswith (lower q) ".pdf")
             then Raise (ValueError ("Expected PDF file: " +:+ q))
             else
               documents ← reader (path_read fs q);
               let full_report :=
                 fold_left (λ full_report content,
                              full_report +:+ join " " (split content) +:+ NL)
                           documents "" in
               if negb (truthy_str (strip full_report)) then Ok EMPTY_PDF_WARNING
               else Ok full_report)) by reflexivity.
  pose proof (auto_detect_cases fs) as Hauto. fold listed in Hauto.
  split; [|split].
  - intros Hnil. rewrite Hrun, Hnone. cbn [negb]. unfold auto_detect.
    fold listed. now rewrite Hnil.
  - intros (x & Hx & Hnot). rewrite Hrun, Hnone. cbn [negb].
    destruct (auto_detect fs) as [q|e].
    + destruct Hauto as (Hall & _). rewrite (Hall x Hx) in Hnot. discriminate.
    + destruct Hauto as [[Hnil _]|(p & Hp & Hpn & ->)].
      * rewrite Hnil in Hx. now apply elem_of_nil in Hx.
      * exists p. now repeat split.
  - intros Hsome Hall. rewrite (Hrun file_path), Hnone. cbn [negb].
    destruct (auto_detect fs) as [q|e].
    + destruct Hauto as (_ & Hq & t & Ht & Hmax). exists q, t.
      split; [exact Hq|]. split; [exact Ht|]. split; [exact Hmax|].
      apply glob_app_data_pdf_spec in Hq as [_ Hq].
      destruct (app_data_pdf_path q Hq) as [Htruthy _].
      rewrite (Hrun (Some q)). cbn [truthy_ostr default from_option id]. rewrite Htruthy. reflexivity.
    + destruct Hauto as [[Hnil _]|(p & Hp & Hpn & _)]; [contradiction|].
      rewrite (Hall p Hp) in Hpn. discriminate.
Qed.

Lemma reader_tool_auto_detect_witness :
  let listed := glob_app_data_pdf app_data_fs in
  (listed = [] →
     ReadFinancialDocumentTool_run (λ _, Ok ["Revenue up"]) app_data_fs None =
       Raise (FileNotFoundError "No PDF files found in /app/data directory")) ∧
  ((∃ p, p ∈ listed ∧ path_exists app_data_fs p = false) →
     ∃ p, p ∈ listed ∧ path_exists app_data_fs p = false ∧
          ReadFinancialDocumentTool_run (λ _, Ok ["Revenue up"]) app_data_fs None =
            Raise (FileNotFoundError p)) ∧
  (listed ≠ [] → (∀ p, p ∈ listed → path_exists app_data_fs p = true) →
     ∃ q t, q ∈ listed ∧ path_getmtime app_data_fs q = Ok t ∧
            (∀ p t', p ∈ listed → path_getmtime app_data_fs p = Ok t' → t' ≤ t) ∧
            ReadFinancialDocumentTool_run (λ _, Ok ["Revenue up"]) app_data_fs None =
              ReadFinancialDocumentTool_run (λ _, Ok ["Revenue up"]) app_data_fs (Some q)).
Proof.
  apply (reader_tool_auto_detect (λ _, Ok ["Revenue up"]) app_data_fs None).
  reflexivity.
Defined.

(** The directory of the example: the newer of the two documents is
    read, and the note is not considered. *)
Example auto_detect_newest :
  auto_detect app_data_fs = Ok "/app/data/new.pdf" ∧
  ReadFinancialDocumentTool_run (λ _, Ok ["Revenue  up"]) app_data_fs None =
    Ok ("Revenue up" +:+ NL).
Proof. split; by_evaluation. Qed.
